(** * Metris AI chat API: the prompt assembler, the stream relay and the
    two request handlers, embedded from the JavaScript sources.

    - [Stream]   is the streaming handler (the file that declares
                 [MAX_HISTORY], [buildMessages] and the read loop);
    - [Buffered] is [api/chat.js], the buffered handler.

    The JavaScript built-ins the handlers call ([String.prototype.slice],
    [split], [trim], [TextDecoder.decode], [JSON.parse], property access on
    dynamically typed values) are modelled in [JS], [Utf8] and [Json]. *)

From Stdlib Require Import List ZArith NArith Lia Bool.
From Stdlib.Strings Require String Ascii Byte.
Import String.StringSyntax.
Import ListNotations.

Set Warnings "-register-all".

(* ===================================================================== *)
(** ** JavaScript values and the string and array built-ins               *)
(* ===================================================================== *)

Module JS.

(** A JavaScript string is a sequence of UTF-16 code units. *)
Definition code_unit := N.
Definition jstring := list code_unit.

(** String literals of the sources.  Every literal of the sources is ASCII;
    inside [lit] a backquote stands for the double-quote character (no
    literal of the sources holds a backquote). *)
Definition lit (s : String.string) : jstring :=
  map (fun b => let n := Byte.to_N b in if N.eqb n 96 then 34%N else n)
      (String.list_byte_of_string s).
Arguments lit s%_string_scope.

Definition nl : jstring := [10%N].

Fixpoint streq (a b : jstring) : bool :=
  match a, b with
  | [], [] => true
  | x :: a', y :: b' => N.eqb x y && streq a' b'
  | _, _ => false
  end.

(** A number is an IEEE 754 double.  [Finite negative m e] is the double
    of magnitude [m * 2 ^ e], with [0 <= m < 2 ^ 53] and
    [-1074 <= e <= 971]; no literal denotes NaN. *)
Inductive number :=
| Finite (negative : bool) (m e : Z)
| Infinite (negative : bool).

(** The values a request body or a parsed frame can hold, and [undefined],
    which property access produces.  An object keeps its members in source
    order; a later member with the same key overrides an earlier one. *)
Inductive value :=
| VUndefined
| VNull
| VBool (b : bool)
| VNumber (n : number)
| VString (s : jstring)
| VArray (elems : list value)
| VObject (members : list (jstring * value)).

(** Exceptions. *)
Inductive error :=
| TypeError
| SyntaxError
| Error (message : jstring).

Inductive result (A : Type) :=
| Ok (a : A)
| Throw (e : error).
Arguments Ok {A} a.
Arguments Throw {A} e.

Definition bind {A B} (r : result A) (k : A -> result B) : result B :=
  match r with
  | Ok a => k a
  | Throw e => Throw e
  end.

(** [mapM f l]: [Array.prototype.map] with a callback that may throw; the
    first exception ends the iteration. *)
Fixpoint mapM {A B} (f : A -> result B) (l : list A) : result (list B) :=
  match l with
  | [] => Ok []
  | a :: l' =>
      bind (f a) (fun b => bind (mapM f l') (fun bs => Ok (b :: bs)))
  end.

(** *** Numbers *)

(** The double nearest to the positive rational [num / den]: round to
    nearest, ties to even, gradual underflow, overflow to infinity. *)
Definition nearest (negative : bool) (num den : Z) : number :=
  let e0 := (Z.log2 num - Z.log2 den - 52)%Z in
  let scaled (e : Z) : Z * Z :=
    if (0 <=? e)%Z then (num, den * 2 ^ e)%Z else (num * 2 ^ (- e), den)%Z in
  let e1 :=
    let (n, d) := scaled e0 in
    if (2 ^ 52 <=? n / d)%Z then e0 else (e0 - 1)%Z in
  let e := Z.max e1 (-1074) in
  let (n, d) := scaled e in
  let q := (n / d)%Z in
  let r := (n mod d)%Z in
  let up := (d <? 2 * r)%Z || ((d =? 2 * r)%Z && Z.odd q) in
  let m := if up then (q + 1)%Z else q in
  let '(m, e) := if (m =? 2 ^ 53)%Z then (2 ^ 52, e + 1)%Z else (m, e) in
  if (971 <? e)%Z then Infinite negative else Finite negative m e.

(** The value of a decimal literal: [m * 10 ^ e] with [0 <= m]. *)
Definition decimal (negative : bool) (m e : Z) : number :=
  if (m =? 0)%Z then Finite negative 0 0
  else if (0 <=? e)%Z then nearest negative (m * 10 ^ e) 1
  else nearest negative m (10 ^ (- e)).

Definition number_is_zero (n : number) : bool :=
  match n with
  | Finite _ m _ => (m =? 0)%Z
  | Infinite _ => false
  end.

(** *** ToBoolean *)
Definition truthy (v : value) : bool :=
  match v with
  | VUndefined | VNull => false
  | VBool b => b
  | VNumber n => negb (number_is_zero n)
  | VString s => match s with [] => false | _ => true end
  | VArray _ | VObject _ => true
  end.

(** [a || b] *)
Definition or_else (a b : value) : value := if truthy a then a else b.

(** *** Property access *)

(** The last member of an object with the given key. *)
Fixpoint lookup (key : jstring) (members : list (jstring * value)) : option value :=
  match members with
  | [] => None
  | (k, v) :: rest =>
      match lookup key rest with
      | Some v' => Some v'
      | None => if streq k key then Some v else None
      end
  end.

(** [v.key] for a data property name [key] that no built-in prototype
    defines (body, title, role, content, question, context, history,
    choices, delta, message): reading it off [undefined] or [null] throws,
    off an object yields the member, off anything else yields [undefined]. *)
Definition get (v : value) (key : jstring) : result value :=
  match v with
  | VUndefined | VNull => Throw TypeError
  | VObject members =>
      Ok (match lookup key members with Some x => x | None => VUndefined end)
  | _ => Ok VUndefined
  end.

(** [v[0]]: the first element of an array, the first code unit of a
    string, the member named 0 of an object. *)
Definition get0 (v : value) : result value :=
  match v with
  | VUndefined | VNull => Throw TypeError
  | VArray elems => Ok (match elems with x :: _ => x | [] => VUndefined end)
  | VString s => Ok (match s with c :: _ => VString [c] | [] => VUndefined end)
  | VObject members =>
      Ok (match lookup [48%N] members with Some x => x | None => VUndefined end)
  | _ => Ok VUndefined
  end.

Definition nullish (v : value) : bool :=
  match v with
  | VUndefined | VNull => true
  | _ => false
  end.

(** [v?.key] and [v?.[0]] *)
Definition opt_get (v : value) (key : jstring) : result value :=
  if nullish v then Ok VUndefined else get v key.

Definition opt_get0 (v : value) : result value :=
  if nullish v then Ok VUndefined else get0 v.

(** *** slice, on strings and on arrays *)

(** [x.slice(start, end)]: a negative index counts from the end, and both
    are clamped to the length. *)
Definition relative_index (len i : Z) : Z :=
  if Z.ltb i 0 then Z.max (len + i) 0 else Z.min i len.

Definition slice {A} (l : list A) (start : Z) (end_ : option Z) : list A :=
  let len := Z.of_nat (length l) in
  let from := relative_index len start in
  let to := match end_ with Some e => relative_index len e | None => len end in
  firstn (Z.to_nat (Z.max (to - from) 0)) (skipn (Z.to_nat from) l).

(** [s.startsWith(prefix)] *)
Fixpoint startsWith (s prefix : jstring) : bool :=
  match prefix, s with
  | [], _ => true
  | p :: prefix', c :: s' => N.eqb c p && startsWith s' prefix'
  | _ :: _, [] => false
  end.

(** [s.split(sep)] for a separator of one code unit: never empty. *)
Fixpoint split (sep : code_unit) (s : jstring) : list jstring :=
  match s with
  | [] => [[]]
  | c :: s' =>
      if N.eqb c sep then [] :: split sep s'
      else match split sep s' with
           | [] => [[c]]
           | l :: ls => (c :: l) :: ls
           end
  end.

(** WhiteSpace and LineTerminator code units, as [trim] strips them. *)
Definition is_space (c : code_unit) : bool :=
  ((9 <=? c) && (c <=? 13) || (c =? 32) || (c =? 160) || (c =? 5760)
   || (8192 <=? c) && (c <=? 8202) || (c =? 8232) || (c =? 8233)
   || (c =? 8239) || (c =? 8287) || (c =? 12288) || (c =? 65279))%N.

Fixpoint trimStart (s : jstring) : jstring :=
  match s with
  | c :: s' => if is_space c then trimStart s' else s
  | [] => []
  end.

Definition trimEnd (s : jstring) : jstring := rev (trimStart (rev s)).

Definition trim (s : jstring) : jstring := trimEnd (trimStart s).

(** [parts.join(sep)] *)
Fixpoint join (sep : jstring) (parts : list jstring) : jstring :=
  match parts with
  | [] => []
  | [p] => p
  | p :: rest => p ++ sep ++ join sep rest
  end.

(** Decimal digits of a natural number ([Number::toString] of a small
    non-negative integer such as an article index). *)
Fixpoint digits_of_uint (d : Decimal.uint) : jstring :=
  match d with
  | Decimal.Nil => []
  | Decimal.D0 d' => 48%N :: digits_of_uint d'
  | Decimal.D1 d' => 49%N :: digits_of_uint d'
  | Decimal.D2 d' => 50%N :: digits_of_uint d'
  | Decimal.D3 d' => 51%N :: digits_of_uint d'
  | Decimal.D4 d' => 52%N :: digits_of_uint d'
  | Decimal.D5 d' => 53%N :: digits_of_uint d'
  | Decimal.D6 d' => 54%N :: digits_of_uint d'
  | Decimal.D7 d' => 55%N :: digits_of_uint d'
  | Decimal.D8 d' => 56%N :: digits_of_uint d'
  | Decimal.D9 d' => 57%N :: digits_of_uint d'
  end.

Definition nat_to_string (n : nat) : jstring := digits_of_uint (Nat.to_uint n).

(** *** Number::toString *)

(** The position of the decimal point: the [n] with
    [10 ^ (n - 1) <= num / den < 10 ^ n], searched upwards from [n]. *)
Fixpoint point_from (fuel : nat) (n : Z) (num den : Z) : Z :=
  match fuel with
  | O => n
  | S fuel' =>
      let below :=
        if (0 <=? n)%Z then (num <? den * 10 ^ n)%Z
        else (num * 10 ^ (- n) <? den)%Z in
      if below then n else point_from fuel' (n + 1)%Z num den
  end.

(** The shortest digits [s] (with [k] digits, [k] from [k] upwards) for
    which [s * 10 ^ (n - k)] is nearest to the double [x = num / den], and
    of those the closest to [x]: the integer just below or just above
    [x / 10 ^ (n - k)]. *)
Fixpoint shortest (fuel : nat) (k : Z) (x : number) (num den n : Z) : Z * Z :=
  let '(tn, td) :=
    if (0 <=? n - k)%Z then (num, den * 10 ^ (n - k))%Z
    else (num * 10 ^ (k - n), den)%Z in
  let lo := (tn / td)%Z in
  let hi := (lo + 1)%Z in
  let reads_back (s : Z) : bool :=
    match decimal false s (n - k), x with
    | Finite _ m e, Finite _ m' e' => (m =? m')%Z && (e =? e')%Z
    | _, _ => false
    end in
  let lo_closer := (2 * (tn mod td) <? td)%Z
                   || ((2 * (tn mod td) =? td)%Z && Z.even lo) in
  let normal (s : Z) : Z * Z :=
    if (s =? 10 ^ k)%Z then (10 ^ (k - 1), n + 1)%Z else (s, n) in
  match fuel with
  | O => (lo, n)
  | S fuel' =>
      match reads_back lo, reads_back hi with
      | true, true => if lo_closer then (lo, n) else normal hi
      | true, false => (lo, n)
      | false, true => normal hi
      | false, false => shortest fuel' (k + 1)%Z x num den n
      end
  end.

Definition zeros (n : Z) : jstring := repeat 48%N (Z.to_nat n).

(** The digits [s] with the decimal point after the [n]-th of them, as
    [Number::toString] lays them out. *)
Definition layout (s n : Z) : jstring :=
  let digits := digits_of_uint (N.to_uint (Z.to_N s)) in
  let k := Z.of_nat (length digits) in
  if ((k <=? n) && (n <=? 21))%Z then digits ++ zeros (n - k)
  else if ((0 <? n) && (n <=? 21))%Z then
    firstn (Z.to_nat n) digits ++ [46%N] ++ skipn (Z.to_nat n) digits
  else if ((-6 <? n) && (n <=? 0))%Z then
    [48%N; 46%N] ++ zeros (- n) ++ digits
  else
    let sign := if (0 <=? n - 1)%Z then 43%N else 45%N in
    let power := digits_of_uint (N.to_uint (Z.to_N (Z.abs (n - 1)))) in
    match digits with
    | [] => []
    | [d] => [d; 101%N; sign] ++ power
    | d :: rest => [d; 46%N] ++ rest ++ [101%N; sign] ++ power
    end.

Definition number_to_string (x : number) : jstring :=
  match x with
  | Infinite negative =>
      (if negative then [45%N] else []) ++ lit "Infinity"
  | Finite negative m e =>
      if (m =? 0)%Z then [48%N]
      else
        let '(num, den) := if (0 <=? e)%Z then (m * 2 ^ e, 1)%Z else (m, 2 ^ (- e))%Z in
        let n := point_from 640 (-324) num den in
        let '(s, n') := shortest 17 1 (Finite false m e) num den n in
        (if negative then [45%N] else []) ++ layout s n'
  end.

(** *** ToString *)

(** [String(v)], which a template literal applies to each substitution.
    An array prints its elements joined by commas, [null] and [undefined]
    elements as nothing.  A parsed object has no callable member, so one
    with a member named toString cannot be converted. *)
Fixpoint ToString (v : value) : result jstring :=
  match v with
  | VUndefined => Ok (lit "undefined")
  | VNull => Ok (lit "null")
  | VBool true => Ok (lit "true")
  | VBool false => Ok (lit "false")
  | VNumber n => Ok (number_to_string n)
  | VString s => Ok s
  | VArray elems =>
      bind (mapM (fun e => if nullish e then Ok [] else ToString e) elems)
           (fun parts => Ok (join [44%N] parts))
  | VObject members =>
      match lookup (lit "toString") members with
      | Some _ => Throw TypeError
      | None => Ok (lit "[object Object]")
      end
  end.

(** *** Sequencing of computations that may throw *)
Notation "x <- e ;; k" := (bind e (fun x => k))
  (at level 200, e at level 100, k at level 200, right associativity).

(** [x.slice(start, end)] on a value: strings and arrays have the method;
    on anything else the call is a TypeError. *)
Definition call_slice (x : value) (start : Z) (end_ : option Z) : result value :=
  match x with
  | VString s => Ok (VString (slice s start end_))
  | VArray elems => Ok (VArray (slice elems start end_))
  | _ => Throw TypeError
  end.

End JS.

(* ===================================================================== *)
(** ** TextDecoder: streaming UTF-8 decoding                              *)
(* ===================================================================== *)

Module Utf8.
Import JS.

(** The state of [new TextDecoder()] (UTF-8, replacement error mode, BOM
    not ignored), which [decode(value, { stream: true })] keeps between
    calls: a read may end inside a multi-byte character. *)
Record decoder := Decoder {
  code_point : N;
  bytes_seen : N;
  bytes_needed : N;
  lower_boundary : N;
  upper_boundary : N;
  bom_seen : bool
}.

Definition new_decoder : decoder := Decoder 0 0 0 128 191 false.

Definition reset (d : decoder) : decoder := Decoder 0 0 0 128 191 (bom_seen d).

Definition replacement : N := 65533.

(** A byte read when no character is pending. *)
Definition lead (d : decoder) (b : N) : decoder * list N :=
  let bom := bom_seen d in
  if (b <=? 127)%N then (d, [b])
  else if ((194 <=? b) && (b <=? 223))%N then
    (Decoder (N.land b 31) 0 1 128 191 bom, [])
  else if ((224 <=? b) && (b <=? 239))%N then
    (Decoder (N.land b 15) 0 2
       (if (b =? 224)%N then 160 else 128)
       (if (b =? 237)%N then 159 else 191) bom, [])
  else if ((240 <=? b) && (b <=? 244))%N then
    (Decoder (N.land b 7) 0 3
       (if (b =? 240)%N then 144 else 128)
       (if (b =? 244)%N then 143 else 191) bom, [])
  else (d, [replacement]).

(** One byte through the decoder: the scalar values it completes.  A byte
    that cannot continue the pending character ends it with U+FFFD and is
    then read again as a lead byte. *)
Definition step (d : decoder) (b : N) : decoder * list N :=
  if (bytes_needed d =? 0)%N then lead d b
  else if ((b <? lower_boundary d) || (upper_boundary d <? b))%N then
    let (d', out) := lead (reset d) b in (d', replacement :: out)
  else
    let cp := N.lor (N.shiftl (code_point d) 6) (N.land b 63) in
    let seen := (bytes_seen d + 1)%N in
    if (seen =? bytes_needed d)%N then (reset d, [cp])
    else (Decoder cp seen (bytes_needed d) 128 191 (bom_seen d), []).

(** A scalar value as UTF-16 code units. *)
Definition utf16 (cp : N) : jstring :=
  if (cp <? 65536)%N then [cp]
  else let c := (cp - 65536)%N in [(55296 + c / 1024)%N; (56320 + c mod 1024)%N].

(** The decoded scalar values become text; the first one of the stream is
    dropped when it is the byte order mark. *)
Fixpoint serialize (d : decoder) (scalars : list N) : decoder * jstring :=
  match scalars with
  | [] => (d, [])
  | cp :: rest =>
      if bom_seen d then
        let (d', text) := serialize d rest in (d', utf16 cp ++ text)
      else
        let d1 := Decoder (code_point d) (bytes_seen d) (bytes_needed d)
                          (lower_boundary d) (upper_boundary d) true in
        let (d', text) := serialize d1 rest in
        (d', if (cp =? 65279)%N then text else utf16 cp ++ text)
  end.

(** [decoder.decode(value, { stream: true })] *)
Fixpoint decode (d : decoder) (bytes : list Byte.byte) : decoder * jstring :=
  match bytes with
  | [] => (d, [])
  | b :: rest =>
      let (d1, scalars) := step d (Byte.to_N b) in
      let (d2, text) := serialize d1 scalars in
      let (d3, text') := decode d2 rest in
      (d3, text ++ text')
  end.

(** The end of the input: a pending character is cut short. *)
Definition flush (d : decoder) : jstring :=
  if (bytes_needed d =? 0)%N then []
  else snd (serialize d [replacement]).

(** The whole body of a response as text ([Response.text()]). *)
Definition decode_all (chunks : list (list Byte.byte)) : jstring :=
  let (d, text) := decode new_decoder (concat chunks) in text ++ flush d.

End Utf8.

(* ===================================================================== *)
(** ** JSON.parse                                                         *)
(* ===================================================================== *)

Module Json.
Import JS.

Inductive token :=
| TLBrace | TRBrace | TLBracket | TRBracket | TColon | TComma
| TString (s : jstring)
| TScalar (v : value).

(** *** Lexer: one code unit at a time *)

Inductive lex_state :=
| LStart
| LWord (rev_chars : jstring)
| LString (rev_chars : jstring)
| LEscape (rev_chars : jstring)
| LUnicode (rev_chars : jstring) (read : nat) (code : N).

Definition is_ws (c : code_unit) : bool :=
  ((c =? 32) || (c =? 9) || (c =? 10) || (c =? 13))%N.

Definition is_digit (c : code_unit) : bool := ((48 <=? c) && (c <=? 57))%N.

(** The code units of numbers and of the words true, false and null.  A
    maximal run of them is one token: the grammar lets none of them follow
    a number or a word. *)
Definition is_word_char (c : code_unit) : bool :=
  (is_digit c || (65 <=? c) && (c <=? 90) || (97 <=? c) && (c <=? 122)
   || (c =? 43) || (c =? 45) || (c =? 46))%N.

Definition hex_digit (c : code_unit) : option N :=
  if is_digit c then Some (c - 48)%N
  else if ((97 <=? c) && (c <=? 102))%N then Some (c - 87)%N
  else if ((65 <=? c) && (c <=? 70))%N then Some (c - 55)%N
  else None.

Fixpoint span_digits (s : jstring) : jstring * jstring :=
  match s with
  | c :: s' =>
      if is_digit c then let (ds, rest) := span_digits s' in (c :: ds, rest)
      else ([], s)
  | [] => ([], [])
  end.

Definition digits_value (ds : jstring) : Z :=
  fold_left (fun acc c => (acc * 10 + Z.of_N (c - 48))%Z) ds 0%Z.

(** The exponent part: empty, or e or E, an optional sign and digits. *)
Definition exponent_of (s : jstring) : option Z :=
  match s with
  | [] => Some 0%Z
  | c :: s1 =>
      if ((c =? 101) || (c =? 69))%N then
        let '(negative, s2) :=
          match s1 with
          | 45%N :: r => (true, r)
          | 43%N :: r => (false, r)
          | _ => (false, s1)
          end in
        match span_digits s2 with
        | ((_ :: _) as ds, []) =>
            Some (if negative then (- digits_value ds)%Z else digits_value ds)
        | _ => None
        end
      else None
  end.

(** A number literal: an optional minus sign, an integer part with no
    leading zero, an optional fraction, an optional exponent. *)
Definition number_of (w : jstring) : option number :=
  let '(negative, w1) :=
    match w with
    | 45%N :: r => (true, r)
    | _ => (false, w)
    end in
  let (int_part, w2) := span_digits w1 in
  let int_ok :=
    match int_part with
    | [] => false
    | [_] => true
    | c :: _ => negb (c =? 48)%N
    end in
  if negb int_ok then None
  else
    let fraction :=
      match w2 with
      | 46%N :: r =>
          match span_digits r with
          | ((_ :: _) as fs, w3) => Some (fs, w3)
          | _ => None
          end
      | _ => Some ([], w2)
      end in
    match fraction with
    | None => None
    | Some (frac_part, w3) =>
        match exponent_of w3 with
        | None => None
        | Some e =>
            let m := digits_value (int_part ++ frac_part) in
            Some (decimal negative m (e - Z.of_nat (length frac_part)))
        end
    end.

Definition word_token (w : jstring) : option token :=
  if streq w (lit "true") then Some (TScalar (VBool true))
  else if streq w (lit "false") then Some (TScalar (VBool false))
  else if streq w (lit "null") then Some (TScalar VNull)
  else option_map (fun n => TScalar (VNumber n)) (number_of w).

(** A code unit read between tokens. *)
Definition lex_start (c : code_unit) : option (lex_state * list token) :=
  if is_ws c then Some (LStart, [])
  else if (c =? 123)%N then Some (LStart, [TLBrace])
  else if (c =? 125)%N then Some (LStart, [TRBrace])
  else if (c =? 91)%N then Some (LStart, [TLBracket])
  else if (c =? 93)%N then Some (LStart, [TRBracket])
  else if (c =? 58)%N then Some (LStart, [TColon])
  else if (c =? 44)%N then Some (LStart, [TComma])
  else if (c =? 34)%N then Some (LString [], [])
  else if is_word_char c then Some (LWord [c], [])
  else None.

(** The character an escape stands for. *)
Definition escape (c : code_unit) : option code_unit :=
  if ((c =? 34) || (c =? 92) || (c =? 47))%N then Some c
  else if (c =? 98)%N then Some 8%N
  else if (c =? 102)%N then Some 12%N
  else if (c =? 110)%N then Some 10%N
  else if (c =? 114)%N then Some 13%N
  else if (c =? 116)%N then Some 9%N
  else None.

Definition lex_step (st : lex_state) (c : code_unit)
  : option (lex_state * list token) :=
  match st with
  | LStart => lex_start c
  | LWord w =>
      if is_word_char c then Some (LWord (c :: w), [])
      else
        match word_token (rev w), lex_start c with
        | Some t, Some (st', ts) => Some (st', t :: ts)
        | _, _ => None
        end
  | LString acc =>
      if (c =? 34)%N then Some (LStart, [TString (rev acc)])
      else if (c =? 92)%N then Some (LEscape acc, [])
      else if (c <? 32)%N then None
      else Some (LString (c :: acc), [])
  | LEscape acc =>
      if (c =? 117)%N then Some (LUnicode acc 0 0%N, [])
      else option_map (fun e => (LString (e :: acc), [])) (escape c)
  | LUnicode acc read code =>
      match hex_digit c with
      | None => None
      | Some h =>
          let code' := (code * 16 + h)%N in
          if Nat.eqb read 3 then Some (LString (code' :: acc), [])
          else Some (LUnicode acc (S read) code', [])
      end
  end.

Fixpoint lex (st : lex_state) (s : jstring) : option (list token) :=
  match s with
  | [] =>
      match st with
      | LStart => Some []
      | LWord w => option_map (fun t => [t]) (word_token (rev w))
      | _ => None
      end
  | c :: s' =>
      match lex_step st c with
      | None => None
      | Some (st', ts) => option_map (app ts) (lex st' s')
      end
  end.

(** *** Parser: one token at a time, with the open containers on a stack *)

Inductive frame :=
| FArray (rev_elems : list value)
| FObject (rev_members : list (jstring * value)) (key : option jstring).

Inductive expect :=
| EValue          (* a value *)
| EValueOrClose   (* just after an opening bracket *)
| EKeyOrClose     (* just after an opening brace *)
| EKey            (* after a comma in an object *)
| EColon
| ECommaOrClose.

Inductive pstate :=
| PRun (stack : list frame) (ex : expect)
| PDone (v : value).

(** A value is complete: it is the result, or it goes into the innermost
    open container. *)
Definition complete (v : value) (stack : list frame) : option pstate :=
  match stack with
  | [] => Some (PDone v)
  | FArray elems :: below => Some (PRun (FArray (v :: elems) :: below) ECommaOrClose)
  | FObject members (Some k) :: below =>
      Some (PRun (FObject ((k, v) :: members) None :: below) ECommaOrClose)
  | FObject _ None :: _ => None
  end.

Definition start_value (t : token) (stack : list frame) : option pstate :=
  match t with
  | TScalar v => complete v stack
  | TString s => complete (VString s) stack
  | TLBracket => Some (PRun (FArray [] :: stack) EValueOrClose)
  | TLBrace => Some (PRun (FObject [] None :: stack) EKeyOrClose)
  | _ => None
  end.

Definition close (t : token) (stack : list frame) : option pstate :=
  match t, stack with
  | TRBracket, FArray elems :: below => complete (VArray (rev elems)) below
  | TRBrace, FObject members None :: below => complete (VObject (rev members)) below
  | _, _ => None
  end.

Definition key (t : token) (stack : list frame) : option pstate :=
  match t, stack with
  | TString k, FObject members None :: below =>
      Some (PRun (FObject members (Some k) :: below) EColon)
  | _, _ => None
  end.

Definition parse_step (st : pstate) (t : token) : option pstate :=
  match st with
  | PDone _ => None
  | PRun stack EValue => start_value t stack
  | PRun stack EValueOrClose =>
      match t with
      | TRBracket => close t stack
      | _ => start_value t stack
      end
  | PRun stack EKeyOrClose =>
      match t with
      | TRBrace => close t stack
      | _ => key t stack
      end
  | PRun stack EKey => key t stack
  | PRun stack EColon =>
      match t with
      | TColon => Some (PRun stack EValue)
      | _ => None
      end
  | PRun stack ECommaOrClose =>
      match t, stack with
      | TComma, FArray _ :: _ => Some (PRun stack EValue)
      | TComma, FObject _ None :: _ => Some (PRun stack EKey)
      | TComma, _ => None
      | _, _ => close t stack
      end
  end.

Fixpoint parse_tokens (st : pstate) (ts : list token) : option value :=
  match ts with
  | [] => match st with PDone v => Some v | PRun _ _ => None end
  | t :: ts' =>
      match parse_step st t with
      | Some st' => parse_tokens st' ts'
      | None => None
      end
  end.

(** [JSON.parse(text)] *)
Definition parse (text : jstring) : result value :=
  match lex LStart text with
  | Some ts =>
      match parse_tokens (PRun [] EValue) ts with
      | Some v => Ok v
      | None => Throw SyntaxError
      end
  | None => Throw SyntaxError
  end.

End Json.

(* ===================================================================== *)
(** ** Requests, responses and the completion provider                    *)
(* ===================================================================== *)

Module Http.
Import JS.

(** What a handler reads of [req]. *)
Record request := Request {
  req_method : jstring;
  req_body : value
}.

(** One [res.write] of the relay: a token frame, that is the data prefix,
    the object that holds the token as [JSON.stringify] prints it, and two
    line feeds; or the terminal frame, the data prefix, [DONE] and two line
    feeds. *)
Inductive written :=
| DataToken (token : value)
| DataDone.

(** What a handler has done to the body of [res] when it returns: ended
    it empty, sent an object with [res.json], written frames and ended, or
    written frames and then, in its [catch], called [res.json]. *)
Inductive res_body :=
| NoBody
| JsonBody (v : value)
| EventStream (frames : list written)
| FramesThenJson (frames : list written) (v : value).

(** What a handler has sent when it returns: the status, the headers it
    set with [setHeader], and the body. *)
Record response := Response {
  res_status : Z;
  res_headers : list (jstring * jstring);
  res_sent : res_body
}.

Record message := Message {
  role : jstring;
  content : jstring
}.

(** The body of the POST to the provider, before [JSON.stringify]. *)
Record completion_request := CompletionRequest {
  model : jstring;
  messages : list message;
  max_tokens : Z;
  temperature : number;
  stream : option bool
}.

(** One call of [fetch]. *)
Record fetch_call := FetchCall {
  url : jstring;
  authorization : jstring;
  payload : completion_request
}.

(** The provider's answer: its status line, the chunks its reader yields,
    and how the reading ends: with the read that reports done, or with a
    read that rejects. *)
Record upstream := Upstream {
  up_status : Z;
  up_statusText : jstring;
  up_body : list (list Byte.byte);
  up_failure : option error
}.

Definition ok (u : upstream) : bool :=
  (200 <=? up_status u)%Z && (up_status u <=? 299)%Z.

(** The statuses of an answer that [fetch] gives no body: the null body
    statuses of the Fetch standard. *)
Definition null_body_status (status : Z) : bool :=
  (status =? 101)%Z || (status =? 103)%Z || (status =? 204)%Z
  || (status =? 205)%Z || (status =? 304)%Z.

(** [res.body]: null, or the stream of the chunks with its end. *)
Definition body_of (u : upstream) : option (list (list Byte.byte) * option error) :=
  if null_body_status (up_status u) then None
  else Some (up_body u, up_failure u).

(** [await res.text()]: the empty text for no body, the decoded chunks of
    a body read to its end, the exception of a read that rejects. *)
Definition body_text (u : upstream) : result jstring :=
  match body_of u with
  | None => Ok []
  | Some (chunks, None) => Ok (Utf8.decode_all chunks)
  | Some (_, Some e) => Throw e
  end.

Inductive fetch_result :=
| Rejected (e : error)
| Resolved (u : upstream).

(** The provider, as the handler sees it through [fetch]. *)
Definition provider := fetch_call -> fetch_result.

Inductive logged :=
| LogOpenAIError (status : Z) (err : jstring)
| LogChatApiError (e : error).

(** How the handler's promise settles. *)
Inductive settled :=
| Responded (r : response)
| Unhandled (e : error).

(** A run of a handler: how it settled, the calls it made to the provider
    and what it logged with [console.error]. *)
Record outcome := Outcome {
  result_of : settled;
  fetch_calls : list fetch_call;
  console : list logged
}.

Definition cors : list (jstring * jstring) :=
  [ (lit "Access-Control-Allow-Origin", lit "*");
    (lit "Access-Control-Allow-Methods", lit "POST, OPTIONS");
    (lit "Access-Control-Allow-Headers", lit "Content-Type") ].

(** [res.status(code).json({ name: text })] *)
Definition json (code : Z) (name text : jstring) : settled :=
  Responded (Response code cors (JsonBody (VObject [(name, VString text)]))).

Definition not_configured : jstring :=
  lit "Metris AI isn't configured for this environment. Please browse the articles above or email support@metrisenergy.com.".

Definition apology : jstring :=
  lit "Sorry, I had trouble answering that. Please try again or contact support@metrisenergy.com.".

Definition endpoint : jstring := lit "https://api.openai.com/v1/chat/completions".

(** [!apiKey] for [process.env.OPENAI_API_KEY]: unset, or the empty string. *)
Definition missing (apiKey : option jstring) : bool :=
  match apiKey with
  | None | Some [] => true
  | Some (_ :: _) => false
  end.

(** [typeof req.body === 'string' ? JSON.parse(req.body) : req.body || {}] *)
Definition read_body (req : request) : result value :=
  match req_body req with
  | VString text => Json.parse text
  | b => Ok (or_else b (VObject []))
  end.

(** [typeof body.question === 'string' ? body.question.trim() : ''] *)
Definition read_question (body : value) : result jstring :=
  q <- get body (lit "question") ;;
  Ok (match q with VString s => trim s | _ => [] end).

(** [Array.isArray(body.name) ? body.name : []] *)
Definition read_array (body : value) (name : jstring) : result value :=
  a <- get body name ;;
  Ok (match a with VArray _ => a | _ => VArray [] end).

End Http.

(* ===================================================================== *)
(** ** The streaming handler                                              *)
(* ===================================================================== *)

Module Stream.
Import JS Http.

Definition MAX_CONTEXT_ITEMS : Z := 5.
Definition MAX_BODY_LENGTH : Z := 2800.
Definition MAX_HISTORY : Z := 10.

(** The fixed text of the system prompt, up to the articles.  In the
    template literal a backslash before a bracket yields the bracket, and
    backslash-t, backslash-f and backslash-n yield a tab, a form feed and a
    line feed. *)
Definition persona_lines : list jstring :=
  [ lit "You are Metris AI, a friendly and knowledgeable support assistant for Metris Energy, a solar asset management platform used by asset managers, O&M providers, and their customers.";
    [];
    lit "Your personality:";
    lit "- Warm, approachable, and genuinely helpful. Like a knowledgeable colleague, not a robot";
    lit "- Use natural, conversational language. Say `you` and `your`, not `the user`";
    lit "- Keep things clear and concise, but don't be cold or overly formal";
    lit "- It's fine to say `Great question!` or `Happy to help with that` when it feels natural, but don't overdo it";
    lit "- If something is a common question, reassure them it comes up a lot";
    lit "- Use short paragraphs. Break up longer answers so they're easy to scan";
    [];
    lit "Writing style:";
    lit "- Never use em dashes. Use commas, full stops, or separate sentences instead";
    lit "- Never use the word `actually`";
    lit "- Avoid dramatic or exaggerated language. No `incredibly`, `absolutely`, `game-changing`, `revolutionary`, etc. Just be straightforward and genuine";
    lit "- NEVER use LaTeX, MathJax, or any math notation like [ ], " ++ [9%N] ++ lit "ext{}, " ++ [12%N] ++ lit "rac{}, etc. Write all formulas in plain text, e.g. `CO2 Savings = Generation (kWh) x 0.207074 (kg CO2/kWh)`. The chat has no math renderer so LaTeX will show as raw ugly text";
    lit "- For subscripts like CO2, just write CO2 in plain text";
    lit "- When writing numbered lists, use standard markdown: `1. First item" ++ [10%N] ++ lit "2. Second item" ++ [10%N] ++ lit "3. Third item` with no blank lines between items";
    [];
    lit "Source citations:";
    lit "- At the end of your answer, on a new line, add a `Sources:` section listing the article titles you drew from";
    lit "- Format each source as: Sources: Article Title 1, Article Title 2";
    lit "- Only cite articles you used. If you didn't use any, skip the Sources line";
    [];
    lit "Honesty and uncertainty:";
    lit "- Answer ONLY from the knowledge base articles provided below. Do not invent or assume information";
    lit "- If you are not 100% sure about something, say so clearly. Use phrases like `I'm not certain about this` or `I don't have the detail on that` rather than guessing";
    lit "- NEVER make up an answer. It is far better to say you don't know than to give wrong information";
    lit "- If the answer isn't covered in the articles, or you're only partially confident, tell them honestly and direct them to email support@metrisenergy.com for a definitive answer";
    lit "- When you're uncertain, always end with something like: `For a definitive answer, I'd recommend emailing support@metrisenergy.com directly. The team typically responds within 2 hours.`";
    lit "- Never fabricate features, numbers, formulas, or processes. If a specific number or detail isn't in the articles, don't guess it";
    lit "- You have conversation history, so handle follow-up questions naturally";
    [];
    lit "Knowledge base articles:";
    [];
    [] ].

Definition persona : jstring := join nl persona_lines.

Definition separator : jstring := nl ++ nl ++ lit "---" ++ nl ++ nl.

Definition no_articles : jstring := lit "No articles were provided.".

(** [items.map((item, i) => f(item, i))], [i] counting from [start]. *)
Fixpoint map_indexed {B} (f : value -> nat -> result B) (items : list value)
  (start : nat) : result (list B) :=
  match items with
  | [] => Ok []
  | item :: rest =>
      b <- f item start ;;
      bs <- map_indexed f rest (S start) ;;
      Ok (b :: bs)
  end.

(** The callback of [map] in [buildSystemPrompt]. *)
Definition block (item : value) (i : nat) : result jstring :=
  item_body <- get item (lit "body") ;;
  body <- call_slice (or_else item_body (VString [])) 0 (Some MAX_BODY_LENGTH) ;;
  item_title <- get item (lit "title") ;;
  title_text <- ToString (or_else item_title (VString (lit "Article"))) ;;
  body_text <- ToString body ;;
  Ok (lit "## [Article " ++ nat_to_string (i + 1) ++ lit "] " ++ title_text
        ++ nl ++ body_text).

Definition buildSystemPrompt (context : value) : result jstring :=
  first <- call_slice (or_else context (VArray [])) 0 (Some MAX_CONTEXT_ITEMS) ;;
  blocks <- match first with
            | VArray items => map_indexed block items 0
            | _ => Throw TypeError
            end ;;
  let refs := join separator blocks in
  Ok (persona ++ match refs with [] => no_articles | _ => refs end).

(** The body of the loop over [recent] in [buildMessages]: the message a
    history entry contributes, if any. *)
Definition keep (msg : value) : result (option message) :=
  r <- get msg (lit "role") ;;
  match r with
  | VString r' =>
      if streq r' (lit "user") || streq r' (lit "assistant") then
        c <- get msg (lit "content") ;;
        text <- ToString (or_else c (VString [])) ;;
        Ok (Some (Message r' (slice text 0 (Some 2000%Z))))
      else Ok None
  | _ => Ok None
  end.

Fixpoint for_recent (recent : list value) : result (list message) :=
  match recent with
  | [] => Ok []
  | msg :: rest =>
      m <- keep msg ;;
      ms <- for_recent rest ;;
      Ok (match m with Some x => x :: ms | None => ms end)
  end.

(** What [for (const msg of recent)] iterates over: the elements of an
    array; the characters of a string (none of which has a role). *)
Definition iterate (recent : value) : result (list value) :=
  match recent with
  | VArray elems => Ok elems
  | VString s => Ok (map (fun c => VString [c]) s)
  | _ => Throw TypeError
  end.

Definition buildMessages (systemPrompt question : jstring) (history : value)
  : result (list message) :=
  recent <- call_slice (or_else history (VArray [])) (- MAX_HISTORY) None ;;
  entries <- iterate recent ;;
  kept <- for_recent entries ;;
  Ok ([Message (lit "system") systemPrompt] ++ kept
        ++ [Message (lit "user") question]).

(** *** The relay: the loop over the reads of the provider's body *)

(** [parsed.choices?.[0]?.delta?.content] of the parsed payload. *)
Definition token_of (payload : jstring) : result value :=
  parsed <- Json.parse payload ;;
  choices <- get parsed (lit "choices") ;;
  first <- opt_get0 choices ;;
  delta <- opt_get first (lit "delta") ;;
  opt_get delta (lit "content").

(** [for (const line of lines)]: what it writes.  The [break] at the
    terminal payload leaves this loop. *)
Fixpoint for_lines (lines : list jstring) : list written :=
  match lines with
  | [] => []
  | line :: rest =>
      if negb (startsWith line (lit "data: ")) then for_lines rest
      else
        let payload := trim (slice line 6 None) in
        if streq payload (lit "[DONE]") then [DataDone]
        else
          match token_of payload with
          | Ok token =>
              if truthy token then DataToken token :: for_lines rest
              else for_lines rest
          | Throw _ => for_lines rest
          end
  end.

(** The variables the [while] loop carries from one read to the next. *)
Record relay := Relay {
  decoder : Utf8.decoder;
  buffer : jstring
}.

Definition start : relay := Relay Utf8.new_decoder [].

(** One turn of [while (true)] with a read that is not done. *)
Definition on_read (st : relay) (value : list Byte.byte) : relay * list written :=
  let (d, text) := Utf8.decode (decoder st) value in
  let lines := split 10%N (buffer st ++ text) in
  (Relay d (last lines []), for_lines (removelast lines)).

(** The [while] loop over the reads, up to the read that is done. *)
Fixpoint while_reading (st : relay) (reads : list (list Byte.byte)) : list written :=
  match reads with
  | [] => []
  | value :: rest =>
      let (st', out) := on_read st value in
      out ++ while_reading st' rest
  end.

Definition event_stream_headers : list (jstring * jstring) :=
  [ (lit "Content-Type", lit "text/event-stream");
    (lit "Cache-Control", lit "no-cache");
    (lit "Connection", lit "keep-alive") ].

(** What the [catch] of the handler sends once the event-stream headers
    are set: [res.status(200).json] of the apology, after the frames
    written so far. *)
Definition caught (frames : list written) : settled :=
  Responded (Response 200 (cors ++ event_stream_headers)
               (FramesThenJson frames (VObject [(lit "reply", VString apology)]))).

(** The call to the provider and the relay of its answer: the [try] block
    of the handler with its [catch].  An exception before the headers of
    the event stream are set, of [fetch] or of [openaiRes.text()], is
    answered with the apology alone; after them it is the exception of
    [getReader] on a body that is null, or of a read that rejects after
    the frames of the reads before it were written. *)
Definition complete (fetch : provider) (apiKey : jstring) (msgs : list message)
  : outcome :=
  let call :=
    FetchCall endpoint (lit "Bearer " ++ apiKey)
      (CompletionRequest (lit "gpt-4o-mini") msgs 1024 (decimal false 5 (-1)) (Some true)) in
  match fetch call with
  | Rejected e =>
      Outcome (json 200 (lit "reply") apology) [call] [LogChatApiError e]
  | Resolved openaiRes =>
      if negb (ok openaiRes) then
        match body_text openaiRes with
        | Ok err =>
            Outcome (json 200 (lit "reply") apology) [call]
                    [LogOpenAIError (up_status openaiRes) err]
        | Throw e =>
            Outcome (json 200 (lit "reply") apology) [call] [LogChatApiError e]
        end
      else
        match body_of openaiRes with
        | None => Outcome (caught []) [call] [LogChatApiError TypeError]
        | Some (reads, None) =>
            Outcome
              (Responded (Response 200 (cors ++ event_stream_headers)
                 (EventStream (while_reading start reads))))
              [call] []
        | Some (reads, Some e) =>
            Outcome (caught (while_reading start reads)) [call] [LogChatApiError e]
        end
  end.

Definition handler (apiKey : option jstring) (fetch : provider) (req : request)
  : outcome :=
  if streq (req_method req) (lit "OPTIONS") then
    Outcome (Responded (Response 204 cors NoBody)) [] []
  else if negb (streq (req_method req) (lit "POST")) then
    Outcome (json 405 (lit "error") (lit "Method not allowed")) [] []
  else if missing apiKey then
    Outcome (json 200 (lit "reply") not_configured) [] []
  else
    match read_body req with
    | Throw _ => Outcome (json 400 (lit "error") (lit "Invalid JSON")) [] []
    | Ok body =>
        (* from here to the call of the provider nothing catches an
           exception *)
        let prepared :=
          question <- read_question body ;;
          context <- read_array body (lit "context") ;;
          history <- read_array body (lit "history") ;;
          match question with
          | [] => Ok None
          | _ =>
              systemPrompt <- buildSystemPrompt context ;;
              msgs <- buildMessages systemPrompt question history ;;
              Ok (Some msgs)
          end in
        match prepared with
        | Throw e => Outcome (Unhandled e) [] []
        | Ok None => Outcome (json 400 (lit "error") (lit "Missing question")) [] []
        | Ok (Some msgs) =>
            complete fetch (match apiKey with Some k => k | None => [] end) msgs
        end
    end.

End Stream.

(* ===================================================================== *)
(** ** The buffered handler (api/chat.js)                                 *)
(* ===================================================================== *)

Module Buffered.
Import JS Http.

Definition MAX_CONTEXT_ITEMS : Z := 5.
Definition MAX_BODY_LENGTH : Z := 2800.

Definition persona : jstring :=
  lit "You are Metris AI, the support assistant for Metris Energy's solar asset management platform. Answer the user's question using ONLY the following knowledge base articles. If the answer is not in these articles, say so and suggest they browse the knowledge base or contact support@metrisenergy.com. Keep answers concise and helpful. Do not make up information."
  ++ nl ++ nl.

Definition separator : jstring := nl ++ nl ++ lit "---" ++ nl ++ nl.

Definition no_articles : jstring := lit "No articles were provided.".

(** The callback of [map] in [buildSystemPrompt]. *)
Definition block (item : value) : result jstring :=
  item_body <- get item (lit "body") ;;
  body <- call_slice (or_else item_body (VString [])) 0 (Some MAX_BODY_LENGTH) ;;
  item_title <- get item (lit "title") ;;
  title_text <- ToString (or_else item_title (VString (lit "Article"))) ;;
  body_text <- ToString body ;;
  Ok (lit "## " ++ title_text ++ nl ++ body_text).

Definition buildSystemPrompt (context : value) : result jstring :=
  first <- call_slice (or_else context (VArray [])) 0 (Some MAX_CONTEXT_ITEMS) ;;
  blocks <- match first with
            | VArray items => mapM block items
            | _ => Throw TypeError
            end ;;
  let refs := join separator blocks in
  Ok (persona ++ match refs with [] => no_articles | _ => refs end).

(** [data?.choices?.[0]?.message?.content] *)
Definition content_of (data : value) : result value :=
  choices <- opt_get data (lit "choices") ;;
  first <- opt_get0 choices ;;
  msg <- opt_get first (lit "message") ;;
  opt_get msg (lit "content").

(** [callOpenAI]: the reply or the exception, and the calls made. *)
Definition callOpenAI (fetch : provider) (apiKey question : jstring) (context : value)
  : result jstring * list fetch_call :=
  match buildSystemPrompt context with
  | Throw e => (Throw e, [])
  | Ok systemPrompt =>
      let call :=
        FetchCall endpoint (lit "Bearer " ++ apiKey)
          (CompletionRequest (lit "gpt-4o-mini")
             [Message (lit "system") systemPrompt; Message (lit "user") question]
             1024 (decimal false 3 (-1)) None) in
      let answer :=
        match fetch call with
        | Rejected e => Throw e
        | Resolved res =>
            if negb (ok res) then
              err <- body_text res ;;
              Throw (Error (if (up_status res =? 429)%Z then lit "Rate limit"
                            else match err with
                                 | [] => up_statusText res
                                 | _ => err
                                 end))
            else
              text <- body_text res ;;
              data <- Json.parse text ;;
              c <- content_of data ;;
              match c with
              | VString s => Ok (trim s)
              | _ => Throw (Error (lit "Invalid response from OpenAI"))
              end
        end in
      (answer, [call])
  end.

Definition handler (apiKey : option jstring) (fetch : provider) (req : request)
  : outcome :=
  if streq (req_method req) (lit "OPTIONS") then
    Outcome (Responded (Response 204 cors NoBody)) [] []
  else if negb (streq (req_method req) (lit "POST")) then
    Outcome (json 405 (lit "error") (lit "Method not allowed")) [] []
  else if missing apiKey then
    Outcome (json 200 (lit "reply") not_configured) [] []
  else
    match read_body req with
    | Throw _ => Outcome (json 400 (lit "error") (lit "Invalid JSON")) [] []
    | Ok body =>
        let prepared :=
          question <- read_question body ;;
          context <- read_array body (lit "context") ;;
          Ok (question, context) in
        match prepared with
        | Throw e => Outcome (Unhandled e) [] []
        | Ok ([], _) => Outcome (json 400 (lit "error") (lit "Missing question")) [] []
        | Ok (question, context) =>
            match callOpenAI fetch (match apiKey with Some k => k | None => [] end)
                             question context with
            | (Ok reply, calls) => Outcome (json 200 (lit "reply") reply) calls []
            | (Throw e, calls) =>
                Outcome (json 500 (lit "reply") apology) calls [LogChatApiError e]
            end
        end
    end.

End Buffered.

(* ===================================================================== *)
(** ** The buffered handler with the friendly persona                     *)
(* ===================================================================== *)

(** The third source file: [api/chat.js] with a longer persona text and the
    temperature 0.5. *)
Module Friendly.
Import JS Http.

Definition MAX_CONTEXT_ITEMS : Z := 5.
Definition MAX_BODY_LENGTH : Z := 2800.

(** The fixed text of the system prompt; the dashes in it are U+2014. *)
Definition persona_lines : list jstring :=
  [ lit "You are Metris AI, a friendly and knowledgeable support assistant for Metris Energy " ++ [8212%N] ++ lit " a solar asset management platform used by asset managers, O&M providers, and their customers.";
    [];
    lit "Your personality:";
    lit "- Warm, approachable, and genuinely helpful " ++ [8212%N] ++ lit " like a knowledgeable colleague, not a robot";
    lit "- Use natural, conversational language. Say `you` and `your`, not `the user`";
    lit "- Keep things clear and concise, but don't be cold or overly formal";
    lit "- It's fine to say `Great question!` or `Happy to help with that` when it feels natural " ++ [8212%N] ++ lit " but don't overdo it";
    lit "- If something is a common question, reassure them it comes up a lot";
    lit "- Use short paragraphs. Break up longer answers so they're easy to scan";
    [];
    lit "Rules:";
    lit "- Answer ONLY from the knowledge base articles provided below. Do not invent or assume information";
    lit "- If the answer isn't covered in the articles, be honest: let them know you couldn't find it and suggest they email support@metrisenergy.com or browse the knowledge base for more";
    lit "- Never fabricate features, numbers, or processes";
    [];
    lit "Knowledge base articles:";
    [];
    [] ].
Definition persona : jstring := join nl persona_lines.

Definition separator : jstring := nl ++ nl ++ lit "---" ++ nl ++ nl.

Definition no_articles : jstring := lit "No articles were provided.".

(** The callback of [map] in [buildSystemPrompt]. *)
Definition block (item : value) : result jstring :=
  item_body <- get item (lit "body") ;;
  body <- call_slice (or_else item_body (VString [])) 0 (Some MAX_BODY_LENGTH) ;;
  item_title <- get item (lit "title") ;;
  title_text <- ToString (or_else item_title (VString (lit "Article"))) ;;
  body_text <- ToString body ;;
  Ok (lit "## " ++ title_text ++ nl ++ body_text).

Definition buildSystemPrompt (context : value) : result jstring :=
  first <- call_slice (or_else context (VArray [])) 0 (Some MAX_CONTEXT_ITEMS) ;;
  blocks <- match first with
            | VArray items => mapM block items
            | _ => Throw TypeError
            end ;;
  let refs := join separator blocks in
  Ok (persona ++ match refs with [] => no_articles | _ => refs end).

(** [data?.choices?.[0]?.message?.content] *)
Definition content_of (data : value) : result value :=
  choices <- opt_get data (lit "choices") ;;
  first <- opt_get0 choices ;;
  msg <- opt_get first (lit "message") ;;
  opt_get msg (lit "content").

(** [callOpenAI]: the reply or the exception, and the calls made. *)
Definition callOpenAI (fetch : provider) (apiKey question : jstring) (context : value)
  : result jstring * list fetch_call :=
  match buildSystemPrompt context with
  | Throw e => (Throw e, [])
  | Ok systemPrompt =>
      let call :=
        FetchCall endpoint (lit "Bearer " ++ apiKey)
          (CompletionRequest (lit "gpt-4o-mini")
             [Message (lit "system") systemPrompt; Message (lit "user") question]
             1024 (decimal false 5 (-1)) None) in
      let answer :=
        match fetch call with
        | Rejected e => Throw e
        | Resolved res =>
            if negb (ok res) then
              err <- body_text res ;;
              Throw (Error (if (up_status res =? 429)%Z then lit "Rate limit"
                            else match err with
                                 | [] => up_statusText res
                                 | _ => err
                                 end))
            else
              text <- body_text res ;;
              data <- Json.parse text ;;
              c <- content_of data ;;
              match c with
              | VString s => Ok (trim s)
              | _ => Throw (Error (lit "Invalid response from OpenAI"))
              end
        end in
      (answer, [call])
  end.

Definition handler (apiKey : option jstring) (fetch : provider) (req : request)
  : outcome :=
  if streq (req_method req) (lit "OPTIONS") then
    Outcome (Responded (Response 204 cors NoBody)) [] []
  else if negb (streq (req_method req) (lit "POST")) then
    Outcome (json 405 (lit "error") (lit "Method not allowed")) [] []
  else if missing apiKey then
    Outcome (json 200 (lit "reply") not_configured) [] []
  else
    match read_body req with
    | Throw _ => Outcome (json 400 (lit "error") (lit "Invalid JSON")) [] []
    | Ok body =>
        let prepared :=
          question <- read_question body ;;
          context <- read_array body (lit "context") ;;
          Ok (question, context) in
        match prepared with
        | Throw e => Outcome (Unhandled e) [] []
        | Ok ([], _) => Outcome (json 400 (lit "error") (lit "Missing question")) [] []
        | Ok (question, context) =>
            match callOpenAI fetch (match apiKey with Some k => k | None => [] end)
                             question context with
            | (Ok reply, calls) => Outcome (json 200 (lit "reply") reply) calls []
            | (Throw e, calls) =>
                Outcome (json 500 (lit "reply") apology) calls [LogChatApiError e]
            end
        end
    end.

End Friendly.

(* ===================================================================== *)
(** ** The provider's stream of the decoder test                          *)
(* ===================================================================== *)

Module Sample.
Import JS Http.

(** ASCII text as the bytes of a read. *)
Definition bytes (text : jstring) : list Byte.byte :=
  map (fun c => match Byte.of_N c with Some b => b | None => Byte.x00 end) text.

Definition frame_Hel : jstring :=
  lit "data: {`choices`:[{`delta`:{`content`:`Hel`}}]}" ++ nl ++ nl.

Definition frame_lo : jstring :=
  lit "data: {`choices`:[{`delta`:{`content`:`lo`}}]}" ++ nl ++ nl.

Definition frame_done : jstring := lit "data: [DONE]" ++ nl ++ nl.

(** The concatenated content of the upstream stream. *)
Definition content : list Byte.byte := bytes (frame_Hel ++ frame_lo ++ frame_done).

(** The content in two reads, cut at byte offset [k]. *)
Definition split_at (k : nat) : list (list Byte.byte) :=
  [firstn k content; skipn k content].

End Sample.

(* ===================================================================== *)
(** ** The inputs as the interface declares them                          *)
(* ===================================================================== *)

Module Interface.
Import JS Http.

(** An entry of [context]: [{ title?: string, body?: string }]. *)
Record KnowledgeItem := KnowledgeItem_of {
  title : option jstring;
  body : option jstring
}.

(** An entry of [history]: [{ role: string, content?: string }]. *)
Record HistoryTurn := HistoryTurn_of {
  turn_role : jstring;
  turn_content : option jstring
}.

Definition field (name : jstring) (f : option jstring) (members : list (jstring * value))
  : Prop :=
  lookup name members = option_map VString f.

(** The value [v] is an entry of that shape: an object whose title and
    body are each missing or a string, whatever other members it has. *)
Definition item_shape (k : KnowledgeItem) (v : value) : Prop :=
  exists members,
    v = VObject members
    /\ field (lit "title") (title k) members
    /\ field (lit "body") (body k) members.

Definition turn_shape (t : HistoryTurn) (v : value) : Prop :=
  exists members,
    v = VObject members
    /\ field (lit "role") (Some (turn_role t)) members
    /\ field (lit "content") (turn_content t) members.

(** Concrete entries have their shape by computation. *)
Ltac shapes :=
  repeat constructor; eexists; (split; [reflexivity |]); split; reflexivity.

(** *** The prompt as the specification words it *)

Definition text_of (field : option jstring) : jstring :=
  match field with
  | Some s => s
  | None => []
  end.

(** The title shown for an item: its own, or Article when it has none. *)
Definition shown_title (k : KnowledgeItem) : jstring :=
  match text_of (title k) with
  | [] => lit "Article"
  | t => t
  end.

(** The body shown for an item: a hard cut at 2800 code units. *)
Definition shown_body (k : KnowledgeItem) : jstring :=
  firstn 2800 (text_of (body k)).

Definition stream_block (i : nat) (k : KnowledgeItem) : jstring :=
  lit "## [Article " ++ nat_to_string (i + 1) ++ lit "] " ++ shown_title k
    ++ nl ++ shown_body k.

Definition buffered_block (k : KnowledgeItem) : jstring :=
  lit "## " ++ shown_title k ++ nl ++ shown_body k.

(** [f i x0; f (i + 1) x1; ...] *)
Fixpoint numbered {A B} (f : nat -> A -> B) (i : nat) (l : list A) : list B :=
  match l with
  | [] => []
  | x :: l' => f i x :: numbered f (S i) l'
  end.

(** The article section: the blocks joined by the separator, or the
    placeholder sentence when there is no block. *)
Definition articles (blocks : list jstring) : jstring :=
  match blocks with
  | [] => lit "No articles were provided."
  | _ => join (nl ++ nl ++ lit "---" ++ nl ++ nl) blocks
  end.

Definition stream_prompt (ctx : list KnowledgeItem) : jstring :=
  Stream.persona ++ articles (numbered stream_block 0 (firstn 5 ctx)).

Definition buffered_prompt (ctx : list KnowledgeItem) : jstring :=
  Buffered.persona ++ articles (map buffered_block (firstn 5 ctx)).

(** *** The entries the assemblers render *)











(** *** The messages as the specification words them *)

(** The last [n] entries of a list. *)
Definition last_n {A} (n : nat) (l : list A) : list A := skipn (length l - n) l.

Definition is_dialogue (t : HistoryTurn) : bool :=
  streq (turn_role t) (lit "user") || streq (turn_role t) (lit "assistant").

Definition turn_message (t : HistoryTurn) : message :=
  Message (turn_role t) (firstn 2000 (text_of (turn_content t))).



(** *** Requests *)

(** The question of a parsed body is blank: missing, not a string, empty,
    or white space only. *)
Definition blank_question (body : value) : bool :=
  match get body (lit "question") with
  | Ok (VString s) => forallb is_space s
  | _ => true
  end.

(** A provider that cannot be reached: [fetch] rejects. *)
Definition unreachable : provider := fun _ => Rejected TypeError.

End Interface.

(* ===================================================================== *)
(** ** The provider's side of the stream                                  *)
(* ===================================================================== *)

Module Wire.
Import JS.

Definition hex_char (n : N) : code_unit :=
  if (n <? 10)%N then (48 + n)%N else (87 + n)%N.

(** A code unit inside a JSON string: the quote, the backslash and the
    control characters are escaped. *)
Definition escape_unit (c : code_unit) : jstring :=
  if (c =? 34)%N then [92%N; 34%N]
  else if (c =? 92)%N then [92%N; 92%N]
  else if (c =? 10)%N then [92%N; 110%N]
  else if (c =? 13)%N then [92%N; 114%N]
  else if (c =? 9)%N then [92%N; 116%N]
  else if (c <? 32)%N then
    [92%N; 117%N; 48%N; 48%N; hex_char (c / 16); hex_char (c mod 16)]
  else [c].

Definition escape (s : jstring) : jstring := flat_map escape_unit s.

(** The payload of a frame that carries the text [token] as the content of
    the delta of its first choice. *)
Definition payload (token : jstring) : jstring :=
  lit "{`choices`:[{`delta`:{`content`:`" ++ escape token ++ lit "`}}]}".

(** A frame: the data line and an empty line. *)
Definition frame (token : jstring) : jstring :=
  lit "data: " ++ payload token ++ nl ++ nl.

Definition terminal : jstring := lit "data: [DONE]" ++ nl ++ nl.

(** A body: the frames of the tokens, then the terminal frame or nothing. *)
Definition body (tokens : list jstring) (done : bool) : jstring :=
  concat (map frame tokens) ++ (if done then terminal else []).

(** What the relay owes for such a body. *)
Definition relayed (tokens : list jstring) (done : bool) : list Http.written :=
  map (fun t => Http.DataToken (VString t))
      (filter (fun t => match t with [] => false | _ => true end) tokens)
  ++ (if done then [Http.DataDone] else []).

(** The data line of a frame, and the lines of the frames of a body. *)
Definition data_of (token : jstring) : jstring := lit "data: " ++ payload token.

Definition lines_of (tokens : list jstring) : list jstring :=
  flat_map (fun t => [data_of t; []]) tokens.

(** The same body when the provider ends its lines with a carriage return
    and a line feed. *)
Definition crlf : jstring := [13%N; 10%N].

Definition crlf_body (tokens : list jstring) (done : bool) : jstring :=
  concat (map (fun t => data_of t ++ crlf ++ crlf) tokens)
  ++ (if done then lit "data: [DONE]" ++ crlf ++ crlf else []).

Definition crlf_lines_of (tokens : list jstring) : list jstring :=
  flat_map (fun t => [data_of t ++ [13%N]; [13%N]]) tokens.

(** The lexer over a prefix of the text: the state it reaches and the
    tokens it has produced. *)
Fixpoint lex_run (st : Json.lex_state) (s : jstring)
  : option (Json.lex_state * list Json.token) :=
  match s with
  | [] => Some (st, [])
  | c :: s' =>
      match Json.lex_step st c with
      | None => None
      | Some (st', ts) =>
          match lex_run st' s' with
          | None => None
          | Some (st'', ts') => Some (st'', ts ++ ts')
          end
      end
  end.

End Wire.

(* ===================================================================== *)
(** ** The paths through a handler                                        *)
(* ===================================================================== *)

Module Paths.
Import JS Http.

(** The ways a handler ends before it would call the provider. *)
Definition local_reply (s : settled) : Prop :=
  s = Responded (Response 204 cors NoBody)
  \/ s = json 405 (lit "error") (lit "Method not allowed")
  \/ s = json 200 (lit "reply") not_configured
  \/ s = json 400 (lit "error") (lit "Invalid JSON")
  \/ s = json 400 (lit "error") (lit "Missing question")
  \/ exists e, s = Unhandled e.

(** What a request must be for a handler to get past its checks: a POST,
    with the key [k] configured, whose body [body] was read and holds the
    question that trims to [q], not empty. *)
Record reaches_call (apiKey : option jstring) (req : request)
  (k : jstring) (body : value) (q : jstring) : Prop := {
  with_key : apiKey = Some k /\ k <> [];
  with_post : req_method req = lit "POST";
  with_body : read_body req = Ok body;
  with_question :
    exists raw, get body (lit "question") = Ok (VString raw) /\ q = trim raw;
  question_not_blank : q <> []
}.

(** The lines of a read up to the first terminal line, that line
    included. *)
Fixpoint upto_terminal (lines : list jstring) : list jstring :=
  match lines with
  | [] => []
  | line :: rest =>
      if startsWith line (lit "data: ")
         && streq (trim (slice line 6 None)) (lit "[DONE]")
      then [line]
      else line :: upto_terminal rest
  end.

(** The turns the streaming handler keeps of the history: at most ten, of
    the user or the assistant, each cut to 2000 units. *)
Definition dialogue (kept : list message) : Prop :=
  (length kept <= 10)%nat
  /\ Forall (fun m => (role m = lit "user" \/ role m = lit "assistant")
                      /\ (length (content m) <= 2000)%nat) kept.

(** What the streaming handler logs for a call that failed: the exception
    of [fetch], or the status and the text of an answer that is not ok, or
    the exception of reading that text. *)
Definition stream_logged (answer : fetch_result) : logged :=
  match answer with
  | Rejected e => LogChatApiError e
  | Resolved u =>
      match body_text u with
      | Ok err => LogOpenAIError (up_status u) err
      | Throw e => LogChatApiError e
      end
  end.

(** The exception of [callOpenAI] for a call that failed: the exception of
    [fetch], or the error made of an answer that is not ok, or the
    exception of reading its text. *)
Definition refusal (answer : fetch_result) : error :=
  match answer with
  | Rejected e => e
  | Resolved u =>
      match body_text u with
      | Ok err =>
          Error (if (up_status u =? 429)%Z then lit "Rate limit"
                 else match err with
                      | [] => up_statusText u
                      | _ => err
                      end)
      | Throw e => e
      end
  end.

(** One response of a handler: the headers set first, the statuses it can
    carry, and the statuses that depend on the method alone. *)
Definition answers_within (statuses : list Z) (req : request) (s : settled) : Prop :=
  forall r, s = Responded r ->
    firstn 3 (res_headers r) = cors
    /\ In (res_status r) statuses
    /\ (res_status r = 204%Z <-> req_method req = lit "OPTIONS")
    /\ (res_status r = 405%Z
        <-> req_method req <> lit "OPTIONS" /\ req_method req <> lit "POST").

Definition invalid_json : settled := json 400 (lit "error") (lit "Invalid JSON").

(** A POST, with the key configured, whose body is a string that
    [JSON.parse] refuses. *)
Definition unparsable_post (apiKey : option jstring) (req : request) : Prop :=
  req_method req = lit "POST" /\ missing apiKey = false
  /\ exists text e, req_body req = VString text /\ Json.parse text = Throw e.

(** A POST, with the key configured, whose body is a string that parses to
    a value with no properties to read. *)
Definition null_post (apiKey : option jstring) (req : request) : Prop :=
  req_method req = lit "POST" /\ missing apiKey = false
  /\ exists text body,
       req_body req = VString text /\ Json.parse text = Ok body
       /\ nullish body = true.

(** A call without what the two personas of the buffered handler change:
    the system prompt and the temperature. *)
Definition apart_from_persona (c : fetch_call)
  : jstring * jstring * jstring * Z * option bool * list message :=
  (url c, authorization c, model (payload c), max_tokens (payload c),
   stream (payload c), tl (messages (payload c))).

(** Providers and a request for the examples. *)
Definition overloaded : provider :=
  fun _ => Resolved (Upstream 429 (lit "Too Many Requests")
                       [Sample.bytes (lit "slow down")] None).

Definition answering : provider :=
  fun _ => Resolved (Upstream 200 (lit "OK")
             [Sample.bytes (lit "{`choices`:[{`message`:{`content`:` Hello. `}}]}")]
             None).

Definition streaming : provider :=
  fun _ => Resolved (Upstream 200 (lit "OK")
             [Sample.bytes (Wire.frame (lit "Hel"));
              Sample.bytes (Wire.frame (lit "lo") ++ Wire.terminal)] None).

Definition no_content : provider :=
  fun _ => Resolved (Upstream 204 (lit "No Content") [] None).

Definition null_entry : request :=
  Request (lit "POST")
    (VObject [(lit "question", VString (lit "Hi")); (lit "context", VArray [VNull])]).

End Paths.

(* ===================================================================== *)
(** ** Properties of the relay                                            *)
(* ===================================================================== *)

Module RelayFacts.
Import JS Http Stream.

(** The complete lines of one read: all but the last piece of the carry
    followed by the decoded text. *)
Definition complete_lines (st : relay) (value : list Byte.byte) : list jstring :=
  removelast (split 10%N (buffer st ++ snd (Utf8.decode (decoder st) value))).

(** A line the loop looks at, and the terminal line. *)
Definition data_line (line : jstring) : bool := startsWith line (lit "data: ").

Definition terminal_line (line : jstring) : bool :=
  data_line line && streq (trim (slice line 6 None)) (lit "[DONE]").

(** After a terminal line come only lines the loop ignores. *)
Fixpoint quiet_after_terminal (lines : list jstring) : bool :=
  match lines with
  | [] => true
  | line :: rest =>
      if terminal_line line then forallb (fun l => negb (data_line l)) rest
      else quiet_after_terminal rest
  end.

(** The text of a whole body, whatever the reads it came in. *)
Definition decoded (reads : list (list Byte.byte)) : jstring :=
  snd (Utf8.decode Utf8.new_decoder (concat reads)).

(** The bodies of the loop over the lines are independent: a line before
    the terminal line contributes its own writes. *)
Lemma for_lines_cons (line : jstring) (rest : list jstring) :
  for_lines (line :: rest) =
  if negb (startsWith line (lit "data: ")) then for_lines rest
  else if streq (trim (slice line 6 None)) (lit "[DONE]") then [DataDone]
  else match token_of (trim (slice line 6 None)) with
       | Ok token => if truthy token then DataToken token :: for_lines rest
                     else for_lines rest
       | Throw _ => for_lines rest
       end.
Proof. reflexivity. Qed.

Lemma decode_app (d : Utf8.decoder) (a b : list Byte.byte) :
  Utf8.decode d (a ++ b)
  = let (d1, t1) := Utf8.decode d a in
    let (d2, t2) := Utf8.decode d1 b in (d2, t1 ++ t2).
Proof.
  revert d. induction a as [| x a IH]; intros d.
  - cbn [app Utf8.decode]. destruct (Utf8.decode d b). reflexivity.
  - cbn [app Utf8.decode].
    destruct (Utf8.step d (Byte.to_N x)) as [d1 scalars].
    destruct (Utf8.serialize d1 scalars) as [d2 text].
    rewrite IH. destruct (Utf8.decode d2 a) as [d3 t3].
    destruct (Utf8.decode d3 b) as [d4 t4]. now rewrite app_assoc.
Qed.

Lemma split_nonempty (sep : code_unit) (s : jstring) : split sep s <> [].
Proof.
  destruct s as [| c s]; cbn [split]; [discriminate |].
  destruct (N.eqb c sep); [discriminate |].
  destruct (split sep s); discriminate.
Qed.

Lemma split_app (sep : code_unit) (a b : jstring) :
  split sep (a ++ b)
  = removelast (split sep a) ++ split sep (last (split sep a) [] ++ b).
Proof.
  induction a as [| c a IH]; [reflexivity |].
  cbn [app split]. destruct (N.eqb c sep) eqn:Hc.
  - rewrite IH. pose proof (split_nonempty sep a) as Hne.
    destruct (split sep a) as [| l ls]; [contradiction |]. reflexivity.
  - rewrite IH. pose proof (split_nonempty sep a) as Hne.
    destruct (split sep a) as [| l0 [| l1 ls]]; [contradiction | |].
    + cbn [removelast last app split]. rewrite Hc. reflexivity.
    + reflexivity.
Qed.

Lemma split_pieces (sep : code_unit) (s : jstring) :
  Forall (fun l => ~ In sep l) (split sep s).
Proof.
  induction s as [| c s IH]; [repeat constructor; auto |].
  cbn [split]. destruct (N.eqb_spec c sep) as [-> | Hc].
  - constructor; auto.
  - destruct (split sep s) as [| l ls]; [repeat constructor; intros [H | []]; auto |].
    inversion IH; subst. constructor; auto. intros [H | H]; auto.
Qed.

Lemma split_whole (sep : code_unit) (s : jstring) :
  ~ In sep s -> split sep s = [s].
Proof.
  induction s as [| c s IH]; intros H; [reflexivity |].
  cbn [split]. destruct (N.eqb_spec c sep) as [-> | Hc].
  - exfalso. apply H. now left.
  - rewrite IH; [reflexivity |]. intros Hs. apply H. now right.
Qed.

Lemma last_in_list {A} (l : list A) (d : A) : l <> [] -> In (last l d) l.
Proof.
  induction l as [| a [| b l] IH]; intros H; [contradiction | now left |].
  right. apply IH. discriminate.
Qed.

Lemma carry_has_no_newline (s : jstring) : ~ In 10%N (last (split 10%N s) []).
Proof.
  pose proof (split_pieces 10%N s) as H. rewrite Forall_forall in H.
  apply H. apply last_in_list. apply split_nonempty.
Qed.

Lemma for_lines_no_data (lines : list jstring) :
  forallb (fun l => negb (data_line l)) lines = true -> for_lines lines = [].
Proof.
  induction lines as [| l lines IH]; [reflexivity |].
  cbn [forallb]. intros H. apply andb_prop in H. destruct H as [Hl Hrest].
  rewrite for_lines_cons. unfold data_line in Hl. rewrite Hl. now apply IH.
Qed.

Lemma quiet_no_data (lines : list jstring) :
  forallb (fun l => negb (data_line l)) lines = true ->
  quiet_after_terminal lines = true.
Proof.
  induction lines as [| l lines IH]; [reflexivity |].
  cbn [forallb quiet_after_terminal]. intros H. apply andb_prop in H.
  destruct H as [Hl Hrest]. unfold terminal_line.
  apply negb_true_iff in Hl. rewrite Hl. cbn [andb]. now apply IH.
Qed.

Lemma for_lines_app (l1 l2 : list jstring) :
  quiet_after_terminal (l1 ++ l2) = true ->
  for_lines (l1 ++ l2) = for_lines l1 ++ for_lines l2
  /\ quiet_after_terminal l2 = true.
Proof.
  induction l1 as [| l l1 IH]; [intros H; split; [reflexivity | exact H] |].
  cbn [app quiet_after_terminal]. rewrite !for_lines_cons.
  unfold terminal_line, data_line.
  destruct (startsWith l (lit "data: ")); cbn [negb andb]; [| exact IH].
  destruct (streq (trim (slice l 6 None)) (lit "[DONE]")).
  - intros H. rewrite forallb_app in H. apply andb_prop in H. destruct H as [_ H2].
    rewrite (for_lines_no_data _ H2). split; [reflexivity | now apply quiet_no_data].
  - intros H. destruct (IH H) as [IH1 IH2]. split; [| exact IH2].
    destruct (token_of (trim (slice l 6 None))) as [token | e]; [| exact IH1].
    destruct (truthy token); [| exact IH1]. now rewrite IH1.
Qed.

Lemma while_reading_lines (reads : list (list Byte.byte)) (st : relay) :
  ~ In 10%N (buffer st) ->
  quiet_after_terminal
    (removelast (split 10%N (buffer st ++ snd (Utf8.decode (decoder st) (concat reads)))))
    = true ->
  while_reading st reads
  = for_lines
      (removelast (split 10%N (buffer st ++ snd (Utf8.decode (decoder st) (concat reads))))).
Proof.
  revert st. induction reads as [| value rest IH]; intros [d buf] Hbuf.
  - cbn [concat Utf8.decode snd buffer decoder while_reading]. rewrite app_nil_r.
    cbn [buffer] in Hbuf. rewrite (split_whole _ _ Hbuf). reflexivity.
  - cbn [concat buffer decoder while_reading]. unfold on_read. cbn [buffer decoder].
    cbn [buffer] in Hbuf.
    rewrite decode_app.
    destruct (Utf8.decode d value) as [d1 t1].
    destruct (Utf8.decode d1 (concat rest)) as [d2 t2] eqn:Hrest.
    cbn [snd]. rewrite app_assoc, split_app.
    rewrite removelast_app by apply split_nonempty.
    intros Hquiet. destruct (for_lines_app _ _ Hquiet) as [Happ Hq2].
    rewrite Happ. f_equal.
    specialize (IH (Relay d1 (last (split 10%N (buf ++ t1)) []))).
    cbn [buffer decoder] in IH. rewrite Hrest in IH. cbn [snd] in IH.
    apply IH; [apply carry_has_no_newline | exact Hq2].
Qed.

(** What the relay writes for a body, from the body as a whole. *)
Lemma while_reading_decoded (reads : list (list Byte.byte)) :
  quiet_after_terminal (removelast (split 10%N (decoded reads))) = true ->
  while_reading start reads = for_lines (removelast (split 10%N (decoded reads))).
Proof.
  intros H. apply (while_reading_lines reads start); [intros [] | exact H].
Qed.

(** X2.  The reads of a body do not matter: when nothing but ignored lines
    follows a terminal line of the body, two ways of cutting the same
    bytes into reads (inside a line, inside a character) make the relay
    write the same frames, those of the complete lines of the body. *)
Theorem relay_chunking_independent (reads reads' : list (list Byte.byte)) :
  concat reads = concat reads' ->
  quiet_after_terminal (removelast (split 10%N (decoded reads))) = true ->
  while_reading start reads = while_reading start reads'
  /\ while_reading start reads = for_lines (removelast (split 10%N (decoded reads))).
Proof.
  intros Hsame Hquiet.
  assert (Hd : decoded reads' = decoded reads).
  { unfold decoded. now rewrite Hsame. }
  split; [| now apply while_reading_decoded].
  rewrite (while_reading_decoded reads Hquiet).
  rewrite (while_reading_decoded reads'); rewrite Hd; [reflexivity | exact Hquiet].
Qed.

(** The sample content in three reads, the first ending inside a line, and
    in one read. *)
Lemma relay_chunking_independent_witness :
  while_reading start
    [firstn 20 Sample.content; firstn 50 (skipn 20 Sample.content);
     skipn 70 Sample.content]
  = while_reading start [Sample.content].
Proof.
  apply (relay_chunking_independent
           [firstn 20 Sample.content; firstn 50 (skipn 20 Sample.content);
            skipn 70 Sample.content]
           [Sample.content]).
  - vm_compute. reflexivity.
  - vm_compute. reflexivity.
Defined.

(** C1.  The upstream content is the token frames carrying Hel and lo and
    then the terminal line.  Cut into two reads at any byte offset [k]
    (inside a line or not; an offset past the end leaves the second read
    empty), the relay writes exactly the token Hel, the token lo and the
    terminal frame, in that order. *)
Theorem relay_split_independent (k : nat) :
  while_reading start (Sample.split_at k) =
  [DataToken (VString (lit "Hel")); DataToken (VString (lit "lo")); DataDone].
Proof.
  assert (Hd : decoded (Sample.split_at k) = decoded [Sample.content]).
  { unfold decoded, Sample.split_at. cbn [concat].
    now rewrite !app_nil_r, firstn_skipn. }
  rewrite while_reading_decoded; rewrite Hd; vm_compute; reflexivity.
Qed.

Lemma on_read_writes (st : relay) (value : list Byte.byte) :
  snd (on_read st value) = for_lines (complete_lines st value).
Proof.
  unfold on_read, complete_lines.
  destruct (Utf8.decode (decoder st) value) as [d text]. reflexivity.
Qed.

(** Within one read the lines after the terminal line are not looked at. *)
Lemma for_lines_stops_at_done (pre post : list jstring) (line : jstring) :
  startsWith line (lit "data: ") = true ->
  streq (trim (slice line 6 None)) (lit "[DONE]") = true ->
  for_lines (pre ++ line :: post) = for_lines (pre ++ [line]).
Proof.
  intros Hdata Hdone. induction pre as [| a pre IH].
  - cbn [app]. rewrite !for_lines_cons, Hdata, Hdone. reflexivity.
  - cbn [app]. rewrite !for_lines_cons, IH. reflexivity.
Qed.

(** C2, on the code as it is.  After the read that carries the terminal
    line the loop goes on reading: a token frame that arrives in a later
    read is relayed after the terminal frame, and a second terminal line
    is relayed a second time. *)
Theorem relay_reads_on_after_done :
  while_reading start [Sample.bytes Sample.frame_done; Sample.bytes Sample.frame_lo]
    = [DataDone; DataToken (VString (lit "lo"))]
  /\ while_reading start [Sample.bytes Sample.frame_done; Sample.bytes Sample.frame_done]
    = [DataDone; DataDone].
Proof. split; vm_compute; reflexivity. Qed.

(** C6. A data line whose payload is not the terminal sentinel and is not
    valid JSON writes nothing and changes nothing of what the other lines
    write: the writes of a read, and of the whole stream over any reads,
    are those of the lines without it, the frames after it included, and
    the loop goes on with the unfinished line that follows it kept in the
    buffer. *)
Theorem malformed_frame_skipped (bad : jstring) :
  startsWith bad (lit "data: ") = true ->
  streq (trim (slice bad 6 None)) (lit "[DONE]") = false ->
  Json.parse (trim (slice bad 6 None)) = Throw SyntaxError ->
  for_lines [bad] = []
  /\ (forall pre post, for_lines (pre ++ bad :: post) = for_lines (pre ++ post))
  /\ (forall st value pre post,
        complete_lines st value = pre ++ bad :: post ->
        snd (on_read st value) = for_lines (pre ++ post))
  /\ (forall st value rest pre post,
        complete_lines st value = pre ++ bad :: post ->
        buffer (fst (on_read st value))
          = last (split 10%N (buffer st ++ snd (Utf8.decode (decoder st) value))) []
        /\ while_reading st (value :: rest)
           = for_lines (pre ++ post) ++ while_reading (fst (on_read st value)) rest)
  /\ (forall reads pre post,
        removelast (split 10%N (decoded reads)) = pre ++ bad :: post ->
        quiet_after_terminal (pre ++ bad :: post) = true ->
        while_reading start reads = for_lines (pre ++ post)).
Proof.
  intros Hdata Hdone Hparse.
  assert (Hskip : forall rest, for_lines (bad :: rest) = for_lines rest).
  { intros rest. rewrite for_lines_cons, Hdata, Hdone.
    unfold token_of. rewrite Hparse. reflexivity. }
  assert (Hany : forall pre post,
             for_lines (pre ++ bad :: post) = for_lines (pre ++ post)).
  { intros pre post. induction pre as [| a pre IH].
    - apply Hskip.
    - cbn [app]. rewrite !for_lines_cons, IH. reflexivity. }
  split; [apply (Hskip []) | split; [exact Hany |]].
  split; [| split].
  - intros st value pre post Hlines.
    rewrite on_read_writes, Hlines. apply Hany.
  - intros st value rest pre post Hlines.
    pose proof (on_read_writes st value) as Hout. rewrite Hlines, Hany in Hout.
    cbn [while_reading]. unfold on_read in *.
    destruct (Utf8.decode (decoder st) value) as [d text].
    cbn [fst snd buffer] in *. now rewrite Hout.
  - intros reads pre post Hlines Hquiet.
    rewrite while_reading_decoded; rewrite Hlines; [apply Hany | exact Hquiet].
Qed.

(** A malformed frame between two token frames, the second cut by the end
    of the read. *)
Lemma malformed_frame_skipped_witness :
  for_lines [lit "data: {oops"] = []
  /\ snd (on_read start
            (Sample.bytes (Sample.frame_Hel ++ lit "data: {oops" ++ nl ++ Sample.frame_lo)))
     = [DataToken (VString (lit "Hel")); DataToken (VString (lit "lo"))]
  /\ while_reading start
       [Sample.bytes (Sample.frame_Hel ++ lit "data: {oops" ++ nl
                        ++ firstn 20 Sample.frame_lo);
        Sample.bytes (skipn 20 Sample.frame_lo ++ Sample.frame_done)]
     = [DataToken (VString (lit "Hel")); DataToken (VString (lit "lo")); DataDone].
Proof.
  destruct (malformed_frame_skipped (lit "data: {oops")
              ltac:(vm_compute; reflexivity) ltac:(vm_compute; reflexivity)
              ltac:(vm_compute; reflexivity)) as [Halone [_ [Hread [_ Hstream]]]].
  split; [exact Halone |]. split.
  - rewrite (Hread start _ [lit "data: {`choices`:[{`delta`:{`content`:`Hel`}}]}"; []]
               [lit "data: {`choices`:[{`delta`:{`content`:`lo`}}]}"; []]).
    + vm_compute. reflexivity.
    + vm_compute. reflexivity.
  - rewrite (Hstream _ [lit "data: {`choices`:[{`delta`:{`content`:`Hel`}}]}"; []]
               [lit "data: {`choices`:[{`delta`:{`content`:`lo`}}]}"; [];
                lit "data: [DONE]"; []]).
    + vm_compute. reflexivity.
    + vm_compute. reflexivity.
    + vm_compute. reflexivity.
Defined.

End RelayFacts.

(* ===================================================================== *)
(** ** Properties of the prompt assembler                                 *)
(* ===================================================================== *)

Module AssemblerFacts.
Import JS Http Interface.

Lemma streq_refl (a : jstring) : streq a a = true.
Proof. induction a as [| c a IH]; cbn; [reflexivity |]. now rewrite N.eqb_refl. Qed.

Lemma streq_eq (a b : jstring) : streq a b = true -> a = b.
Proof.
  revert b. induction a as [| x a IH]; intros [| y b] H; cbn in H;
    try discriminate; [reflexivity |].
  apply andb_prop in H. destruct H as [Hxy Hab].
  apply N.eqb_eq in Hxy. subst y. f_equal. now apply IH.
Qed.

(** [l.slice(0, n)] keeps the first [n] elements. *)
Lemma slice_prefix {A} (l : list A) (n : Z) :
  (0 <= n)%Z -> slice l 0 (Some n) = firstn (Z.to_nat n) l.
Proof.
  intros Hn. unfold slice.
  assert (Hfrom : relative_index (Z.of_nat (length l)) 0 = 0%Z).
  { unfold relative_index. change (0 <? 0)%Z with false. cbv iota. lia. }
  assert (Hto : relative_index (Z.of_nat (length l)) n
                = Z.min n (Z.of_nat (length l))).
  { unfold relative_index. destruct (Z.ltb_spec n 0); [lia | reflexivity]. }
  rewrite Hfrom, Hto. change (Z.to_nat 0) with 0%nat. cbn [skipn].
  destruct (Z.le_ge_cases n (Z.of_nat (length l))) as [Hle | Hge].
  - f_equal. lia.
  - rewrite (firstn_all2 (n := Z.to_nat n)) by lia.
    apply firstn_all2. lia.
Qed.

(** [l.slice(-n)] keeps the last [n] elements. *)
Lemma slice_suffix {A} (l : list A) (n : nat) :
  (0 < n)%nat -> slice l (- Z.of_nat n) None = last_n n l.
Proof.
  intros Hn. unfold slice, relative_index, last_n.
  destruct (Z.ltb_spec (- Z.of_nat n) 0) as [_ | Hge]; [| lia].
  replace (Z.to_nat (Z.max (Z.of_nat (length l) + - Z.of_nat n) 0))
    with (length l - n)%nat by lia.
  apply firstn_all2. rewrite length_skipn. lia.
Qed.

(** *** Entries of the declared shape, read by the assembler *)

Lemma get_field {name : jstring} {f : option jstring} {members : list (jstring * value)} :
  field name f members ->
  get (VObject members) name
  = Ok (match f with Some s => VString s | None => VUndefined end).
Proof. unfold field, get. intros ->. destruct f; reflexivity. Qed.

(** [field || ''] of a field that is a string or missing is its text. *)
Lemma or_else_text (f : option jstring) :
  or_else (match f with Some s => VString s | None => VUndefined end) (VString [])
  = VString (text_of f).
Proof. destruct f as [[| c s] |]; reflexivity. Qed.

Lemma title_or_article (k : KnowledgeItem) :
  ToString (or_else (match title k with Some t => VString t | None => VUndefined end)
                    (VString (lit "Article")))
  = Ok (shown_title k).
Proof. destruct k as [[[| c t] |] b]; reflexivity. Qed.

Lemma body_cut (k : KnowledgeItem) :
  slice (text_of (body k)) 0 (Some 2800%Z) = shown_body k.
Proof. unfold shown_body. now rewrite slice_prefix by lia. Qed.

Lemma stream_block_of_item {k : KnowledgeItem} {v : value} (i : nat) :
  item_shape k v -> Stream.block v i = Ok (stream_block i k).
Proof.
  intros [members [-> [Htitle Hbody]]].
  unfold Stream.block, Stream.MAX_BODY_LENGTH.
  rewrite (get_field Hbody). cbn [bind]. rewrite or_else_text. cbn [call_slice bind].
  rewrite body_cut, (get_field Htitle). cbn [bind].
  rewrite title_or_article. reflexivity.
Qed.

Lemma buffered_block_of_item {k : KnowledgeItem} {v : value} :
  item_shape k v -> Buffered.block v = Ok (buffered_block k).
Proof.
  intros [members [-> [Htitle Hbody]]].
  unfold Buffered.block, Buffered.MAX_BODY_LENGTH.
  rewrite (get_field Hbody). cbn [bind]. rewrite or_else_text. cbn [call_slice bind].
  rewrite body_cut, (get_field Htitle). cbn [bind].
  rewrite title_or_article. reflexivity.
Qed.

Lemma stream_blocks_of_items {ctx : list KnowledgeItem} {items : list value} :
  Forall2 item_shape ctx items ->
  forall i, Stream.map_indexed Stream.block items i = Ok (numbered stream_block i ctx).
Proof.
  induction 1 as [| k v ctx items Hk _ IH]; intros i; [reflexivity |].
  cbn [Stream.map_indexed numbered].
  rewrite (stream_block_of_item i Hk). cbn [bind]. rewrite IH. reflexivity.
Qed.

Lemma buffered_blocks_of_items {ctx : list KnowledgeItem} {items : list value} :
  Forall2 item_shape ctx items ->
  mapM Buffered.block items = Ok (map buffered_block ctx).
Proof.
  induction 1 as [| k v ctx items Hk _ IH]; [reflexivity |].
  cbn [map mapM]. rewrite (buffered_block_of_item Hk). cbn [bind].
  rewrite IH. reflexivity.
Qed.

Lemma Forall2_firstn {A B} {P : A -> B -> Prop} (n : nat) {l : list A} {l' : list B} :
  Forall2 P l l' -> Forall2 P (firstn n l) (firstn n l').
Proof.
  intros H. revert n. induction H as [| a b l l' Hab _ IH]; intros [| n];
    cbn [firstn]; constructor; auto.
Qed.

Lemma Forall2_skipn {A B} {P : A -> B -> Prop} (n : nat) {l : list A} {l' : list B} :
  Forall2 P l l' -> Forall2 P (skipn n l) (skipn n l').
Proof.
  intros H. revert n. induction H as [| a b l l' Hab H IH]; intros [| n];
    cbn [skipn]; auto.
Qed.

Lemma Forall2_last_n {A B} {P : A -> B -> Prop} (n : nat) {l : list A} {l' : list B} :
  Forall2 P l l' -> Forall2 P (last_n n l) (last_n n l').
Proof.
  intros H. unfold last_n. rewrite (Forall2_length H). now apply Forall2_skipn.
Qed.

(** [refs || 'No articles were provided.']: the joined blocks are empty
    only when there is no block, every block starting with a hash. *)
Lemma refs_or_placeholder (blocks : list jstring) :
  Forall (fun b => exists rest, b = 35%N :: rest) blocks ->
  match join (nl ++ nl ++ lit "---" ++ nl ++ nl) blocks with
  | [] => lit "No articles were provided."
  | _ :: _ => join (nl ++ nl ++ lit "---" ++ nl ++ nl) blocks
  end = articles blocks.
Proof.
  intros H. destruct blocks as [| b bs]; [reflexivity |].
  inversion H as [| ? ? [rest ->] _]; subst.
  unfold articles. destruct bs; reflexivity.
Qed.

Lemma stream_blocks_start (l : list KnowledgeItem) (i : nat) :
  Forall (fun b => exists rest, b = 35%N :: rest) (numbered stream_block i l).
Proof.
  revert i. induction l as [| k l IH]; intros i; constructor; [| apply IH].
  unfold stream_block.
  change (lit "## [Article ") with (35%N :: lit "# [Article ").
  eexists. reflexivity.
Qed.

Lemma buffered_blocks_start (l : list KnowledgeItem) :
  Forall (fun b => exists rest, b = 35%N :: rest) (map buffered_block l).
Proof.
  induction l as [| k l IH]; constructor; [| apply IH].
  unfold buffered_block. change (lit "## ") with (35%N :: lit "# ").
  eexists. reflexivity.
Qed.

Lemma stream_prompt_of_items (ctx : list KnowledgeItem) (items : list value) :
  Forall2 item_shape ctx items ->
  Stream.buildSystemPrompt (VArray items) = Ok (stream_prompt ctx).
Proof.
  intros H.
  unfold Stream.buildSystemPrompt, Stream.MAX_CONTEXT_ITEMS.
  cbn [or_else truthy call_slice bind].
  rewrite slice_prefix by lia. change (Z.to_nat 5) with 5%nat.
  rewrite (stream_blocks_of_items (Forall2_firstn 5 H)). cbn [bind].
  unfold Stream.separator, Stream.no_articles.
  rewrite refs_or_placeholder by apply stream_blocks_start.
  reflexivity.
Qed.

Lemma buffered_prompt_of_items (ctx : list KnowledgeItem) (items : list value) :
  Forall2 item_shape ctx items ->
  Buffered.buildSystemPrompt (VArray items) = Ok (buffered_prompt ctx).
Proof.
  intros H.
  unfold Buffered.buildSystemPrompt, Buffered.MAX_CONTEXT_ITEMS.
  cbn [or_else truthy call_slice bind].
  rewrite slice_prefix by lia. change (Z.to_nat 5) with 5%nat.
  rewrite (buffered_blocks_of_items (Forall2_firstn 5 H)). cbn [bind].
  unfold Buffered.separator, Buffered.no_articles.
  rewrite refs_or_placeholder by apply buffered_blocks_start.
  reflexivity.
Qed.

(** Entries past the fifth never reach the callback. *)
Lemma first_five_only (items : list value) :
  Stream.buildSystemPrompt (VArray items)
    = Stream.buildSystemPrompt (VArray (firstn 5 items))
  /\ Buffered.buildSystemPrompt (VArray items)
    = Buffered.buildSystemPrompt (VArray (firstn 5 items)).
Proof.
  unfold Stream.buildSystemPrompt, Buffered.buildSystemPrompt,
    Stream.MAX_CONTEXT_ITEMS, Buffered.MAX_CONTEXT_ITEMS.
  cbn [or_else truthy call_slice bind].
  rewrite !slice_prefix by lia. change (Z.to_nat 5) with 5%nat.
  rewrite firstn_firstn. change (Nat.min 5 5) with 5%nat.
  split; reflexivity.
Qed.

(** X1 (the part of C3 the code keeps).  For every context array, entries
    past the fifth do not reach the prompt of either assembler.  When the
    entries have the declared shape (title and body each missing or a
    string), the prompt is the fixed text followed by the blocks of the
    first five entries, each block ending with the entry's body cut at
    2800 code units: the cut is a prefix of the body of at most 2800 code
    units, and nothing is appended to it. *)
Theorem prompt_first_five_bodies_cut (items : list value) :
  (Stream.buildSystemPrompt (VArray items)
     = Stream.buildSystemPrompt (VArray (firstn 5 items))
   /\ Buffered.buildSystemPrompt (VArray items)
     = Buffered.buildSystemPrompt (VArray (firstn 5 items)))
  /\ (forall ctx : list KnowledgeItem,
        Forall2 item_shape ctx items ->
        Stream.buildSystemPrompt (VArray items)
          = Ok (Stream.persona ++ articles (numbered stream_block 0 (firstn 5 ctx)))
        /\ Buffered.buildSystemPrompt (VArray items)
          = Ok (Buffered.persona ++ articles (map buffered_block (firstn 5 ctx))))
  /\ (forall k : KnowledgeItem,
        (length (shown_body k) <= 2800)%nat
        /\ exists rest, text_of (body k) = shown_body k ++ rest).
Proof.
  split; [apply first_five_only |].
  split.
  - intros ctx H. split.
    + now apply stream_prompt_of_items.
    + now apply buffered_prompt_of_items.
  - intros k. unfold shown_body. split.
    + rewrite length_firstn. lia.
    + exists (skipn 2800 (text_of (body k))). symmetry. apply firstn_skipn.
Qed.

(** Two entries, the first with a member the assembler does not read. *)
Lemma prompt_first_five_bodies_cut_witness :
  Stream.buildSystemPrompt
    (VArray [VObject [(lit "id", VNumber (decimal false 7 0));
                      (lit "title", VString (lit "Inverters"));
                      (lit "body", VString (lit "Check the inverter."))];
             VObject []])
  = Ok (Stream.persona
          ++ lit "## [Article 1] Inverters" ++ nl ++ lit "Check the inverter."
          ++ Stream.separator
          ++ lit "## [Article 2] Article" ++ nl).
Proof.
  destruct (prompt_first_five_bodies_cut
              [VObject [(lit "id", VNumber (decimal false 7 0));
                        (lit "title", VString (lit "Inverters"));
                        (lit "body", VString (lit "Check the inverter."))];
               VObject []]) as [_ [H _]].
  destruct (H [KnowledgeItem_of (Some (lit "Inverters")) (Some (lit "Check the inverter."));
               KnowledgeItem_of None None]) as [Hstream _].
  - shapes.
  - rewrite Hstream. vm_compute. reflexivity.
Defined.

(** C3, on the code as it is.  [buildSystemPrompt] slices
    [item.body || ''] without converting it to a string first (as
    [buildMessages] does for the content of a turn).  When the body of an
    entry is an array, the array is what is cut, at 2800 elements, and the
    text of its elements reaches the prompt whole: here 3000 code units. *)
Theorem array_body_is_not_cut :
  Stream.buildSystemPrompt
    (VArray [VObject [(lit "body", VArray [VString (repeat 97%N 3000)])]])
  = Ok (Stream.persona ++ lit "## [Article 1] Article" ++ nl ++ repeat 97%N 3000)
  /\ Buffered.buildSystemPrompt
    (VArray [VObject [(lit "body", VArray [VString (repeat 97%N 3000)])]])
  = Ok (Buffered.persona ++ lit "## Article" ++ nl ++ repeat 97%N 3000).
Proof. split; vm_compute; reflexivity. Qed.

(** X3.  An empty context array still yields a prompt: the fixed text
    followed by the placeholder sentence. *)
Theorem empty_context_placeholder :
  Stream.buildSystemPrompt (VArray [])
    = Ok (Stream.persona ++ lit "No articles were provided.")
  /\ Buffered.buildSystemPrompt (VArray [])
    = Ok (Buffered.persona ++ lit "No articles were provided.").
Proof. split; reflexivity. Qed.




















(** *** buildMessages *)

Lemma last_n_length {A} (n : nat) (l : list A) : (length (last_n n l) <= n)%nat.
Proof. unfold last_n. rewrite length_skipn. lia. Qed.


(** The messages are the two fixed ones around what the loop keeps of the
    last ten entries. *)
Lemma messages_of_array (systemPrompt question : jstring) (entries : list value) :
  Stream.buildMessages systemPrompt question (VArray entries)
  = (kept <- Stream.for_recent (last_n 10 entries) ;;
     Ok ([Message (lit "system") systemPrompt] ++ kept
           ++ [Message (lit "user") question])).
Proof.
  unfold Stream.buildMessages.
  cbn [or_else truthy call_slice bind].
  change (- Stream.MAX_HISTORY)%Z with (- Z.of_nat 10)%Z.
  rewrite slice_suffix by lia. reflexivity.
Qed.

(** What the loop keeps of one entry, whatever the entry. *)
Lemma keep_bounds (msg : value) (m : message) :
  Stream.keep msg = Ok (Some m) ->
  (role m = lit "user" \/ role m = lit "assistant")
  /\ (length (content m) <= 2000)%nat.
Proof.
  unfold Stream.keep.
  destruct (get msg (lit "role")) as [r | e]; cbn [bind]; [| discriminate].
  destruct r as [| | b | n | r | elems | members]; try discriminate.
  destruct (streq r (lit "user") || streq r (lit "assistant")) eqn:Hrole;
    [| discriminate].
  destruct (get msg (lit "content")) as [c | e]; cbn [bind]; [| discriminate].
  destruct (ToString (or_else c (VString []))) as [text | e]; cbn [bind];
    [| discriminate].
  intros H. injection H as <-. cbn [role content]. split.
  - apply orb_prop in Hrole. destruct Hrole as [H | H]; apply streq_eq in H; auto.
  - unfold slice. rewrite length_firstn.
    assert (Hto : (relative_index (Z.of_nat (length text)) 2000 <= 2000)%Z).
    { unfold relative_index. change (2000 <? 0)%Z with false. cbv iota. lia. }
    assert (Hfrom : (0 <= relative_index (Z.of_nat (length text)) 0)%Z).
    { unfold relative_index. change (0 <? 0)%Z with false. cbv iota. lia. }
    lia.
Qed.

Lemma for_recent_bounds (recent : list value) (kept : list message) :
  Stream.for_recent recent = Ok kept ->
  (length kept <= length recent)%nat
  /\ Forall (fun m => (role m = lit "user" \/ role m = lit "assistant")
                      /\ (length (content m) <= 2000)%nat) kept.
Proof.
  revert kept. induction recent as [| msg rest IH]; intros kept.
  - cbn. intros H. injection H as <-. split; [cbn; lia | constructor].
  - cbn [Stream.for_recent].
    destruct (Stream.keep msg) as [m | e] eqn:Hkeep; cbn [bind]; [| discriminate].
    destruct (Stream.for_recent rest) as [ms | e]; cbn [bind]; [| discriminate].
    destruct (IH ms eq_refl) as [Hlen Hall].
    intros H. injection H as <-. destruct m as [m |].
    + split; [cbn [length]; lia |].
      constructor; [now apply (keep_bounds msg m) | exact Hall].
    + split; [cbn [length]; lia | exact Hall].
Qed.

Lemma keep_turn {t : HistoryTurn} {v : value} :
  turn_shape t v ->
  Stream.keep v = Ok (if is_dialogue t then Some (turn_message t) else None).
Proof.
  intros [members [-> [Hrole Hcontent]]].
  unfold Stream.keep, is_dialogue. rewrite (get_field Hrole). cbn [bind].
  destruct (streq (turn_role t) (lit "user") || streq (turn_role t) (lit "assistant"));
    [| reflexivity].
  rewrite (get_field Hcontent). cbn [bind]. rewrite or_else_text. cbn [ToString bind].
  rewrite slice_prefix by lia. reflexivity.
Qed.

Lemma for_recent_turns {history : list HistoryTurn} {entries : list value} :
  Forall2 turn_shape history entries ->
  Stream.for_recent entries = Ok (map turn_message (filter is_dialogue history)).
Proof.
  induction 1 as [| t v history entries Ht _ IH]; [reflexivity |].
  cbn [Stream.for_recent filter]. rewrite (keep_turn Ht). cbn [bind].
  rewrite IH. cbn [bind]. destruct (is_dialogue t); reflexivity.
Qed.







End AssemblerFacts.

(* ===================================================================== *)
(** ** Properties of the handlers                                         *)
(* ===================================================================== *)

Module HandlerFacts.
Import JS Http Interface.

Lemma post_is_not_options : streq (lit "POST") (lit "OPTIONS") = false.
Proof. reflexivity. Qed.

Lemma post_is_post : streq (lit "POST") (lit "POST") = true.
Proof. reflexivity. Qed.

(** Both handlers, on a POST request when no key is configured. *)
Lemma stream_post_without_key (apiKey : option jstring) (fetch : provider) (req : request) :
  missing apiKey = true ->
  req_method req = lit "POST" ->
  Stream.handler apiKey fetch req
  = Outcome (json 200 (lit "reply") not_configured) [] [].
Proof.
  intros Hkey Hpost. unfold Stream.handler.
  rewrite Hpost, post_is_not_options, post_is_post, Hkey. reflexivity.
Qed.

Lemma buffered_post_without_key (apiKey : option jstring) (fetch : provider) (req : request) :
  missing apiKey = true ->
  req_method req = lit "POST" ->
  Buffered.handler apiKey fetch req
  = Outcome (json 200 (lit "reply") not_configured) [] [].
Proof.
  intros Hkey Hpost. unfold Buffered.handler.
  rewrite Hpost, post_is_not_options, post_is_post, Hkey. reflexivity.
Qed.

(** Both handlers, on any request when no key is configured: the three
    ways they can end. *)
Lemma stream_without_key (apiKey : option jstring) (fetch : provider) (req : request) :
  missing apiKey = true ->
  Stream.handler apiKey fetch req = Outcome (Responded (Response 204 cors NoBody)) [] []
  \/ Stream.handler apiKey fetch req
     = Outcome (json 405 (lit "error") (lit "Method not allowed")) [] []
  \/ Stream.handler apiKey fetch req
     = Outcome (json 200 (lit "reply") not_configured) [] [].
Proof.
  intros Hkey. unfold Stream.handler.
  destruct (streq (req_method req) (lit "OPTIONS")); [now left |].
  destruct (streq (req_method req) (lit "POST")); cbn [negb];
    [rewrite Hkey; now right; right | now right; left].
Qed.

Lemma buffered_without_key (apiKey : option jstring) (fetch : provider) (req : request) :
  missing apiKey = true ->
  Buffered.handler apiKey fetch req = Outcome (Responded (Response 204 cors NoBody)) [] []
  \/ Buffered.handler apiKey fetch req
     = Outcome (json 405 (lit "error") (lit "Method not allowed")) [] []
  \/ Buffered.handler apiKey fetch req
     = Outcome (json 200 (lit "reply") not_configured) [] [].
Proof.
  intros Hkey. unfold Buffered.handler.
  destruct (streq (req_method req) (lit "OPTIONS")); [now left |].
  destruct (streq (req_method req) (lit "POST")); cbn [negb];
    [rewrite Hkey; now right; right | now right; left].
Qed.

(** C8, as the code has it.  Whenever no key is configured, neither
    handler calls the provider, whatever the request; and for every POST
    request both return the fixed not-configured reply with status 200. *)
Theorem no_key_no_call_and_fixed_reply
  (apiKey : option jstring) (fetch : provider) (req : request) :
  missing apiKey = true ->
  fetch_calls (Stream.handler apiKey fetch req) = []
  /\ fetch_calls (Buffered.handler apiKey fetch req) = []
  /\ (req_method req = lit "POST" ->
      Stream.handler apiKey fetch req
        = Outcome (json 200 (lit "reply") not_configured) [] []
      /\ Buffered.handler apiKey fetch req
        = Outcome (json 200 (lit "reply") not_configured) [] []).
Proof.
  intros Hkey. split; [| split].
  - destruct (stream_without_key apiKey fetch req Hkey) as [-> | [-> | ->]];
      reflexivity.
  - destruct (buffered_without_key apiKey fetch req Hkey) as [-> | [-> | ->]];
      reflexivity.
  - intros Hpost. split.
    + now apply stream_post_without_key.
    + now apply buffered_post_without_key.
Qed.

(** No key in the environment, a POST with a question. *)
Lemma no_key_no_call_and_fixed_reply_witness :
  fetch_calls (Stream.handler None unreachable
                 (Request (lit "POST") (VObject [(lit "question", VString (lit "Hi"))])))
    = []
  /\ Buffered.handler None unreachable
       (Request (lit "POST") (VObject [(lit "question", VString (lit "Hi"))]))
     = Outcome (json 200 (lit "reply") not_configured) [] [].
Proof.
  destruct (no_key_no_call_and_fixed_reply None unreachable
              (Request (lit "POST") (VObject [(lit "question", VString (lit "Hi"))]))
              eq_refl) as [Hcalls [_ Hreply]].
  split; [exact Hcalls |]. exact (proj2 (Hreply eq_refl)).
Defined.

(** C8 as stated fails: with no key configured a GET request is answered
    405 by both handlers, not with the not-configured reply. *)
Lemma no_key_get_is_405 :
  Stream.handler None unreachable (Request (lit "GET") VUndefined)
    = Outcome (json 405 (lit "error") (lit "Method not allowed")) [] []
  /\ Buffered.handler None unreachable (Request (lit "GET") VUndefined)
    = Outcome (json 405 (lit "error") (lit "Method not allowed")) [] [].
Proof. split; vm_compute; reflexivity. Qed.

(** C10.  The key is checked before the body is read: for every POST
    request when no key is configured, whatever its body (malformed JSON,
    no question), both handlers answer the not-configured reply with
    status 200; and with no key configured no request at all is answered
    with status 400. *)
Theorem key_check_precedes_body_checks
  (apiKey : option jstring) (fetch : provider) (req : request) :
  missing apiKey = true ->
  (req_method req = lit "POST" ->
   Stream.handler apiKey fetch req
     = Outcome (json 200 (lit "reply") not_configured) [] []
   /\ Buffered.handler apiKey fetch req
     = Outcome (json 200 (lit "reply") not_configured) [] [])
  /\ (forall r, result_of (Stream.handler apiKey fetch req) = Responded r ->
                res_status r <> 400%Z)
  /\ (forall r, result_of (Buffered.handler apiKey fetch req) = Responded r ->
                res_status r <> 400%Z).
Proof.
  intros Hkey. split; [| split].
  - intros Hpost. split.
    + now apply stream_post_without_key.
    + now apply buffered_post_without_key.
  - intros r.
    destruct (stream_without_key apiKey fetch req Hkey) as [-> | [-> | ->]];
      cbn [result_of json]; intros H; injection H as <-; discriminate.
  - intros r.
    destruct (buffered_without_key apiKey fetch req Hkey) as [-> | [-> | ->]];
      cbn [result_of json]; intros H; injection H as <-; discriminate.
Qed.

(** No key in the environment, a POST whose body is not JSON. *)
Lemma key_check_precedes_body_checks_witness :
  Stream.handler (Some []) unreachable (Request (lit "POST") (VString (lit "{oops")))
    = Outcome (json 200 (lit "reply") not_configured) [] []
  /\ Buffered.handler (Some []) unreachable (Request (lit "POST") (VString (lit "{oops")))
    = Outcome (json 200 (lit "reply") not_configured) [] [].
Proof.
  exact (proj1 (key_check_precedes_body_checks (Some []) unreachable
                  (Request (lit "POST") (VString (lit "{oops"))) eq_refl) eq_refl).
Defined.

(** *** The question check *)

Lemma trimStart_blank (s : jstring) : forallb is_space s = true -> trimStart s = [].
Proof.
  induction s as [| c s IH]; [reflexivity |].
  cbn [forallb trimStart]. intros H. apply andb_prop in H.
  destruct H as [Hc Hs]. rewrite Hc. now apply IH.
Qed.

Lemma trim_blank (s : jstring) : forallb is_space s = true -> trim s = [].
Proof. intros H. unfold trim. now rewrite trimStart_blank. Qed.

Lemma get_of_value (body : value) (name : jstring) :
  nullish body = false -> exists x, get body name = Ok x.
Proof. destruct body; cbn; intros H; try discriminate; eauto. Qed.

Lemma read_blank_question (body : value) :
  nullish body = false -> blank_question body = true ->
  read_question body = Ok [].
Proof.
  intros Hbody Hblank. unfold read_question, blank_question in *.
  destruct (get_of_value body (lit "question") Hbody) as [q Hq].
  rewrite Hq in *. cbn [bind].
  destruct q; try reflexivity. now rewrite trim_blank.
Qed.

Lemma read_array_of_value (body : value) (name : jstring) :
  nullish body = false -> exists a, read_array body name = Ok a.
Proof.
  intros Hbody. unfold read_array.
  destruct (get_of_value body name Hbody) as [x ->]. cbn [bind]. eauto.
Qed.

(** C9, as the code has it.  For every POST request that arrives when a
    key is configured and whose body is, or parses to, a value other than
    [null], if the question is missing, not a string, empty or white space
    only, both handlers answer 400 with the error Missing question and
    make no call to the provider. *)
Theorem blank_question_is_400
  (apiKey : option jstring) (fetch : provider) (req : request) (body : value) :
  missing apiKey = false ->
  req_method req = lit "POST" ->
  read_body req = Ok body ->
  nullish body = false ->
  blank_question body = true ->
  Stream.handler apiKey fetch req
    = Outcome (json 400 (lit "error") (lit "Missing question")) [] []
  /\ Buffered.handler apiKey fetch req
    = Outcome (json 400 (lit "error") (lit "Missing question")) [] [].
Proof.
  intros Hkey Hpost Hread Hbody Hblank.
  pose proof (read_blank_question body Hbody Hblank) as Hq.
  destruct (read_array_of_value body (lit "context") Hbody) as [c Hc].
  destruct (read_array_of_value body (lit "history") Hbody) as [h Hh].
  unfold Stream.handler, Buffered.handler.
  rewrite Hpost, post_is_not_options, post_is_post, Hkey, Hread.
  cbv zeta. rewrite Hq, Hc, Hh. cbn [negb bind]. split; reflexivity.
Qed.

(** A key is configured; the question is white space only, in a body the
    handler parses itself. *)
Lemma blank_question_is_400_witness :
  Stream.handler (Some (lit "sk-test")) unreachable
    (Request (lit "POST") (VString (lit "{`question`: `   `}")))
    = Outcome (json 400 (lit "error") (lit "Missing question")) [] []
  /\ Buffered.handler (Some (lit "sk-test")) unreachable
    (Request (lit "POST") (VString (lit "{`question`: `   `}")))
    = Outcome (json 400 (lit "error") (lit "Missing question")) [] [].
Proof.
  apply (blank_question_is_400 (Some (lit "sk-test")) unreachable
           (Request (lit "POST") (VString (lit "{`question`: `   `}")))
           (VObject [(lit "question", VString (lit "   "))])).
  - reflexivity.
  - reflexivity.
  - vm_compute. reflexivity.
  - reflexivity.
  - vm_compute. reflexivity.
Defined.

(** C9 as stated fails: with no key configured a POST without a question
    gets the not-configured reply, and with a key configured a POST whose
    body is not JSON gets the Invalid JSON error. *)
Lemma missing_question_not_always_400 :
  Stream.handler None unreachable (Request (lit "POST") (VObject []))
    = Outcome (json 200 (lit "reply") not_configured) [] []
  /\ Buffered.handler None unreachable (Request (lit "POST") (VObject []))
    = Outcome (json 200 (lit "reply") not_configured) [] []
  /\ Stream.handler (Some (lit "sk-test")) unreachable
       (Request (lit "POST") (VString (lit "{oops")))
    = Outcome (json 400 (lit "error") (lit "Invalid JSON")) [] []
  /\ Buffered.handler (Some (lit "sk-test")) unreachable
       (Request (lit "POST") (VString (lit "{oops")))
    = Outcome (json 400 (lit "error") (lit "Invalid JSON")) [] [].
Proof. repeat split; vm_compute; reflexivity. Qed.

End HandlerFacts.

(* ===================================================================== *)
(** ** The relay on the frames of the provider                            *)
(* ===================================================================== *)

Module WireFacts.
Import JS Http Stream Wire RelayFacts.

Lemma lex_run_app (a b : jstring) (st st' : Json.lex_state) (ts : list Json.token) :
  lex_run st a = Some (st', ts) ->
  Json.lex st (a ++ b) = option_map (app ts) (Json.lex st' b).
Proof.
  revert st ts. induction a as [| c a IH]; intros st ts.
  - cbn [lex_run app]. intros H. injection H as <- <-.
    destruct (Json.lex st b); reflexivity.
  - cbn [lex_run app Json.lex].
    destruct (Json.lex_step st c) as [[st1 ts1] |]; [| discriminate].
    destruct (lex_run st1 a) as [[st2 ts2] |] eqn:Hrun; [| discriminate].
    intros H. injection H as <- <-.
    rewrite (IH _ _ Hrun). destruct (Json.lex st2 b); cbn [option_map];
      [now rewrite app_assoc | reflexivity].
Qed.

Lemma lex_run_compose (a b : jstring) (st st1 st2 : Json.lex_state)
  (ts1 ts2 : list Json.token) :
  lex_run st a = Some (st1, ts1) ->
  lex_run st1 b = Some (st2, ts2) ->
  lex_run st (a ++ b) = Some (st2, ts1 ++ ts2).
Proof.
  revert st ts1. induction a as [| c a IH]; intros st ts1.
  - cbn [lex_run app]. intros H. injection H as <- <-. now intros ->.
  - cbn [lex_run app].
    destruct (Json.lex_step st c) as [[st' ts'] |]; [| discriminate].
    destruct (lex_run st' a) as [[st'' ts''] |] eqn:Hrun; [| discriminate].
    intros H Hb. injection H as <- <-.
    rewrite (IH _ _ Hrun Hb). now rewrite app_assoc.
Qed.

(** Case analysis on a control character. *)
Lemma control_cases (P : N -> Prop) :
  (forall n, (n < 32)%nat -> P (N.of_nat n)) -> forall c, (c < 32)%N -> P c.
Proof.
  intros H c Hc. rewrite <- (N2Nat.id c). apply H. lia.
Qed.

Lemma lex_run_escape_unit (c : code_unit) (acc : jstring) :
  lex_run (Json.LString acc) (escape_unit c) = Some (Json.LString (c :: acc), []).
Proof.
  unfold escape_unit.
  destruct (N.eqb_spec c 34) as [-> | H34]; [reflexivity |].
  destruct (N.eqb_spec c 92) as [-> | H92]; [reflexivity |].
  destruct (N.eqb_spec c 10) as [-> | H10]; [reflexivity |].
  destruct (N.eqb_spec c 13) as [-> | H13]; [reflexivity |].
  destruct (N.eqb_spec c 9) as [-> | H9]; [reflexivity |].
  destruct (N.ltb_spec c 32) as [Hlt | Hge].
  - revert c Hlt H34 H92 H10 H13 H9. apply (control_cases (fun c => _ -> _ -> _ -> _ -> _ -> _)).
    intros n Hn _ _ _ _ _.
    do 32 (destruct n as [| n]; [reflexivity |]). lia.
  - cbn [lex_run Json.lex_step].
    destruct (N.eqb_spec c 34); [contradiction |].
    destruct (N.eqb_spec c 92); [contradiction |].
    destruct (N.ltb_spec c 32); [lia |]. reflexivity.
Qed.

Lemma lex_run_escape (s acc : jstring) :
  lex_run (Json.LString acc) (escape s) = Some (Json.LString (rev s ++ acc), []).
Proof.
  revert acc. induction s as [| c s IH]; intros acc; [reflexivity |].
  cbn [escape flat_map]. fold (escape s).
  rewrite (lex_run_compose _ _ _ _ _ _ _ (lex_run_escape_unit c acc) (IH (c :: acc))).
  cbn [rev app]. now rewrite <- app_assoc.
Qed.

Lemma parse_payload (token : jstring) :
  Json.parse (payload token)
  = Ok (VObject
          [(lit "choices",
            VArray [VObject [(lit "delta", VObject [(lit "content", VString token)])]])]).
Proof.
  unfold Json.parse, payload.
  assert (Hpre : lex_run Json.LStart (lit "{`choices`:[{`delta`:{`content`:`")
                 = Some (Json.LString [],
                         [Json.TLBrace; Json.TString (lit "choices"); Json.TColon;
                          Json.TLBracket; Json.TLBrace; Json.TString (lit "delta");
                          Json.TColon; Json.TLBrace; Json.TString (lit "content");
                          Json.TColon])) by (vm_compute; reflexivity).
  pose proof (lex_run_compose _ _ _ _ _ _ _ Hpre (lex_run_escape token [])) as Hstr.
  rewrite app_nil_r in Hstr.
  rewrite app_assoc, (lex_run_app _ _ _ _ _ Hstr).
  change (lit "`}}]}") with [34%N; 125%N; 125%N; 93%N; 125%N].
  cbn [Json.lex Json.lex_step]. change (34 =? 34)%N with true. cbv iota.
  rewrite rev_involutive.
  reflexivity.
Qed.

Lemma token_of_payload (token : jstring) :
  token_of (payload token) = Ok (VString token).
Proof. unfold token_of. rewrite parse_payload. reflexivity. Qed.

(** [s.slice(n)] drops the first [n] elements. *)
Lemma slice_from {A} (l : list A) (n : nat) :
  slice l (Z.of_nat n) None = skipn n l.
Proof.
  unfold slice, relative_index.
  destruct (Z.ltb_spec (Z.of_nat n) 0) as [H | _]; [lia |].
  destruct (Nat.le_gt_cases n (length l)) as [Hle | Hgt].
  - rewrite Z.min_l by lia. rewrite Nat2Z.id.
    apply firstn_all2. rewrite length_skipn. lia.
  - rewrite Z.min_r by lia. rewrite Nat2Z.id.
    rewrite skipn_all. rewrite (skipn_all2 (n := n)) by lia. apply firstn_nil.
Qed.

Lemma trimStart_head (c : code_unit) (s : jstring) :
  is_space c = false -> trimStart (c :: s) = c :: s.
Proof. intros H. cbn [trimStart]. now rewrite H. Qed.

Lemma trim_between (c d : code_unit) (mid : jstring) :
  is_space c = false -> is_space d = false ->
  trim (c :: mid ++ [d]) = c :: mid ++ [d].
Proof.
  intros Hc Hd. unfold trim, trimEnd. rewrite (trimStart_head _ _ Hc).
  replace (rev (c :: mid ++ [d])) with (d :: rev (c :: mid))
    by (rewrite app_comm_cons, rev_app_distr; reflexivity).
  rewrite (trimStart_head _ _ Hd).
  change (d :: rev (c :: mid)) with ([d] ++ rev (c :: mid)).
  rewrite rev_app_distr, rev_involutive. reflexivity.
Qed.

Lemma trim_payload (token : jstring) : trim (payload token) = payload token.
Proof.
  unfold payload.
  change (lit "{`choices`:[{`delta`:{`content`:`")
    with (123%N :: lit "`choices`:[{`delta`:{`content`:`").
  change (lit "`}}]}") with (lit "`}}]" ++ [125%N]).
  cbn [app]. rewrite !app_assoc. apply trim_between; reflexivity.
Qed.

Lemma escape_unit_no_newline (c : code_unit) : ~ In 10%N (escape_unit c).
Proof.
  destruct (N.ltb_spec c 32) as [Hlt | Hge].
  - revert c Hlt. apply control_cases. intros n Hn.
    do 32 (destruct n as [| n]; [vm_compute; intuition discriminate |]). lia.
  - unfold escape_unit.
    destruct (N.eqb_spec c 34); [cbn; intuition discriminate |].
    destruct (N.eqb_spec c 92); [cbn; intuition discriminate |].
    destruct (N.eqb_spec c 10); [lia |].
    destruct (N.eqb_spec c 13); [lia |].
    destruct (N.eqb_spec c 9); [lia |].
    destruct (N.ltb_spec c 32); [lia |].
    cbn [In]. intros [H' | []]. lia.
Qed.

Lemma escape_no_newline (s : jstring) : ~ In 10%N (escape s).
Proof.
  induction s as [| c s IH]; [intros [] |].
  cbn [escape flat_map]. fold (escape s). intros H. apply in_app_or in H.
  destruct H as [H | H]; [now apply (escape_unit_no_newline c) | now apply IH].
Qed.

Lemma data_no_newline (token : jstring) : ~ In 10%N (data_of token).
Proof.
  unfold data_of, payload. intros H.
  repeat (apply in_app_or in H; destruct H as [H | H]);
    try (now apply (escape_no_newline token));
    revert H; vm_compute; intuition discriminate.
Qed.

Import RelayFacts.

Lemma split_line (l rest : jstring) :
  ~ In 10%N l -> split 10%N (l ++ 10%N :: rest) = l :: split 10%N rest.
Proof.
  induction l as [| c l IH]; intros H; [reflexivity |].
  cbn [app split]. destruct (N.eqb_spec c 10) as [-> | Hc].
  - exfalso. apply H. now left.
  - rewrite IH; [reflexivity |]. intros Hl. apply H. now right.
Qed.

Lemma split_body (tokens : list jstring) (done : bool) (tail : jstring) :
  ~ In 10%N tail ->
  split 10%N (body tokens done ++ tail)
  = lines_of tokens ++ (if done then [lit "data: [DONE]"; []; tail] else [tail]).
Proof.
  intros Htail. unfold body, lines_of. induction tokens as [| t tokens IH].
  - cbn [map concat flat_map app]. destruct done.
    + change (terminal ++ tail)
        with (lit "data: [DONE]" ++ 10%N :: ([] ++ 10%N :: tail)).
      rewrite (split_line (lit "data: [DONE]")) by (vm_compute; intuition discriminate).
      rewrite (split_line [] _ (fun H => H)).
      now rewrite (split_whole _ _ Htail).
    + cbn [app]. now rewrite (split_whole _ _ Htail).
  - cbn [map concat flat_map].
    replace (frame t) with (data_of t ++ [10%N; 10%N])
      by (unfold frame, data_of, nl; now rewrite <- !app_assoc).
    rewrite <- !app_assoc. cbn [app].
    rewrite (split_line _ _ (data_no_newline t)).
    change (10%N :: ?x) with ([] ++ 10%N :: x).
    rewrite (split_line [] _ (fun H => H)).
    rewrite <- !app_assoc in IH. now rewrite IH.
Qed.

Lemma for_lines_data (token : jstring) (rest : list jstring) :
  for_lines (data_of token :: [] :: rest)
  = match token with
    | [] => for_lines rest
    | _ => DataToken (VString token) :: for_lines rest
    end.
Proof.
  rewrite for_lines_cons.
  assert (Hstart : startsWith (data_of token) (lit "data: ") = true).
  { unfold data_of. change (lit "data: ") with [100; 97; 116; 97; 58; 32]%N.
    reflexivity. }
  assert (Hpay : slice (data_of token) 6 None = payload token).
  { change 6%Z with (Z.of_nat 6). rewrite slice_from. unfold data_of.
    change (lit "data: ") with [100; 97; 116; 97; 58; 32]%N. reflexivity. }
  rewrite Hstart, Hpay, trim_payload. cbn [negb].
  assert (Hnot : streq (payload token) (lit "[DONE]") = false).
  { unfold payload.
    change (lit "{`choices`:[{`delta`:{`content`:`")
      with (123%N :: lit "`choices`:[{`delta`:{`content`:`").
    reflexivity. }
  rewrite Hnot, token_of_payload.
  change (for_lines ([] :: rest)) with (for_lines rest).
  destruct token; reflexivity.
Qed.

Lemma for_lines_tokens (tokens : list jstring) (rest : list jstring) :
  for_lines (lines_of tokens ++ rest) = relayed tokens false ++ for_lines rest.
Proof.
  unfold lines_of, relayed. rewrite app_nil_r.
  induction tokens as [| t tokens IH]; [reflexivity |].
  cbn [flat_map app]. rewrite for_lines_data, IH.
  destruct t; reflexivity.
Qed.

Lemma terminal_data (token : jstring) : terminal_line (data_of token) = false.
Proof.
  unfold terminal_line.
  assert (Hpay : slice (data_of token) 6 None = payload token).
  { change 6%Z with (Z.of_nat 6). rewrite slice_from. unfold data_of.
    change (lit "data: ") with [100; 97; 116; 97; 58; 32]%N. reflexivity. }
  rewrite Hpay, trim_payload. unfold payload.
  change (lit "{`choices`:[{`delta`:{`content`:`")
    with (123%N :: lit "`choices`:[{`delta`:{`content`:`").
  cbn [app streq]. change (lit "[DONE]") with (91%N :: lit "DONE]").
  cbn [streq]. change (123 =? 91)%N with false. cbn [andb].
  apply andb_false_r.
Qed.

Lemma quiet_tokens (tokens : list jstring) (rest : list jstring) :
  quiet_after_terminal rest = true ->
  quiet_after_terminal (lines_of tokens ++ rest) = true.
Proof.
  intros H. unfold lines_of. induction tokens as [| t tokens IH]; [exact H |].
  cbn [flat_map app quiet_after_terminal]. rewrite terminal_data.
  change (terminal_line []) with false. cbv iota. exact IH.
Qed.

Lemma while_reading_body (tokens : list jstring) (done : bool) (tail : jstring)
  (reads : list (list Byte.byte)) :
  decoded reads = body tokens done ++ tail ->
  ~ In 10%N tail ->
  while_reading start reads = relayed tokens done.
Proof.
  intros Hbody Htail.
  assert (Hlines : removelast (split 10%N (decoded reads))
                   = lines_of tokens ++ (if done then [lit "data: [DONE]"; []] else [])).
  { rewrite Hbody, (split_body _ _ _ Htail). destruct done.
    - rewrite removelast_app by discriminate. reflexivity.
    - rewrite removelast_app by discriminate. reflexivity. }
  rewrite while_reading_decoded; rewrite Hlines.
  - rewrite for_lines_tokens. destruct done.
    + unfold relayed. rewrite app_nil_r. reflexivity.
    + cbn [for_lines]. now rewrite app_nil_r.
  - apply quiet_tokens. destruct done; reflexivity.
Qed.




Lemma upto_terminal_same (lines : list jstring) :
  for_lines (Paths.upto_terminal (filter data_line lines)) = for_lines lines.
Proof.
  induction lines as [| line rest IH]; [reflexivity |].
  cbn [filter]. rewrite (for_lines_cons line rest). unfold data_line at 1.
  destruct (startsWith line (lit "data: ")) eqn:Hdata; cbn [negb]; [| exact IH].
  cbn [Paths.upto_terminal]. rewrite Hdata. cbn [andb].
  destruct (streq (trim (slice line 6 None)) (lit "[DONE]")) eqn:Hdone.
  - rewrite for_lines_cons, Hdata, Hdone. reflexivity.
  - rewrite for_lines_cons, Hdata, Hdone. cbn [negb]. now rewrite IH.
Qed.

(** X4. A body made of token frames as the provider writes them, each the
    data prefix, the object that holds the token as JSON and a blank line,
    with or without the terminal frame at its end, is relayed token by
    token in the order of the frames, whatever the reads it arrives in:
    the empty tokens are left out and the terminal frame is written last.
    Every token, whatever characters it holds, is read back from its
    payload as it was. *)
Theorem relay_forwards_frames_in_order (tokens : list jstring) (done : bool)
  (reads : list (list Byte.byte)) :
  decoded reads = body tokens done ->
  while_reading start reads = relayed tokens done
  /\ (forall token, In token tokens -> token_of (payload token) = Ok (VString token)).
Proof.
  intros Hbody. split.
  - apply (while_reading_body tokens done []); [| intros []].
    now rewrite app_nil_r.
  - intros token _. apply token_of_payload.
Qed.

Lemma relay_forwards_frames_in_order_witness :
  while_reading start
    [Sample.bytes (frame (lit "say `hi`" ++ nl));
     Sample.bytes (frame [] ++ frame (lit "a\b") ++ terminal)]
  = [DataToken (VString (lit "say `hi`" ++ nl)); DataToken (VString (lit "a\b"));
     DataDone].
Proof.
  apply (relay_forwards_frames_in_order [lit "say `hi`" ++ nl; []; lit "a\b"] true).
  vm_compute. reflexivity.
Defined.

(** X5. What follows the last line feed of the body is never relayed:
    the frames before it are written as usual, and a last data line that
    the provider did not end with a line feed stays in the buffer when the
    reads are done. *)
Theorem relay_drops_unterminated_tail (tokens : list jstring) (done : bool)
  (tail : jstring) (reads : list (list Byte.byte)) :
  decoded reads = body tokens done ++ tail ->
  ~ In 10%N tail ->
  while_reading start reads = relayed tokens done.
Proof. apply while_reading_body. Qed.

Lemma relay_drops_unterminated_tail_witness :
  while_reading start
    [Sample.bytes (frame (lit "Hel")); Sample.bytes (data_of (lit "lo"))]
  = [DataToken (VString (lit "Hel"))].
Proof.
  apply (relay_drops_unterminated_tail [lit "Hel"] false (data_of (lit "lo"))).
  - vm_compute. reflexivity.
  - vm_compute. intuition discriminate.
Defined.


(** X7. What one read writes is decided by its complete lines that
    start with the data prefix and a space, up to the first terminal line
    among them: the other lines, and the lines after that terminal line,
    change nothing. *)
Theorem relay_reads_data_lines_up_to_terminal (st : relay) (value : list Byte.byte) :
  snd (on_read st value)
  = for_lines (Paths.upto_terminal (filter data_line (complete_lines st value))).
Proof. now rewrite upto_terminal_same, on_read_writes. Qed.

Lemma trimEnd_return (s : jstring) : trimEnd (s ++ [13%N]) = trimEnd s.
Proof. unfold trimEnd. now rewrite rev_app_distr. Qed.

Lemma trim_payload_return (token : jstring) :
  trim (payload token ++ [13%N]) = payload token.
Proof.
  rewrite <- (trim_payload token) at 2. unfold trim.
  assert (Hstart : forall rest, trimStart (payload token ++ rest) = payload token ++ rest).
  { intros rest. unfold payload.
    change (lit "{`choices`:[{`delta`:{`content`:`")
      with (123%N :: lit "`choices`:[{`delta`:{`content`:`").
    reflexivity. }
  rewrite Hstart. rewrite <- (app_nil_r (payload token)) at 2.
  rewrite Hstart, app_nil_r. apply trimEnd_return.
Qed.

Lemma data_return_no_newline (token : jstring) : ~ In 10%N (data_of token ++ [13%N]).
Proof.
  intros H. apply in_app_or in H as [H | [H | []]].
  - exact (data_no_newline token H).
  - discriminate.
Qed.

Lemma split_crlf_body (tokens : list jstring) (done : bool) :
  split 10%N (crlf_body tokens done)
  = crlf_lines_of tokens
    ++ (if done then [lit "data: [DONE]" ++ [13%N]; [13%N]; []] else [[]]).
Proof.
  unfold crlf_body, crlf_lines_of. induction tokens as [| t tokens IH].
  - destruct done; reflexivity.
  - cbn [map concat flat_map].
    assert (Hshape : forall x y : jstring,
              ((data_of t ++ crlf ++ crlf) ++ x) ++ y
              = (data_of t ++ [13%N]) ++ 10%N :: ([13%N] ++ 10%N :: (x ++ y)))
      by (intros x y; unfold crlf; rewrite <- !app_assoc; reflexivity).
    rewrite Hshape.
    rewrite (split_line _ _ (data_return_no_newline t)).
    rewrite (split_line [13%N]) by (intros [H | []]; discriminate).
    cbn [app].
    now rewrite IH.
Qed.

Lemma data_return_payload (token : jstring) :
  startsWith (data_of token ++ [13%N]) (lit "data: ") = true
  /\ trim (slice (data_of token ++ [13%N]) 6 None) = payload token.
Proof.
  split.
  - unfold data_of. change (lit "data: ") with [100; 97; 116; 97; 58; 32]%N.
    reflexivity.
  - change 6%Z with (Z.of_nat 6). rewrite slice_from. unfold data_of.
    change (lit "data: ") with [100; 97; 116; 97; 58; 32]%N. cbn [app skipn].
    apply trim_payload_return.
Qed.

Lemma payload_is_not_done (token : jstring) : streq (payload token) (lit "[DONE]") = false.
Proof.
  unfold payload.
  change (lit "{`choices`:[{`delta`:{`content`:`")
    with (123%N :: lit "`choices`:[{`delta`:{`content`:`").
  reflexivity.
Qed.

Lemma for_lines_crlf_tokens (tokens : list jstring) (rest : list jstring) :
  for_lines (crlf_lines_of tokens ++ rest) = relayed tokens false ++ for_lines rest.
Proof.
  unfold crlf_lines_of, relayed. rewrite app_nil_r.
  induction tokens as [| t tokens IH]; [reflexivity |].
  cbn [flat_map app]. rewrite for_lines_cons.
  destruct (data_return_payload t) as [-> ->].
  rewrite payload_is_not_done, token_of_payload. cbn [negb].
  change (for_lines ([13%N] :: ?x)) with (for_lines x).
  rewrite IH. destruct t; reflexivity.
Qed.

Lemma quiet_crlf_tokens (tokens : list jstring) (rest : list jstring) :
  quiet_after_terminal rest = true ->
  quiet_after_terminal (crlf_lines_of tokens ++ rest) = true.
Proof.
  intros H. unfold crlf_lines_of. induction tokens as [| t tokens IH]; [exact H |].
  cbn [flat_map app quiet_after_terminal]. unfold terminal_line at 1, data_line at 1.
  destruct (data_return_payload t) as [-> ->].
  rewrite payload_is_not_done. cbn [andb].
  change (terminal_line [13%N]) with false. cbv iota. exact IH.
Qed.

Lemma while_reading_crlf_body (tokens : list jstring) (done : bool)
  (reads : list (list Byte.byte)) :
  decoded reads = crlf_body tokens done ->
  while_reading start reads = relayed tokens done.
Proof.
  intros Hbody.
  assert (Hlines : removelast (split 10%N (decoded reads))
                   = crlf_lines_of tokens
                     ++ (if done then [lit "data: [DONE]" ++ [13%N]; [13%N]] else [])).
  { rewrite Hbody, split_crlf_body. destruct done.
    - rewrite removelast_app by discriminate. reflexivity.
    - rewrite removelast_app by discriminate. reflexivity. }
  rewrite while_reading_decoded; rewrite Hlines.
  - rewrite for_lines_crlf_tokens. destruct done.
    + unfold relayed. rewrite app_nil_r. reflexivity.
    + cbn [for_lines]. now rewrite app_nil_r.
  - apply quiet_crlf_tokens. destruct done; reflexivity.
Qed.

(** X21. A body whose lines the provider ends with a carriage return and
    a line feed is relayed as the same body with line feeds alone: the
    tokens in order, the empty ones left out, the terminal frame last,
    whatever the reads. *)
Theorem relay_accepts_crlf_frames (tokens : list jstring) (done : bool)
  (reads : list (list Byte.byte)) :
  decoded reads = crlf_body tokens done ->
  while_reading start reads = relayed tokens done.
Proof. apply while_reading_crlf_body. Qed.

Lemma relay_accepts_crlf_frames_witness :
  while_reading start
    [Sample.bytes (data_of (lit "Hel") ++ crlf);
     Sample.bytes (crlf ++ lit "data: [DONE]" ++ crlf ++ crlf)]
  = [DataToken (VString (lit "Hel")); DataDone].
Proof.
  apply (relay_accepts_crlf_frames [lit "Hel"] true).
  vm_compute. reflexivity.
Defined.

End WireFacts.

(* ===================================================================== *)
(** ** The handlers, path by path                                         *)
(* ===================================================================== *)

Module HandlerPaths.
Import JS Http Interface Paths.

Lemma missing_false (apiKey : option jstring) :
  missing apiKey = false -> exists k, apiKey = Some k /\ k <> [].
Proof.
  destruct apiKey as [[| c k] |]; try discriminate.
  intros _. exists (c :: k). split; [reflexivity | discriminate].
Qed.

Lemma question_read (body : value) (q : jstring) :
  read_question body = Ok q -> q <> [] ->
  exists raw, get body (lit "question") = Ok (VString raw) /\ q = trim raw.
Proof.
  unfold read_question.
  destruct (get body (lit "question")) as [x | e]; cbn [bind]; [| discriminate].
  intros H Hq. injection H as <-.
  destruct x; try contradiction. eauto.
Qed.

(** The streaming handler ends before the call, or is the call for a
    request that got past the checks and whose messages were built. *)
Lemma stream_handler_cases (apiKey : option jstring) (fetch : provider) (req : request) :
  (fetch_calls (Stream.handler apiKey fetch req) = []
   /\ console (Stream.handler apiKey fetch req) = []
   /\ local_reply (result_of (Stream.handler apiKey fetch req)))
  \/ exists k body q context history systemPrompt msgs,
       reaches_call apiKey req k body q
       /\ read_array body (lit "context") = Ok context
       /\ read_array body (lit "history") = Ok history
       /\ Stream.buildSystemPrompt context = Ok systemPrompt
       /\ Stream.buildMessages systemPrompt q history = Ok msgs
       /\ Stream.handler apiKey fetch req = Stream.complete fetch k msgs.
Proof.
  unfold Stream.handler, local_reply.
  destruct (streq (req_method req) (lit "OPTIONS")); [left; cbn; tauto |].
  destruct (streq (req_method req) (lit "POST")) eqn:Hpost; cbn [negb];
    [| left; cbn; tauto].
  destruct (missing apiKey) eqn:Hkey; [left; cbn; tauto |].
  destruct (read_body req) as [body | e] eqn:Hbody; [| left; cbn; tauto].
  cbv zeta.
  destruct (read_question body) as [q | e] eqn:Hq; cbn [bind];
    [| left; cbn; eauto 10].
  destruct (read_array body (lit "context")) as [context | e] eqn:Hc; cbn [bind];
    [| left; cbn; eauto 10].
  destruct (read_array body (lit "history")) as [history | e] eqn:Hh; cbn [bind];
    [| left; cbn; eauto 10].
  destruct q as [| c q]; [left; cbn; tauto |].
  destruct (Stream.buildSystemPrompt context) as [sp | e] eqn:Hsp; cbn [bind];
    [| left; cbn; eauto 10].
  destruct (Stream.buildMessages sp (c :: q) history) as [msgs | e] eqn:Hm; cbn [bind];
    [| left; cbn; eauto 10].
  right. destruct (missing_false _ Hkey) as [k [-> Hk]].
  exists k, body, (c :: q), context, history, sp, msgs.
  split; [| auto].
  constructor; [auto | now apply AssemblerFacts.streq_eq | assumption
               | apply question_read; [assumption | discriminate] | discriminate].
Qed.

Lemma buffered_handler_cases (apiKey : option jstring) (fetch : provider) (req : request) :
  (fetch_calls (Buffered.handler apiKey fetch req) = []
   /\ console (Buffered.handler apiKey fetch req) = []
   /\ local_reply (result_of (Buffered.handler apiKey fetch req)))
  \/ exists k body q context,
       reaches_call apiKey req k body q
       /\ read_array body (lit "context") = Ok context
       /\ Buffered.handler apiKey fetch req
          = match Buffered.callOpenAI fetch k q context with
            | (Ok reply, calls) => Outcome (json 200 (lit "reply") reply) calls []
            | (Throw e, calls) =>
                Outcome (json 500 (lit "reply") apology) calls [LogChatApiError e]
            end.
Proof.
  unfold Buffered.handler, local_reply.
  destruct (streq (req_method req) (lit "OPTIONS")); [left; cbn; tauto |].
  destruct (streq (req_method req) (lit "POST")) eqn:Hpost; cbn [negb];
    [| left; cbn; tauto].
  destruct (missing apiKey) eqn:Hkey; [left; cbn; tauto |].
  destruct (read_body req) as [body | e] eqn:Hbody; [| left; cbn; tauto].
  cbv zeta.
  destruct (read_question body) as [q | e] eqn:Hq; cbn [bind];
    [| left; cbn; eauto 10].
  destruct (read_array body (lit "context")) as [context | e] eqn:Hc; cbn [bind];
    [| left; cbn; eauto 10].
  destruct q as [| c q]; [left; cbn; tauto |].
  right. destruct (missing_false _ Hkey) as [k [-> Hk]].
  exists k, body, (c :: q), context.
  split; [| auto].
  constructor; [auto | now apply AssemblerFacts.streq_eq | assumption
               | apply question_read; [assumption | discriminate] | discriminate].
Qed.

Lemma friendly_handler_cases (apiKey : option jstring) (fetch : provider) (req : request) :
  (fetch_calls (Friendly.handler apiKey fetch req) = []
   /\ console (Friendly.handler apiKey fetch req) = []
   /\ local_reply (result_of (Friendly.handler apiKey fetch req)))
  \/ exists k body q context,
       reaches_call apiKey req k body q
       /\ read_array body (lit "context") = Ok context
       /\ Friendly.handler apiKey fetch req
          = match Friendly.callOpenAI fetch k q context with
            | (Ok reply, calls) => Outcome (json 200 (lit "reply") reply) calls []
            | (Throw e, calls) =>
                Outcome (json 500 (lit "reply") apology) calls [LogChatApiError e]
            end.
Proof.
  unfold Friendly.handler, local_reply.
  destruct (streq (req_method req) (lit "OPTIONS")); [left; cbn; tauto |].
  destruct (streq (req_method req) (lit "POST")) eqn:Hpost; cbn [negb];
    [| left; cbn; tauto].
  destruct (missing apiKey) eqn:Hkey; [left; cbn; tauto |].
  destruct (read_body req) as [body | e] eqn:Hbody; [| left; cbn; tauto].
  cbv zeta.
  destruct (read_question body) as [q | e] eqn:Hq; cbn [bind];
    [| left; cbn; eauto 10].
  destruct (read_array body (lit "context")) as [context | e] eqn:Hc; cbn [bind];
    [| left; cbn; eauto 10].
  destruct q as [| c q]; [left; cbn; tauto |].
  right. destruct (missing_false _ Hkey) as [k [-> Hk]].
  exists k, body, (c :: q), context.
  split; [| auto].
  constructor; [auto | now apply AssemblerFacts.streq_eq | assumption
               | apply question_read; [assumption | discriminate] | discriminate].
Qed.

Lemma streq_neq (a b : jstring) : streq a b = false -> a <> b.
Proof.
  intros H ->. now rewrite AssemblerFacts.streq_refl in H.
Qed.

Lemma get_ok_not_nullish (body : value) (name : jstring) (x : value) :
  get body name = Ok x -> nullish body = false.
Proof. destruct body; cbn; intros H; try discriminate; reflexivity. Qed.

Lemma get_nullish (body : value) (name : jstring) :
  nullish body = true -> get body name = Throw TypeError.
Proof. destruct body; cbn; intros H; try discriminate; reflexivity. Qed.

Lemma stream_complete_call (fetch : provider) (k : jstring) (msgs : list message) :
  fetch_calls (Stream.complete fetch k msgs)
  = [FetchCall endpoint (lit "Bearer " ++ k)
       (CompletionRequest (lit "gpt-4o-mini") msgs 1024 (decimal false 5 (-1))
          (Some true))].
Proof.
  unfold Stream.complete.
  destruct (fetch _) as [e | u]; [reflexivity |].
  destruct (negb (ok u)).
  - now destruct (body_text u).
  - now destruct (body_of u) as [[reads [e |]] |].
Qed.

Lemma read_array_is_array (body : value) (name : jstring) (a : value) :
  read_array body name = Ok a -> exists entries, a = VArray entries.
Proof.
  unfold read_array. destruct (get body name) as [x | e]; cbn [bind]; [| discriminate].
  intros H. injection H as <-. destruct x; eauto.
Qed.

(** X8. The streaming handler calls the provider at most once, and only
    for a POST with the key configured and a question that is not blank;
    the call goes to the completions endpoint with the key as bearer
    token, asks for a stream, and carries the messages of the assembler:
    the system prompt of the context of the request first, then what the
    loop over the last ten entries of the history of the request keeps,
    at most ten turns of the user or the assistant, which for entries of
    the declared shape are the dialogue turns among the last ten, in
    their order, each cut to 2000 units, and the trimmed question of the
    request last. *)
Theorem stream_call_carries_key_and_question
  (apiKey : option jstring) (fetch : provider) (req : request) (c : fetch_call) :
  In c (fetch_calls (Stream.handler apiKey fetch req)) ->
  fetch_calls (Stream.handler apiKey fetch req) = [c]
  /\ exists k body q context systemPrompt entries kept,
       reaches_call apiKey req k body q
       /\ read_array body (lit "context") = Ok context
       /\ Stream.buildSystemPrompt context = Ok systemPrompt
       /\ read_array body (lit "history") = Ok (VArray entries)
       /\ Stream.for_recent (last_n 10 entries) = Ok kept
       /\ (forall history : list HistoryTurn,
             Forall2 turn_shape history entries ->
             kept = map (fun t => Message (turn_role t)
                                   (firstn 2000 (text_of (turn_content t))))
                        (filter is_dialogue (last_n 10 history)))
       /\ Stream.buildMessages systemPrompt q (VArray entries)
          = Ok (messages (payload c))
       /\ dialogue kept
       /\ c = FetchCall endpoint (lit "Bearer " ++ k)
                (CompletionRequest (lit "gpt-4o-mini")
                   ([Message (lit "system") systemPrompt] ++ kept
                      ++ [Message (lit "user") q])
                   1024 (decimal false 5 (-1)) (Some true)).
Proof.
  intros Hin.
  destruct (stream_handler_cases apiKey fetch req)
    as [[Hnone _] | (k & body & q & context & history & sp & msgs
                     & Hreach & Hc & Hh & Hsp & Hm & Hrun)].
  - rewrite Hnone in Hin. destruct Hin.
  - rewrite Hrun, stream_complete_call in Hin |- *.
    destruct Hin as [<- | []]. split; [reflexivity |].
    destruct (read_array_is_array _ _ _ Hh) as [entries ->].
    pose proof Hm as Hbuilt.
    rewrite AssemblerFacts.messages_of_array in Hm.
    destruct (Stream.for_recent (last_n 10 entries)) as [kept | e] eqn:Hkept;
      cbn [bind] in Hm; [| discriminate].
    injection Hm as <-.
    exists k, body, q, context, sp, entries, kept.
    destruct (AssemblerFacts.for_recent_bounds _ _ Hkept) as [Hlen Hroles].
    pose proof (AssemblerFacts.last_n_length 10 entries) as Hten.
    do 5 (split; [assumption |]).
    split; [| split; [exact Hbuilt | split; [split; [lia | exact Hroles] | reflexivity]]].
    intros turns Hturns.
    pose proof (AssemblerFacts.for_recent_turns
                  (AssemblerFacts.Forall2_last_n 10 Hturns)) as Hkept'.
    rewrite Hkept in Hkept'. now injection Hkept' as ->.
Qed.

(** A question among blanks, and a history of a user turn, a system entry
    and an assistant turn. *)
Lemma stream_call_carries_key_and_question_witness :
  fetch_calls
    (Stream.handler (Some (lit "sk-test")) unreachable
       (Request (lit "POST")
          (VString (lit "{`question`: `  Hi `, `history`: [{`role`: `user`, `content`: `a`}, {`role`: `system`, `content`: `x`}, {`role`: `assistant`, `content`: `b`}]}"))))
  = [FetchCall endpoint (lit "Bearer sk-test")
       (CompletionRequest (lit "gpt-4o-mini")
          [Message (lit "system") (Stream.persona ++ Stream.no_articles);
           Message (lit "user") (lit "a");
           Message (lit "assistant") (lit "b");
           Message (lit "user") (lit "Hi")]
          1024 (decimal false 5 (-1)) (Some true))].
Proof.
  apply (stream_call_carries_key_and_question (Some (lit "sk-test")) unreachable
           (Request (lit "POST")
              (VString (lit "{`question`: `  Hi `, `history`: [{`role`: `user`, `content`: `a`}, {`role`: `system`, `content`: `x`}, {`role`: `assistant`, `content`: `b`}]}")))).
  vm_compute. left. reflexivity.
Defined.

Lemma buffered_call (fetch : provider) (k q : jstring) (context : value) (sp : jstring) :
  Buffered.buildSystemPrompt context = Ok sp ->
  snd (Buffered.callOpenAI fetch k q context)
  = [FetchCall endpoint (lit "Bearer " ++ k)
       (CompletionRequest (lit "gpt-4o-mini")
          [Message (lit "system") sp; Message (lit "user") q]
          1024 (decimal false 3 (-1)) None)].
Proof. unfold Buffered.callOpenAI. now intros ->. Qed.

Lemma friendly_call (fetch : provider) (k q : jstring) (context : value) (sp : jstring) :
  Friendly.buildSystemPrompt context = Ok sp ->
  snd (Friendly.callOpenAI fetch k q context)
  = [FetchCall endpoint (lit "Bearer " ++ k)
       (CompletionRequest (lit "gpt-4o-mini")
          [Message (lit "system") sp; Message (lit "user") q]
          1024 (decimal false 5 (-1)) None)].
Proof. unfold Friendly.callOpenAI. now intros ->. Qed.

Lemma buffered_no_prompt (fetch : provider) (k q : jstring) (context : value) (e : error) :
  Buffered.buildSystemPrompt context = Throw e ->
  Buffered.callOpenAI fetch k q context = (Throw e, []).
Proof. unfold Buffered.callOpenAI. now intros ->. Qed.

Lemma friendly_no_prompt (fetch : provider) (k q : jstring) (context : value) (e : error) :
  Friendly.buildSystemPrompt context = Throw e ->
  Friendly.callOpenAI fetch k q context = (Throw e, []).
Proof. unfold Friendly.callOpenAI. now intros ->. Qed.

Lemma buffered_calls_of_handler (apiKey : option jstring) (fetch : provider)
  (req : request) (k q : jstring) (context : value) :
  Buffered.handler apiKey fetch req
  = match Buffered.callOpenAI fetch k q context with
    | (Ok reply, calls) => Outcome (json 200 (lit "reply") reply) calls []
    | (Throw e, calls) =>
        Outcome (json 500 (lit "reply") apology) calls [LogChatApiError e]
    end ->
  fetch_calls (Buffered.handler apiKey fetch req)
  = snd (Buffered.callOpenAI fetch k q context).
Proof.
  intros ->. now destruct (Buffered.callOpenAI fetch k q context) as [[reply | e] calls].
Qed.

Lemma friendly_calls_of_handler (apiKey : option jstring) (fetch : provider)
  (req : request) (k q : jstring) (context : value) :
  Friendly.handler apiKey fetch req
  = match Friendly.callOpenAI fetch k q context with
    | (Ok reply, calls) => Outcome (json 200 (lit "reply") reply) calls []
    | (Throw e, calls) =>
        Outcome (json 500 (lit "reply") apology) calls [LogChatApiError e]
    end ->
  fetch_calls (Friendly.handler apiKey fetch req)
  = snd (Friendly.callOpenAI fetch k q context).
Proof.
  intros ->. now destruct (Friendly.callOpenAI fetch k q context) as [[reply | e] calls].
Qed.

(** What a buffered handler has got past when it calls the provider. *)
Lemma buffered_called (apiKey : option jstring) (fetch : provider) (req : request)
  (c : fetch_call) :
  In c (fetch_calls (Buffered.handler apiKey fetch req)) ->
  exists k body q context sp,
    reaches_call apiKey req k body q
    /\ read_array body (lit "context") = Ok context
    /\ Buffered.buildSystemPrompt context = Ok sp
    /\ c = FetchCall endpoint (lit "Bearer " ++ k)
             (CompletionRequest (lit "gpt-4o-mini")
                [Message (lit "system") sp; Message (lit "user") q]
                1024 (decimal false 3 (-1)) None)
    /\ fetch_calls (Buffered.handler apiKey fetch req) = [c]
    /\ Buffered.handler apiKey fetch req
       = match Buffered.callOpenAI fetch k q context with
         | (Ok reply, calls) => Outcome (json 200 (lit "reply") reply) calls []
         | (Throw e, calls) =>
             Outcome (json 500 (lit "reply") apology) calls [LogChatApiError e]
         end.
Proof.
  intros Hin.
  destruct (buffered_handler_cases apiKey fetch req)
    as [[Hnone _] | (k & body & q & context & Hreach & Hc & Hrun)].
  - rewrite Hnone in Hin. destruct Hin.
  - pose proof (buffered_calls_of_handler _ _ _ _ _ _ Hrun) as Hcalls.
    rewrite Hcalls in Hin |- *.
    destruct (Buffered.buildSystemPrompt context) as [sp | e] eqn:Hsp.
    + rewrite (buffered_call _ _ _ _ _ Hsp) in Hin |- *.
      destruct Hin as [<- | []]. exists k, body, q, context, sp. auto 10.
    + rewrite (buffered_no_prompt _ _ _ _ _ Hsp) in Hin. destruct Hin.
Qed.

Lemma friendly_called (apiKey : option jstring) (fetch : provider) (req : request)
  (c : fetch_call) :
  In c (fetch_calls (Friendly.handler apiKey fetch req)) ->
  exists k body q context sp,
    reaches_call apiKey req k body q
    /\ read_array body (lit "context") = Ok context
    /\ Friendly.buildSystemPrompt context = Ok sp
    /\ c = FetchCall endpoint (lit "Bearer " ++ k)
             (CompletionRequest (lit "gpt-4o-mini")
                [Message (lit "system") sp; Message (lit "user") q]
                1024 (decimal false 5 (-1)) None)
    /\ fetch_calls (Friendly.handler apiKey fetch req) = [c]
    /\ Friendly.handler apiKey fetch req
       = match Friendly.callOpenAI fetch k q context with
         | (Ok reply, calls) => Outcome (json 200 (lit "reply") reply) calls []
         | (Throw e, calls) =>
             Outcome (json 500 (lit "reply") apology) calls [LogChatApiError e]
         end.
Proof.
  intros Hin.
  destruct (friendly_handler_cases apiKey fetch req)
    as [[Hnone _] | (k & body & q & context & Hreach & Hc & Hrun)].
  - rewrite Hnone in Hin. destruct Hin.
  - pose proof (friendly_calls_of_handler _ _ _ _ _ _ Hrun) as Hcalls.
    rewrite Hcalls in Hin |- *.
    destruct (Friendly.buildSystemPrompt context) as [sp | e] eqn:Hsp.
    + rewrite (friendly_call _ _ _ _ _ Hsp) in Hin |- *.
      destruct Hin as [<- | []]. exists k, body, q, context, sp. auto 10.
    + rewrite (friendly_no_prompt _ _ _ _ _ Hsp) in Hin. destruct Hin.
Qed.

(** X9. The buffered handler calls the provider at most once, and only
    for a POST with the key configured and a question that is not blank;
    the call carries the key as bearer token and two messages, the system
    prompt of the context and the trimmed question, at temperature 0.3,
    and does not ask for a stream. *)
Theorem buffered_call_carries_key_and_question
  (apiKey : option jstring) (fetch : provider) (req : request) (c : fetch_call) :
  In c (fetch_calls (Buffered.handler apiKey fetch req)) ->
  fetch_calls (Buffered.handler apiKey fetch req) = [c]
  /\ exists k body q context systemPrompt,
       reaches_call apiKey req k body q
       /\ read_array body (lit "context") = Ok context
       /\ Buffered.buildSystemPrompt context = Ok systemPrompt
       /\ c = FetchCall endpoint (lit "Bearer " ++ k)
                (CompletionRequest (lit "gpt-4o-mini")
                   [Message (lit "system") systemPrompt; Message (lit "user") q]
                   1024 (decimal false 3 (-1)) None).
Proof.
  intros Hin.
  destruct (buffered_called _ _ _ _ Hin)
    as (k & body & q & context & sp & Hreach & Hc & Hsp & Hcall & Hcalls & _).
  split; [exact Hcalls |]. exists k, body, q, context, sp. auto.
Qed.

Lemma buffered_call_carries_key_and_question_witness :
  fetch_calls
    (Buffered.handler (Some (lit "sk-test")) unreachable
       (Request (lit "POST") (VString (lit "{`question`: ` Hi `, `history`: [1]}"))))
  = [FetchCall endpoint (lit "Bearer sk-test")
       (CompletionRequest (lit "gpt-4o-mini")
          [Message (lit "system") (Buffered.persona ++ Buffered.no_articles);
           Message (lit "user") (lit "Hi")]
          1024 (decimal false 3 (-1)) None)].
Proof.
  apply (buffered_call_carries_key_and_question (Some (lit "sk-test")) unreachable
           (Request (lit "POST") (VString (lit "{`question`: ` Hi `, `history`: [1]}")))).
  vm_compute. left. reflexivity.
Defined.

(** X10. The handler with the friendly persona calls the provider at most
    once, and only for a POST with the key configured and a question that
    is not blank; the call carries the key as bearer token and two
    messages, the system prompt of the context and the trimmed question,
    at temperature 0.5, and does not ask for a stream. *)
Theorem friendly_call_carries_key_and_question
  (apiKey : option jstring) (fetch : provider) (req : request) (c : fetch_call) :
  In c (fetch_calls (Friendly.handler apiKey fetch req)) ->
  fetch_calls (Friendly.handler apiKey fetch req) = [c]
  /\ exists k body q context systemPrompt,
       reaches_call apiKey req k body q
       /\ read_array body (lit "context") = Ok context
       /\ Friendly.buildSystemPrompt context = Ok systemPrompt
       /\ c = FetchCall endpoint (lit "Bearer " ++ k)
                (CompletionRequest (lit "gpt-4o-mini")
                   [Message (lit "system") systemPrompt; Message (lit "user") q]
                   1024 (decimal false 5 (-1)) None).
Proof.
  intros Hin.
  destruct (friendly_called _ _ _ _ Hin)
    as (k & body & q & context & sp & Hreach & Hc & Hsp & Hcall & Hcalls & _).
  split; [exact Hcalls |]. exists k, body, q, context, sp. auto.
Qed.

Lemma friendly_call_carries_key_and_question_witness :
  fetch_calls
    (Friendly.handler (Some (lit "sk-test")) unreachable
       (Request (lit "POST") (VObject [(lit "question", VString (lit " Hi "))])))
  = [FetchCall endpoint (lit "Bearer sk-test")
       (CompletionRequest (lit "gpt-4o-mini")
          [Message (lit "system") (Friendly.persona ++ Friendly.no_articles);
           Message (lit "user") (lit "Hi")]
          1024 (decimal false 5 (-1)) None)].
Proof.
  apply (friendly_call_carries_key_and_question (Some (lit "sk-test")) unreachable
           (Request (lit "POST") (VObject [(lit "question", VString (lit " Hi "))]))).
  vm_compute. left. reflexivity.
Defined.

Lemma stream_called (apiKey : option jstring) (fetch : provider) (req : request)
  (c : fetch_call) :
  In c (fetch_calls (Stream.handler apiKey fetch req)) ->
  exists k msgs,
    Stream.handler apiKey fetch req = Stream.complete fetch k msgs
    /\ c = FetchCall endpoint (lit "Bearer " ++ k)
             (CompletionRequest (lit "gpt-4o-mini") msgs 1024 (decimal false 5 (-1))
                (Some true)).
Proof.
  intros Hin.
  destruct (stream_handler_cases apiKey fetch req)
    as [[Hnone _] | (k & body & q & context & history & sp & msgs
                     & _ & _ & _ & _ & _ & Hrun)].
  - rewrite Hnone in Hin. destruct Hin.
  - rewrite Hrun, stream_complete_call in Hin.
    destruct Hin as [<- | []]. now exists k, msgs.
Qed.

(** X11. When the call of the streaming handler fails, the fetch
    rejected or the answer not 2xx, the handler answers 200 with the
    apology as reply, and logs the exception, or the status and the text
    of the answer. *)
Theorem stream_provider_failure_is_200_apology
  (apiKey : option jstring) (fetch : provider) (req : request) (c : fetch_call) :
  In c (fetch_calls (Stream.handler apiKey fetch req)) ->
  (forall u, fetch c = Resolved u -> ok u = false) ->
  result_of (Stream.handler apiKey fetch req) = json 200 (lit "reply") apology
  /\ console (Stream.handler apiKey fetch req) = [stream_logged (fetch c)].
Proof.
  intros Hin Hfail.
  destruct (stream_called _ _ _ _ Hin) as (k & msgs & -> & Hc).
  unfold Stream.complete. rewrite <- Hc.
  destruct (fetch c) as [e | u]; [now split |].
  rewrite (Hfail u eq_refl). cbn [negb stream_logged].
  now destruct (body_text u).
Qed.

Lemma stream_provider_failure_is_200_apology_witness :
  result_of
    (Stream.handler (Some (lit "sk-test")) overloaded
       (Request (lit "POST") (VObject [(lit "question", VString (lit "Hi"))])))
  = json 200 (lit "reply") apology
  /\ console
       (Stream.handler (Some (lit "sk-test")) overloaded
          (Request (lit "POST") (VObject [(lit "question", VString (lit "Hi"))])))
     = [LogOpenAIError 429 (lit "slow down")].
Proof.
  apply (stream_provider_failure_is_200_apology (Some (lit "sk-test")) overloaded
           (Request (lit "POST") (VObject [(lit "question", VString (lit "Hi"))]))
           (FetchCall endpoint (lit "Bearer sk-test")
              (CompletionRequest (lit "gpt-4o-mini")
                 [Message (lit "system") (Stream.persona ++ Stream.no_articles);
                  Message (lit "user") (lit "Hi")]
                 1024 (decimal false 5 (-1)) (Some true)))).
  - vm_compute. left. reflexivity.
  - intros u H. injection H as <-. reflexivity.
Defined.

(** X12. When the call of a buffered handler fails, the fetch rejected
    or the answer not 2xx, the handler answers 500 with the apology as
    reply, and logs the exception of [callOpenAI]: the one of [fetch], or
    an error that says rate limit for status 429 and otherwise holds the
    text of the answer, or its status text when the text is empty. *)
Theorem buffered_provider_failure_is_500_apology
  (apiKey : option jstring) (fetch : provider) (req : request) (c : fetch_call) :
  (forall u, fetch c = Resolved u -> ok u = false) ->
  (In c (fetch_calls (Buffered.handler apiKey fetch req)) ->
   result_of (Buffered.handler apiKey fetch req) = json 500 (lit "reply") apology
   /\ console (Buffered.handler apiKey fetch req) = [LogChatApiError (refusal (fetch c))])
  /\ (In c (fetch_calls (Friendly.handler apiKey fetch req)) ->
      result_of (Friendly.handler apiKey fetch req) = json 500 (lit "reply") apology
      /\ console (Friendly.handler apiKey fetch req)
         = [LogChatApiError (refusal (fetch c))]).
Proof.
  intros Hfail. split; intros Hin.
  - destruct (buffered_called _ _ _ _ Hin)
      as (k & body & q & context & sp & _ & _ & Hsp & Hc & _ & ->).
    unfold Buffered.callOpenAI. rewrite Hsp. cbv zeta. rewrite <- Hc.
    pose proof Hfail as Hanswer. unfold refusal.
    destruct (fetch c) as [e | u]; [now split |].
    rewrite (Hanswer u eq_refl). cbn [negb].
    destruct (body_text u); split; reflexivity.
  - destruct (friendly_called _ _ _ _ Hin)
      as (k & body & q & context & sp & _ & _ & Hsp & Hc & _ & ->).
    unfold Friendly.callOpenAI. rewrite Hsp. cbv zeta. rewrite <- Hc.
    pose proof Hfail as Hanswer. unfold refusal.
    destruct (fetch c) as [e | u]; [now split |].
    rewrite (Hanswer u eq_refl). cbn [negb].
    destruct (body_text u); split; reflexivity.
Qed.

Lemma buffered_provider_failure_is_500_apology_witness :
  result_of
    (Buffered.handler (Some (lit "sk-test")) overloaded
       (Request (lit "POST") (VObject [(lit "question", VString (lit "Hi"))])))
  = json 500 (lit "reply") apology
  /\ console
       (Buffered.handler (Some (lit "sk-test")) overloaded
          (Request (lit "POST") (VObject [(lit "question", VString (lit "Hi"))])))
     = [LogChatApiError (Error (lit "Rate limit"))].
Proof.
  refine (proj1 (buffered_provider_failure_is_500_apology (Some (lit "sk-test"))
                   overloaded
                   (Request (lit "POST") (VObject [(lit "question", VString (lit "Hi"))]))
                   (FetchCall endpoint (lit "Bearer sk-test")
                      (CompletionRequest (lit "gpt-4o-mini")
                         [Message (lit "system")
                            (Buffered.persona ++ Buffered.no_articles);
                          Message (lit "user") (lit "Hi")]
                         1024 (decimal false 3 (-1)) None)) _) _).
  - intros u H. injection H as <-. reflexivity.
  - vm_compute. left. reflexivity.
Defined.

(** X13. When the provider answers the call of the streaming handler 2xx,
    the handler has made that one call and, by the body of the answer:
    with a body of token frames read to its end, it answers 200 with the
    CORS and event-stream headers and writes these tokens in order, the
    empty ones left out and the terminal frame last, and logs nothing;
    with no body, which is the case of status 204 and 205 alone, nothing
    is written, the exception of [getReader] is logged and the [catch]
    sends the apology with [res.status(200).json]; with a read that
    rejects, the frames of the reads before it are written, the exception
    is logged and the [catch] sends the apology after them. *)
Theorem stream_relays_provider_tokens
  (apiKey : option jstring) (fetch : provider) (req : request) (c : fetch_call)
  (u : upstream) :
  In c (fetch_calls (Stream.handler apiKey fetch req)) ->
  fetch c = Resolved u ->
  ok u = true ->
  (body_of u = None <-> up_status u = 204%Z \/ up_status u = 205%Z)
  /\ (forall reads tokens done,
        body_of u = Some (reads, None) ->
        RelayFacts.decoded reads = Wire.body tokens done ->
        Stream.handler apiKey fetch req
        = Outcome
            (Responded (Response 200 (cors ++ Stream.event_stream_headers)
                          (EventStream (Wire.relayed tokens done))))
            [c] [])
  /\ (body_of u = None ->
      Stream.handler apiKey fetch req
      = Outcome (Stream.caught []) [c] [LogChatApiError TypeError])
  /\ (forall reads e tokens done tail,
        body_of u = Some (reads, Some e) ->
        RelayFacts.decoded reads = Wire.body tokens done ++ tail ->
        ~ In 10%N tail ->
        Stream.handler apiKey fetch req
        = Outcome (Stream.caught (Wire.relayed tokens done)) [c] [LogChatApiError e]).
Proof.
  intros Hin Hfetch Hok.
  destruct (stream_called _ _ _ _ Hin) as (k & msgs & -> & Hc).
  unfold Stream.complete. rewrite <- Hc, Hfetch, Hok. cbn [negb].
  split; [| split; [| split]].
  - unfold body_of, null_body_status. unfold ok in Hok.
    apply andb_prop in Hok as [Hlow Hhigh].
    apply Z.leb_le in Hlow. apply Z.leb_le in Hhigh.
    destruct (Z.eqb_spec (up_status u) 101); [lia |].
    destruct (Z.eqb_spec (up_status u) 103); [lia |].
    destruct (Z.eqb_spec (up_status u) 204); [cbn; tauto |].
    destruct (Z.eqb_spec (up_status u) 205); [cbn; tauto |].
    destruct (Z.eqb_spec (up_status u) 304); [lia |].
    cbn. split; [discriminate | tauto].
  - intros reads tokens done -> Hbody.
    rewrite (WireFacts.while_reading_body tokens done [] reads);
      [reflexivity | now rewrite app_nil_r | intros []].
  - now intros ->.
  - intros reads e tokens done tail -> Hbody Htail.
    now rewrite (WireFacts.while_reading_body tokens done tail reads Hbody Htail).
Qed.

Lemma stream_relays_provider_tokens_witness :
  Stream.handler (Some (lit "sk-test")) streaming
    (Request (lit "POST") (VObject [(lit "question", VString (lit "Hi"))]))
  = Outcome
      (Responded (Response 200 (cors ++ Stream.event_stream_headers)
                    (EventStream [DataToken (VString (lit "Hel"));
                                  DataToken (VString (lit "lo")); DataDone])))
      [FetchCall endpoint (lit "Bearer sk-test")
         (CompletionRequest (lit "gpt-4o-mini")
            [Message (lit "system") (Stream.persona ++ Stream.no_articles);
             Message (lit "user") (lit "Hi")]
            1024 (decimal false 5 (-1)) (Some true))]
      []
  /\ Stream.handler (Some (lit "sk-test")) no_content
       (Request (lit "POST") (VObject [(lit "question", VString (lit "Hi"))]))
     = Outcome (Stream.caught [])
         [FetchCall endpoint (lit "Bearer sk-test")
            (CompletionRequest (lit "gpt-4o-mini")
               [Message (lit "system") (Stream.persona ++ Stream.no_articles);
                Message (lit "user") (lit "Hi")]
               1024 (decimal false 5 (-1)) (Some true))]
         [LogChatApiError TypeError].
Proof.
  split.
  - refine (proj1 (proj2
             (stream_relays_provider_tokens (Some (lit "sk-test")) streaming
                (Request (lit "POST") (VObject [(lit "question", VString (lit "Hi"))]))
                _ (Upstream 200 (lit "OK")
                     [Sample.bytes (Wire.frame (lit "Hel"));
                      Sample.bytes (Wire.frame (lit "lo") ++ Wire.terminal)] None)
                _ _ _))
             _ [lit "Hel"; lit "lo"] true _ _).
    + vm_compute. left. reflexivity.
    + reflexivity.
    + reflexivity.
    + reflexivity.
    + vm_compute. reflexivity.
  - refine (proj1 (proj2 (proj2
             (stream_relays_provider_tokens (Some (lit "sk-test")) no_content
                (Request (lit "POST") (VObject [(lit "question", VString (lit "Hi"))]))
                _ (Upstream 204 (lit "No Content") [] None) _ _ _))) _).
    + vm_compute. left. reflexivity.
    + reflexivity.
    + reflexivity.
    + reflexivity.
Defined.

(** X14. When the provider answers the call of a buffered handler 2xx
    with JSON whose first choice holds a string as message content, the
    handler answers 200 with that string trimmed as reply; it made that
    one call and logged nothing. *)
Theorem buffered_reply_is_trimmed_content
  (apiKey : option jstring) (fetch : provider) (req : request) (c : fetch_call)
  (u : upstream) (text : jstring) (data : value) (s : jstring) :
  fetch c = Resolved u ->
  ok u = true ->
  body_text u = Ok text ->
  Json.parse text = Ok data ->
  Buffered.content_of data = Ok (VString s) ->
  (In c (fetch_calls (Buffered.handler apiKey fetch req)) ->
   Buffered.handler apiKey fetch req
   = Outcome (json 200 (lit "reply") (trim s)) [c] [])
  /\ (In c (fetch_calls (Friendly.handler apiKey fetch req)) ->
      Friendly.handler apiKey fetch req
      = Outcome (json 200 (lit "reply") (trim s)) [c] []).
Proof.
  intros Hfetch Hok Htext Hdata Hs. split; intros Hin.
  - destruct (buffered_called _ _ _ _ Hin)
      as (k & body & q & context & sp & _ & _ & Hsp & Hc & _ & ->).
    unfold Buffered.callOpenAI. rewrite Hsp. cbv zeta. rewrite <- Hc.
    rewrite Hfetch, Hok, Htext. cbn [negb bind]. rewrite Hdata. cbn [bind].
    now rewrite Hs.
  - destruct (friendly_called _ _ _ _ Hin)
      as (k & body & q & context & sp & _ & _ & Hsp & Hc & _ & ->).
    unfold Friendly.callOpenAI. rewrite Hsp. cbv zeta. rewrite <- Hc.
    rewrite Hfetch, Hok, Htext. cbn [negb bind]. rewrite Hdata. cbn [bind].
    change Friendly.content_of with Buffered.content_of. now rewrite Hs.
Qed.

Lemma buffered_reply_is_trimmed_content_witness :
  Buffered.handler (Some (lit "sk-test")) answering
    (Request (lit "POST") (VObject [(lit "question", VString (lit "Hi"))]))
  = Outcome (json 200 (lit "reply") (lit "Hello."))
      [FetchCall endpoint (lit "Bearer sk-test")
         (CompletionRequest (lit "gpt-4o-mini")
            [Message (lit "system") (Buffered.persona ++ Buffered.no_articles);
             Message (lit "user") (lit "Hi")]
            1024 (decimal false 3 (-1)) None)]
      [].
Proof.
  refine (proj1 (buffered_reply_is_trimmed_content (Some (lit "sk-test")) answering
                   (Request (lit "POST") (VObject [(lit "question", VString (lit "Hi"))]))
                   _ (Upstream 200 (lit "OK")
                        [Sample.bytes
                           (lit "{`choices`:[{`message`:{`content`:` Hello. `}}]}")]
                        None)
                   (lit "{`choices`:[{`message`:{`content`:` Hello. `}}]}")
                   (VObject [(lit "choices",
                              VArray [VObject [(lit "message",
                                        VObject [(lit "content",
                                                  VString (lit " Hello. "))])]])])
                   (lit " Hello. ") _ _ _ _ _) _).
  - reflexivity.
  - reflexivity.
  - vm_compute. reflexivity.
  - vm_compute. reflexivity.
  - reflexivity.
  - vm_compute. left. reflexivity.
Defined.

(** X15. A run of the buffered handler that called the provider ends in
    one of two ways: 200 with the trimmed content of a 2xx answer that
    parsed and held a string, nothing logged; or 500 with the apology and
    one exception logged.  It never rejects after the call. *)
Theorem buffered_call_ends_in_reply_or_apology
  (apiKey : option jstring) (fetch : provider) (req : request) (c : fetch_call) :
  In c (fetch_calls (Buffered.handler apiKey fetch req)) ->
  (exists u text data s,
     fetch c = Resolved u /\ ok u = true
     /\ body_text u = Ok text
     /\ Json.parse text = Ok data
     /\ Buffered.content_of data = Ok (VString s)
     /\ result_of (Buffered.handler apiKey fetch req) = json 200 (lit "reply") (trim s)
     /\ console (Buffered.handler apiKey fetch req) = [])
  \/ (result_of (Buffered.handler apiKey fetch req) = json 500 (lit "reply") apology
      /\ exists e, console (Buffered.handler apiKey fetch req) = [LogChatApiError e]).
Proof.
  intros Hin.
  destruct (buffered_called _ _ _ _ Hin)
    as (k & body & q & context & sp & _ & _ & Hsp & Hc & _ & ->).
  unfold Buffered.callOpenAI. rewrite Hsp. cbv zeta. rewrite <- Hc.
  destruct (fetch c) as [e | u]; [now (right; split; [| eexists]) |].
  destruct (ok u) eqn:Hok; cbn [negb]; cycle 1.
  - destruct (body_text u) as [err | e]; now (right; split; [| eexists]).
  - destruct (body_text u) as [text | e] eqn:Htext;
      cbn [bind]; [| now (right; split; [| eexists])].
    destruct (Json.parse text) as [data | e] eqn:Hdata;
      cbn [bind]; [| now (right; split; [| eexists])].
    destruct (Buffered.content_of data) as [x | e] eqn:Hx;
      cbn [bind]; [| now (right; split; [| eexists])].
    destruct x; try now (right; split; [| eexists]).
    left. exists u, text, data, s. auto 10.
Qed.

Lemma buffered_call_ends_in_reply_or_apology_witness :
  (exists u text data s,
     answering
       (FetchCall endpoint (lit "Bearer sk-test")
          (CompletionRequest (lit "gpt-4o-mini")
             [Message (lit "system") (Buffered.persona ++ Buffered.no_articles);
              Message (lit "user") (lit "Hi")]
             1024 (decimal false 3 (-1)) None)) = Resolved u
     /\ ok u = true
     /\ body_text u = Ok text
     /\ Json.parse text = Ok data
     /\ Buffered.content_of data = Ok (VString s)
     /\ result_of
          (Buffered.handler (Some (lit "sk-test")) answering
             (Request (lit "POST") (VObject [(lit "question", VString (lit "Hi"))])))
        = json 200 (lit "reply") (trim s)
     /\ console
          (Buffered.handler (Some (lit "sk-test")) answering
             (Request (lit "POST") (VObject [(lit "question", VString (lit "Hi"))])))
        = [])
  \/ (result_of
        (Buffered.handler (Some (lit "sk-test")) answering
           (Request (lit "POST") (VObject [(lit "question", VString (lit "Hi"))])))
      = json 500 (lit "reply") apology
      /\ exists e,
           console
             (Buffered.handler (Some (lit "sk-test")) answering
                (Request (lit "POST") (VObject [(lit "question", VString (lit "Hi"))])))
           = [LogChatApiError e]).
Proof.
  apply (buffered_call_ends_in_reply_or_apology (Some (lit "sk-test")) answering
           (Request (lit "POST") (VObject [(lit "question", VString (lit "Hi"))]))).
  vm_compute. left. reflexivity.
Defined.

Ltac answered :=
  let H := fresh "H" in
  unfold answers_within; cbn [result_of]; intros ? H; injection H as <-;
  cbn [res_status res_headers];
  (split; [reflexivity |]);
  (split; [cbn; tauto |]);
  split; (split; intros; first [reflexivity | discriminate | tauto]).

Lemma stream_complete_answers (fetch : provider) (k : jstring) (msgs : list message)
  (r : response) :
  result_of (Stream.complete fetch k msgs) = Responded r ->
  firstn 3 (res_headers r) = cors /\ res_status r = 200%Z.
Proof.
  unfold Stream.complete. destruct (fetch _) as [e | u].
  - intros H. injection H as <-. now split.
  - destruct (negb (ok u)).
    + destruct (body_text u); intros H; injection H as <-; now split.
    + destruct (body_of u) as [[reads [e |]] |];
        intros H; injection H as <-; now split.
Qed.

Lemma buffered_call_answers (fetch : provider) (k q : jstring) (context : value)
  (r : response) :
  result_of
    match Buffered.callOpenAI fetch k q context with
    | (Ok reply, calls) => Outcome (json 200 (lit "reply") reply) calls []
    | (Throw e, calls) =>
        Outcome (json 500 (lit "reply") apology) calls [LogChatApiError e]
    end = Responded r ->
  firstn 3 (res_headers r) = cors /\ (res_status r = 200%Z \/ res_status r = 500%Z).
Proof.
  destruct (Buffered.callOpenAI fetch k q context) as [[reply | e] calls];
    intros H; injection H as <-; split; auto.
Qed.

Lemma friendly_call_answers (fetch : provider) (k q : jstring) (context : value)
  (r : response) :
  result_of
    match Friendly.callOpenAI fetch k q context with
    | (Ok reply, calls) => Outcome (json 200 (lit "reply") reply) calls []
    | (Throw e, calls) =>
        Outcome (json 500 (lit "reply") apology) calls [LogChatApiError e]
    end = Responded r ->
  firstn 3 (res_headers r) = cors /\ (res_status r = 200%Z \/ res_status r = 500%Z).
Proof.
  destruct (Friendly.callOpenAI fetch k q context) as [[reply | e] calls];
    intros H; injection H as <-; split; auto.
Qed.

Ltac by_method Hopt Hpost :=
  match goal with
  | |- context [streq (req_method ?req) (lit "OPTIONS")] =>
      destruct (streq (req_method req) (lit "OPTIONS")) eqn:Hopt;
      [apply AssemblerFacts.streq_eq in Hopt | apply streq_neq in Hopt]
  end;
  [| match goal with
     | |- context [streq (req_method ?req) (lit "POST")] =>
         destruct (streq (req_method req) (lit "POST")) eqn:Hpost;
         [apply AssemblerFacts.streq_eq in Hpost | apply streq_neq in Hpost]
     end; cbn [negb]].

(** X16. Every response of the three handlers starts with the three CORS
    headers.  The streaming handler answers 200, 204, 400 or 405 and never
    500; the buffered handlers can also answer 500.  The status is 204
    exactly for OPTIONS, and 405 exactly for a method that is neither
    OPTIONS nor POST, whatever the key, the body and the provider. *)
Theorem responses_carry_cors_and_known_status
  (apiKey : option jstring) (fetch : provider) (req : request) :
  answers_within [200; 204; 400; 405]%Z req
    (result_of (Stream.handler apiKey fetch req))
  /\ answers_within [200; 204; 400; 405; 500]%Z req
       (result_of (Buffered.handler apiKey fetch req))
  /\ answers_within [200; 204; 400; 405; 500]%Z req
       (result_of (Friendly.handler apiKey fetch req)).
Proof.
  unfold answers_within. split; [| split].
  - unfold Stream.handler. by_method Hopt Hpost; [answered | | answered].
    destruct (missing apiKey); [answered |].
    destruct (read_body req) as [body | e]; [| answered].
    cbv zeta.
    match goal with
    | |- context [result_of match ?p with _ => _ end] =>
        destruct p as [[msgs |] | e]
    end; [| answered | intros r H; discriminate H].
    intros r H. destruct (stream_complete_answers _ _ _ _ H) as [Hcors ->].
    split; [exact Hcors |]. split; [cbn; tauto |].
    split; (split; intros; first [reflexivity | discriminate | tauto]).
  - unfold Buffered.handler. by_method Hopt Hpost; [answered | | answered].
    destruct (missing apiKey); [answered |].
    destruct (read_body req) as [body | e]; [| answered].
    cbv zeta.
    match goal with
    | |- context [result_of match ?p with _ => _ end] =>
        destruct p as [[[| c q] context] | e]
    end; [answered | | intros r H; discriminate H].
    intros r H. destruct (buffered_call_answers _ _ _ _ _ H) as [Hcors [-> | ->]].
    + split; [exact Hcors |]. split; [cbn; tauto |].
      split; (split; intros; first [reflexivity | discriminate | tauto]).
    + split; [exact Hcors |]. split; [cbn; tauto |].
      split; (split; intros; first [reflexivity | discriminate | tauto]).
  - unfold Friendly.handler. by_method Hopt Hpost; [answered | | answered].
    destruct (missing apiKey); [answered |].
    destruct (read_body req) as [body | e]; [| answered].
    cbv zeta.
    match goal with
    | |- context [result_of match ?p with _ => _ end] =>
        destruct p as [[[| c q] context] | e]
    end; [answered | | intros r H; discriminate H].
    intros r H. destruct (friendly_call_answers _ _ _ _ _ H) as [Hcors [-> | ->]].
    + split; [exact Hcors |]. split; [cbn; tauto |].
      split; (split; intros; first [reflexivity | discriminate | tauto]).
    + split; [exact Hcors |]. split; [cbn; tauto |].
      split; (split; intros; first [reflexivity | discriminate | tauto]).
Qed.

Lemma read_body_throws (req : request) (e : error) :
  read_body req = Throw e ->
  exists text, req_body req = VString text /\ Json.parse text = Throw e.
Proof.
  unfold read_body. destruct (req_body req); try discriminate. eauto.
Qed.

Lemma read_body_nullish (req : request) (body : value) :
  read_body req = Ok body -> nullish body = true ->
  exists text, req_body req = VString text /\ Json.parse text = Ok body.
Proof.
  unfold read_body, or_else.
  destruct (req_body req) as [| | b | n | s | a | o] eqn:Hb; cbn [truthy];
    try (intros H; injection H as <-; discriminate); eauto.
  - destruct b; intros H; injection H as <-; discriminate.
  - destruct (negb (number_is_zero n)); intros H; injection H as <-; discriminate.
Qed.

Lemma not_invalid_json_200 (name text : jstring) : json 200 name text <> invalid_json.
Proof. discriminate. Qed.

Lemma not_invalid_json_500 (name text : jstring) : json 500 name text <> invalid_json.
Proof. discriminate. Qed.

Lemma not_invalid_json_405 (name text : jstring) : json 405 name text <> invalid_json.
Proof. discriminate. Qed.

Lemma missing_question_is_not_invalid_json :
  json 400 (lit "error") (lit "Missing question") <> invalid_json.
Proof. intros H. vm_compute in H. discriminate. Qed.

Ltac not_invalid :=
  let H := fresh "H" in
  cbn [result_of]; intros H; exfalso;
  first [ discriminate H
        | unfold Stream.caught, invalid_json, json in H; discriminate H
        | exact (not_invalid_json_200 _ _ H)
        | exact (not_invalid_json_500 _ _ H)
        | exact (not_invalid_json_405 _ _ H)
        | exact (missing_question_is_not_invalid_json H) ].

Ltac unparsable Hopt Hpost Hkey Hbody :=
  split; [exact Hpost |]; split; [exact Hkey |];
  destruct (read_body_throws _ _ Hbody) as [text [? ?]]; eauto.

(** X17. Each of the three handlers answers 400 with the error Invalid
    JSON exactly for a POST, with the key configured, whose body is a
    string that does not parse; and then it does not call the
    provider. *)
Theorem invalid_json_exactly_for_unparsable_post
  (apiKey : option jstring) (fetch : provider) (req : request) :
  (result_of (Stream.handler apiKey fetch req) = invalid_json
   <-> unparsable_post apiKey req)
  /\ (result_of (Buffered.handler apiKey fetch req) = invalid_json
      <-> unparsable_post apiKey req)
  /\ (result_of (Friendly.handler apiKey fetch req) = invalid_json
      <-> unparsable_post apiKey req)
  /\ (unparsable_post apiKey req ->
      fetch_calls (Stream.handler apiKey fetch req) = []
      /\ fetch_calls (Buffered.handler apiKey fetch req) = []
      /\ fetch_calls (Friendly.handler apiKey fetch req) = []).
Proof.
  assert (Hback : unparsable_post apiKey req ->
                  Stream.handler apiKey fetch req = Outcome invalid_json [] []
                  /\ Buffered.handler apiKey fetch req = Outcome invalid_json [] []
                  /\ Friendly.handler apiKey fetch req = Outcome invalid_json [] []).
  { intros (Hpost & Hkey & text & e & Hbody & Hparse).
    unfold Stream.handler, Buffered.handler, Friendly.handler, read_body.
    rewrite Hpost, HandlerFacts.post_is_not_options, HandlerFacts.post_is_post, Hkey,
      Hbody, Hparse. cbn [negb]. auto. }
  split; [| split; [| split]].
  - split; [| now intros H; destruct (Hback H) as (-> & _)].
    unfold Stream.handler. by_method Hopt Hpost; [not_invalid | | not_invalid].
    destruct (missing apiKey) eqn:Hkey; [not_invalid |].
    destruct (read_body req) as [body | e] eqn:Hbody;
      [| intros _; unparsable Hopt Hpost Hkey Hbody].
    cbv zeta.
    match goal with
    | |- context [result_of match ?p with _ => _ end] =>
        destruct p as [[msgs |] | e]
    end; [| not_invalid | not_invalid].
    unfold Stream.complete. destruct (fetch _) as [e | u]; [not_invalid |].
    destruct (negb (ok u));
      [destruct (body_text u) | destruct (body_of u) as [[reads [e' |]] |]];
      not_invalid.
  - split; [| now intros H; destruct (Hback H) as (_ & -> & _)].
    unfold Buffered.handler. by_method Hopt Hpost; [not_invalid | | not_invalid].
    destruct (missing apiKey) eqn:Hkey; [not_invalid |].
    destruct (read_body req) as [body | e] eqn:Hbody;
      [| intros _; unparsable Hopt Hpost Hkey Hbody].
    cbv zeta.
    match goal with
    | |- context [result_of match ?p with _ => _ end] =>
        destruct p as [[[| c q] context] | e]
    end; [not_invalid | | not_invalid].
    destruct (Buffered.callOpenAI _ _ _ _) as [[reply | e] calls]; not_invalid.
  - split; [| now intros H; destruct (Hback H) as (_ & _ & ->)].
    unfold Friendly.handler. by_method Hopt Hpost; [not_invalid | | not_invalid].
    destruct (missing apiKey) eqn:Hkey; [not_invalid |].
    destruct (read_body req) as [body | e] eqn:Hbody;
      [| intros _; unparsable Hopt Hpost Hkey Hbody].
    cbv zeta.
    match goal with
    | |- context [result_of match ?p with _ => _ end] =>
        destruct p as [[[| c q] context] | e]
    end; [not_invalid | | not_invalid].
    destruct (Friendly.callOpenAI _ _ _ _) as [[reply | e] calls]; not_invalid.
  - intros H. destruct (Hback H) as (-> & -> & ->). auto.
Qed.

Ltac not_rejected :=
  let H := fresh "H" in
  cbn [result_of]; intros H; exfalso; discriminate H.

Lemma read_question_throws (body : value) (e : error) :
  read_question body = Throw e -> nullish body = true /\ e = TypeError.
Proof.
  unfold read_question. destruct body; cbn; intros H; try discriminate;
    injection H as <-; auto.
Qed.

Lemma prepared_throws (body : value) (e : error) :
  (question <- read_question body ;;
   context <- read_array body (lit "context") ;;
   Ok (question, context)) = Throw e ->
  nullish body = true /\ e = TypeError.
Proof.
  destruct (read_question body) as [q | e'] eqn:Hq; cbn [bind].
  - unfold read_question in Hq.
    destruct (get body (lit "question")) as [x | e''] eqn:Hx; [| discriminate].
    pose proof (get_ok_not_nullish _ _ _ Hx) as Hbody.
    destruct (HandlerFacts.read_array_of_value body (lit "context") Hbody) as [a ->].
    discriminate.
  - intros H. injection H as <-. now apply read_question_throws.
Qed.

Ltac null_body Hpost Hkey Hbody :=
  let H := fresh "H" in
  cbn [result_of]; intros H; injection H as <-;
  match goal with
  | Hp : _ = Throw _ |- _ =>
      destruct (prepared_throws _ _ Hp) as [Hnull ->];
      split; [| reflexivity];
      split; [exact Hpost |]; split; [exact Hkey |];
      destruct (read_body_nullish _ _ Hbody Hnull) as [text [? ?]]; eauto 6
  end.

(** X18. A buffered handler rejects, in place of answering, exactly for a
    POST with the key configured whose body is a string that parses to
    null, and the exception is then a TypeError; the streaming handler
    rejects on such a request too, and none of them calls the provider or
    logs. *)
Theorem null_body_is_the_only_rejection_of_buffered
  (apiKey : option jstring) (fetch : provider) (req : request) (e : error) :
  (result_of (Buffered.handler apiKey fetch req) = Unhandled e
   <-> null_post apiKey req /\ e = TypeError)
  /\ (result_of (Friendly.handler apiKey fetch req) = Unhandled e
      <-> null_post apiKey req /\ e = TypeError)
  /\ (null_post apiKey req ->
      Stream.handler apiKey fetch req = Outcome (Unhandled TypeError) [] []
      /\ Buffered.handler apiKey fetch req = Outcome (Unhandled TypeError) [] []
      /\ Friendly.handler apiKey fetch req = Outcome (Unhandled TypeError) [] []).
Proof.
  assert (Hback : null_post apiKey req ->
            Stream.handler apiKey fetch req = Outcome (Unhandled TypeError) [] []
            /\ Buffered.handler apiKey fetch req = Outcome (Unhandled TypeError) [] []
            /\ Friendly.handler apiKey fetch req = Outcome (Unhandled TypeError) [] []).
  { intros (Hpost & Hkey & text & body & Hbody & Hparse & Hnull).
    unfold Stream.handler, Buffered.handler, Friendly.handler, read_body, read_question.
    rewrite Hpost, HandlerFacts.post_is_not_options, HandlerFacts.post_is_post, Hkey,
      Hbody, Hparse, (get_nullish _ _ Hnull). cbn [negb bind]. auto. }
  split; [| split; [| exact Hback]].
  - split; [| now intros [H ->]; destruct (Hback H) as (_ & -> & _)].
    unfold Buffered.handler. by_method Hopt Hpost; [not_rejected | | not_rejected].
    destruct (missing apiKey) eqn:Hkey; [not_rejected |].
    destruct (read_body req) as [body | e'] eqn:Hbody; [| not_rejected].
    cbv zeta.
    match goal with
    | |- context [result_of match ?p with _ => _ end] =>
        destruct p as [[[| c q] context] | e'] eqn:Hprepared
    end; [not_rejected | | null_body Hpost Hkey Hbody].
    destruct (Buffered.callOpenAI _ _ _ _) as [[reply | e'] calls]; not_rejected.
  - split; [| now intros [H ->]; destruct (Hback H) as (_ & _ & ->)].
    unfold Friendly.handler. by_method Hopt Hpost; [not_rejected | | not_rejected].
    destruct (missing apiKey) eqn:Hkey; [not_rejected |].
    destruct (read_body req) as [body | e'] eqn:Hbody; [| not_rejected].
    cbv zeta.
    match goal with
    | |- context [result_of match ?p with _ => _ end] =>
        destruct p as [[[| c q] context] | e'] eqn:Hprepared
    end; [not_rejected | | null_body Hpost Hkey Hbody].
    destruct (Friendly.callOpenAI _ _ _ _) as [[reply | e'] calls]; not_rejected.
Qed.

Lemma null_body_is_the_only_rejection_of_buffered_witness :
  Stream.handler (Some (lit "sk-test")) unreachable
    (Request (lit "POST") (VString (lit "null")))
  = Outcome (Unhandled TypeError) [] []
  /\ Buffered.handler (Some (lit "sk-test")) unreachable
       (Request (lit "POST") (VString (lit "null")))
     = Outcome (Unhandled TypeError) [] []
  /\ Friendly.handler (Some (lit "sk-test")) unreachable
       (Request (lit "POST") (VString (lit "null")))
     = Outcome (Unhandled TypeError) [] [].
Proof.
  apply (null_body_is_the_only_rejection_of_buffered (Some (lit "sk-test")) unreachable
           (Request (lit "POST") (VString (lit "null"))) TypeError).
  split; [reflexivity |]. split; [reflexivity |].
  exists (lit "null"), VNull. repeat split.
Defined.

Lemma reached_question (apiKey : option jstring) (req : request)
  (k : jstring) (body : value) (q : jstring) :
  reaches_call apiKey req k body q ->
  read_question body = Ok q /\ nullish body = false /\ missing apiKey = false.
Proof.
  intros [[-> Hk] _ _ (raw & Hraw & ->) _]. unfold read_question. rewrite Hraw.
  repeat split.
  - exact (get_ok_not_nullish _ _ _ Hraw).
  - destruct k; [contradiction | reflexivity].
Qed.

Lemma stream_reached (apiKey : option jstring) (fetch : provider) (req : request)
  (k : jstring) (body : value) (q : jstring) (context history : value) :
  reaches_call apiKey req k body q ->
  read_array body (lit "context") = Ok context ->
  read_array body (lit "history") = Ok history ->
  Stream.handler apiKey fetch req
  = match (systemPrompt <- Stream.buildSystemPrompt context ;;
           Stream.buildMessages systemPrompt q history) with
    | Ok msgs => Stream.complete fetch k msgs
    | Throw e => Outcome (Unhandled e) [] []
    end.
Proof.
  intros Hreach Hc Hh.
  destruct (reached_question _ _ _ _ _ Hreach) as (Hq & _ & Hkey).
  destruct Hreach as [[Hk _] Hpost Hbody _ Hblank].
  unfold Stream.handler.
  rewrite Hpost, HandlerFacts.post_is_not_options, HandlerFacts.post_is_post, Hkey,
    Hbody. cbn [negb]. cbv zeta. rewrite Hq, Hc, Hh. cbn [bind].
  destruct q as [| c q]; [contradiction |]. subst apiKey.
  destruct (Stream.buildSystemPrompt context) as [sp | e]; cbn [bind]; [| reflexivity].
  now destruct (Stream.buildMessages sp (c :: q) history).
Qed.

Lemma buffered_reached (apiKey : option jstring) (fetch : provider) (req : request)
  (k : jstring) (body : value) (q : jstring) (context : value) :
  reaches_call apiKey req k body q ->
  read_array body (lit "context") = Ok context ->
  Buffered.handler apiKey fetch req
  = match Buffered.callOpenAI fetch k q context with
    | (Ok reply, calls) => Outcome (json 200 (lit "reply") reply) calls []
    | (Throw e, calls) =>
        Outcome (json 500 (lit "reply") apology) calls [LogChatApiError e]
    end.
Proof.
  intros Hreach Hc.
  destruct (reached_question _ _ _ _ _ Hreach) as (Hq & _ & Hkey).
  destruct Hreach as [[Hk _] Hpost Hbody _ Hblank].
  unfold Buffered.handler.
  rewrite Hpost, HandlerFacts.post_is_not_options, HandlerFacts.post_is_post, Hkey,
    Hbody. cbn [negb]. cbv zeta. rewrite Hq, Hc. cbn [bind].
  destruct q as [| c q]; [contradiction |]. now subst apiKey.
Qed.

Lemma friendly_reached (apiKey : option jstring) (fetch : provider) (req : request)
  (k : jstring) (body : value) (q : jstring) (context : value) :
  reaches_call apiKey req k body q ->
  read_array body (lit "context") = Ok context ->
  Friendly.handler apiKey fetch req
  = match Friendly.callOpenAI fetch k q context with
    | (Ok reply, calls) => Outcome (json 200 (lit "reply") reply) calls []
    | (Throw e, calls) =>
        Outcome (json 500 (lit "reply") apology) calls [LogChatApiError e]
    end.
Proof.
  intros Hreach Hc.
  destruct (reached_question _ _ _ _ _ Hreach) as (Hq & _ & Hkey).
  destruct Hreach as [[Hk _] Hpost Hbody _ Hblank].
  unfold Friendly.handler.
  rewrite Hpost, HandlerFacts.post_is_not_options, HandlerFacts.post_is_post, Hkey,
    Hbody. cbn [negb]. cbv zeta. rewrite Hq, Hc. cbn [bind].
  destruct q as [| c q]; [contradiction |]. now subst apiKey.
Qed.

(** X19. An exception of the assembler, for a request that got past the
    checks, ends the handlers differently: the streaming handler rejects
    with it, be it from the system prompt or from the messages, while the
    buffered handlers catch it, answer 500 with the apology and log it.
    None of them has called the provider. *)
Theorem assembler_exception_rejects_stream_only
  (apiKey : option jstring) (fetch : provider) (req : request)
  (k : jstring) (body : value) (q : jstring) (context history : value) (e : error) :
  reaches_call apiKey req k body q ->
  read_array body (lit "context") = Ok context ->
  read_array body (lit "history") = Ok history ->
  (Stream.buildSystemPrompt context = Throw e ->
   Stream.handler apiKey fetch req = Outcome (Unhandled e) [] [])
  /\ (forall systemPrompt,
        Stream.buildSystemPrompt context = Ok systemPrompt ->
        Stream.buildMessages systemPrompt q history = Throw e ->
        Stream.handler apiKey fetch req = Outcome (Unhandled e) [] [])
  /\ (Buffered.buildSystemPrompt context = Throw e ->
      Buffered.handler apiKey fetch req
      = Outcome (json 500 (lit "reply") apology) [] [LogChatApiError e])
  /\ (Friendly.buildSystemPrompt context = Throw e ->
      Friendly.handler apiKey fetch req
      = Outcome (json 500 (lit "reply") apology) [] [LogChatApiError e]).
Proof.
  intros Hreach Hc Hh. repeat split.
  - intros Hsp. now rewrite (stream_reached _ _ _ _ _ _ _ _ Hreach Hc Hh), Hsp.
  - intros sp Hsp Hm.
    rewrite (stream_reached _ _ _ _ _ _ _ _ Hreach Hc Hh), Hsp. cbn [bind].
    now rewrite Hm.
  - intros Hsp.
    now rewrite (buffered_reached _ _ _ _ _ _ _ Hreach Hc), (buffered_no_prompt _ _ _ _ _ Hsp).
  - intros Hsp.
    now rewrite (friendly_reached _ _ _ _ _ _ _ Hreach Hc), (friendly_no_prompt _ _ _ _ _ Hsp).
Qed.

Lemma assembler_exception_rejects_stream_only_witness :
  Stream.handler (Some (lit "sk-test")) unreachable null_entry
  = Outcome (Unhandled TypeError) [] []
  /\ Buffered.handler (Some (lit "sk-test")) unreachable null_entry
     = Outcome (json 500 (lit "reply") apology) [] [LogChatApiError TypeError].
Proof.
  destruct (assembler_exception_rejects_stream_only (Some (lit "sk-test")) unreachable
              null_entry (lit "sk-test") (req_body null_entry) (lit "Hi")
              (VArray [VNull]) (VArray []) TypeError)
    as (Hstream & _ & Hbuffered & _).
  - constructor.
    + split; [reflexivity | discriminate].
    + reflexivity.
    + reflexivity.
    + exists (lit "Hi"). split; reflexivity.
    + discriminate.
  - reflexivity.
  - reflexivity.
  - split; [apply Hstream | apply Hbuffered]; reflexivity.
Defined.

Lemma prompts_differ_in_persona (context : value) :
  (exists e, Friendly.buildSystemPrompt context = Throw e
             /\ Buffered.buildSystemPrompt context = Throw e)
  \/ (exists articles,
        Friendly.buildSystemPrompt context = Ok (Friendly.persona ++ articles)
        /\ Buffered.buildSystemPrompt context = Ok (Buffered.persona ++ articles)).
Proof.
  unfold Friendly.buildSystemPrompt, Buffered.buildSystemPrompt.
  change Friendly.MAX_CONTEXT_ITEMS with Buffered.MAX_CONTEXT_ITEMS.
  destruct (call_slice (or_else context (VArray [])) 0 (Some Buffered.MAX_CONTEXT_ITEMS))
    as [first | e]; cbn [bind]; [| left; eauto].
  assert (Hblocks : forall items, mapM Friendly.block items = mapM Buffered.block items)
    by reflexivity.
  destruct first; cbn [bind]; try (left; eauto; fail).
  rewrite Hblocks.
  destruct (mapM Buffered.block elems) as [blocks | e]; cbn [bind]; [| left; eauto].
  right. eexists. split; reflexivity.
Qed.

(** X20. The buffered handler with the friendly persona behaves as the
    buffered handler of api/chat.js: their system prompts fail alike or
    differ in the persona before the same articles, and against a provider
    that answers alike they settle alike, log alike, and make the same
    calls apart from the system prompt and the temperature, 0.5 for the
    one and 0.3 for the other. *)
Theorem friendly_differs_only_in_persona
  (apiKey : option jstring) (answer : fetch_result) (req : request) :
  (forall context,
     (exists e, Friendly.buildSystemPrompt context = Throw e
                /\ Buffered.buildSystemPrompt context = Throw e)
     \/ (exists articles,
           Friendly.buildSystemPrompt context = Ok (Friendly.persona ++ articles)
           /\ Buffered.buildSystemPrompt context = Ok (Buffered.persona ++ articles)))
  /\ result_of (Friendly.handler apiKey (fun _ => answer) req)
    = result_of (Buffered.handler apiKey (fun _ => answer) req)
  /\ console (Friendly.handler apiKey (fun _ => answer) req)
     = console (Buffered.handler apiKey (fun _ => answer) req)
  /\ map apart_from_persona (fetch_calls (Friendly.handler apiKey (fun _ => answer) req))
     = map apart_from_persona (fetch_calls (Buffered.handler apiKey (fun _ => answer) req))
  /\ (forall c, In c (fetch_calls (Friendly.handler apiKey (fun _ => answer) req)) ->
        temperature (payload c) = decimal false 5 (-1))
  /\ (forall c, In c (fetch_calls (Buffered.handler apiKey (fun _ => answer) req)) ->
        temperature (payload c) = decimal false 3 (-1)).
Proof.
  split; [exact prompts_differ_in_persona |].
  unfold Friendly.handler, Buffered.handler.
  destruct (streq (req_method req) (lit "OPTIONS"));
    [repeat split; intros c [] |].
  destruct (negb (streq (req_method req) (lit "POST")));
    [repeat split; intros c [] |].
  destruct (missing apiKey); [repeat split; intros c [] |].
  destruct (read_body req) as [body | e]; [| repeat split; intros c []].
  cbv zeta.
  destruct (read_question body) as [q | e]; cbn [bind];
    [| repeat split; intros c []].
  destruct (read_array body (lit "context")) as [context | e]; cbn [bind];
    [| repeat split; intros c []].
  destruct q as [| u q]; [repeat split; intros c [] |].
  unfold Friendly.callOpenAI, Buffered.callOpenAI.
  destruct (prompts_differ_in_persona context)
    as [(e & -> & ->) | (articles & -> & ->)];
    [repeat split; intros c [] |].
  cbv zeta. change Friendly.content_of with Buffered.content_of.
  destruct answer as [e | res].
  - repeat split; intros c [<- | []]; reflexivity.
  - destruct (negb (ok res)).
    + destruct (body_text res) as [err | e]; cbn [bind];
        repeat split; intros c [<- | []]; reflexivity.
    + destruct (text <- body_text res ;;
                data <- Json.parse text ;;
                c <- Buffered.content_of data ;;
                match c with
                | VString s => Ok (trim s)
                | _ => Throw (Error (lit "Invalid response from OpenAI"))
                end) as [reply | e];
        repeat split; intros c [<- | []]; reflexivity.
Qed.

Lemma lookup_other (key name : jstring) (v : value) (pre post : list (jstring * value)) :
  streq name key = false ->
  lookup key (pre ++ (name, v) :: post) = lookup key (pre ++ post).
Proof.
  intros Hname. induction pre as [| [k x] pre IH].
  - cbn [app lookup]. rewrite Hname. now destruct (lookup key post).
  - cbn [app lookup]. now rewrite IH.
Qed.

Lemma get_other (key name : jstring) (v : value) (pre post : list (jstring * value)) :
  streq name key = false ->
  get (VObject (pre ++ (name, v) :: post)) key = get (VObject (pre ++ post)) key.
Proof. intros Hname. cbn [get]. now rewrite (lookup_other _ _ _ _ _ Hname). Qed.

(** X22. The handlers read nothing of the body but their own fields:
    a member with another name, whatever its value and its place, changes
    nothing of a run of the buffered handlers, which read the question and
    the context and so ignore the history, nor of a run of the streaming
    handler, which reads the history as well. *)
Theorem handlers_read_only_their_fields
  (apiKey : option jstring) (fetch : provider) (method name : jstring) (v : value)
  (pre post : list (jstring * value)) :
  streq name (lit "question") = false ->
  streq name (lit "context") = false ->
  Buffered.handler apiKey fetch (Request method (VObject (pre ++ (name, v) :: post)))
  = Buffered.handler apiKey fetch (Request method (VObject (pre ++ post)))
  /\ Friendly.handler apiKey fetch (Request method (VObject (pre ++ (name, v) :: post)))
     = Friendly.handler apiKey fetch (Request method (VObject (pre ++ post)))
  /\ (streq name (lit "history") = false ->
      Stream.handler apiKey fetch (Request method (VObject (pre ++ (name, v) :: post)))
      = Stream.handler apiKey fetch (Request method (VObject (pre ++ post)))).
Proof.
  intros Hq Hc. repeat split.
  - unfold Buffered.handler, read_body, read_question, read_array.
    cbn [req_method req_body or_else truthy].
    now rewrite !(get_other _ _ v pre post Hq), !(get_other _ _ v pre post Hc).
  - unfold Friendly.handler, read_body, read_question, read_array.
    cbn [req_method req_body or_else truthy].
    now rewrite !(get_other _ _ v pre post Hq), !(get_other _ _ v pre post Hc).
  - intros Hh. unfold Stream.handler, read_body, read_question, read_array.
    cbn [req_method req_body or_else truthy].
    now rewrite !(get_other _ _ v pre post Hq), !(get_other _ _ v pre post Hc),
      !(get_other _ _ v pre post Hh).
Qed.

Lemma handlers_read_only_their_fields_witness :
  Buffered.handler (Some (lit "sk-test")) answering
    (Request (lit "POST")
       (VObject [(lit "question", VString (lit "Hi")); (lit "history", VArray [VNull])]))
  = Buffered.handler (Some (lit "sk-test")) answering
      (Request (lit "POST") (VObject [(lit "question", VString (lit "Hi"))])).
Proof.
  exact (proj1 (handlers_read_only_their_fields (Some (lit "sk-test")) answering
                  (lit "POST") (lit "history") (VArray [VNull])
                  [(lit "question", VString (lit "Hi"))] [] eq_refl eq_refl)).
Defined.

End HandlerPaths.
